(** * Session and resource coordination of the WebRTC conference
      (webrtc-node/server.js, webrtc-node/public/client.js)

    A shallow embedding of the room state of the signalling server and of
    the [VideoConference] class of the browser client, with the properties
    of the slot pools, of the resource directory, of the buffering of
    creation events, of the consumption pipeline and of the swap gesture.

    Conventions.
    - A JS [Map] is an insertion-ordered association list with string keys
      ([JSMap]): [forEach] walks it in insertion order, and the server
      builds snapshots and event sequences from that order.
    - A JS number that holds a slot index is a [Z]; [null] and [undefined]
      are [None].
    - Handles of the media engine (mediasoup transports, producers,
      consumers) are opaque: an entry keeps the handle's id.  What the
      engine answers to a request is an argument of the handler that makes
      the request.
    - A handler returns the new state together with what it sends; an
      [await] inside a handler splits it in the part before and the part
      after the suspension. *)

From Stdlib Require Import ZArith List String Bool Lia.
From Stdlib Require Import Sorting.Sorted Sorting.Permutation.
From Stdlib Require Import DecimalString.
Import ListNotations.

Local Open Scope string_scope.
Local Open Scope Z_scope.

(** ** JavaScript values used by both programs *)

(** Truthiness of a string-valued JSON field that may be absent. *)
Definition truthy (v : option string) : bool :=
  match v with
  | Some s => negb (String.eqb s EmptyString)
  | None => false
  end.

(** [v || d] on such a field. *)
Definition js_or (v : option string) (d : string) : string :=
  if truthy v then match v with Some s => s | None => d end else d.

(** [a === b] where [a] may be absent and [b] is a string. *)
Definition strict_eq (a : option string) (b : string) : bool :=
  match a with
  | Some s => String.eqb s b
  | None => false
  end.

(** Template-literal rendering of a number that may be [undefined]. *)
Definition show_index (i : option Z) : string :=
  match i with
  | Some z => NilZero.string_of_int (Z.to_int z)
  | None => "undefined"
  end.

(** ** Insertion-ordered maps *)

Module JSMap.

Definition t (V : Type) : Type := list (string * V).

Definition empty {V : Type} : t V := [].

Fixpoint get {V : Type} (k : string) (m : t V) : option V :=
  match m with
  | [] => None
  | (k', v) :: rest => if String.eqb k k' then Some v else get k rest
  end.

Definition has {V : Type} (k : string) (m : t V) : bool :=
  match get k m with
  | Some _ => true
  | None => false
  end.

(** [set] keeps the position of a key that is present and appends a
    new one. *)
Fixpoint set {V : Type} (k : string) (v : V) (m : t V) : t V :=
  match m with
  | [] => [(k, v)]
  | (k', v') :: rest =>
      if String.eqb k k' then (k, v) :: rest else (k', v') :: set k v rest
  end.

Definition delete {V : Type} (k : string) (m : t V) : t V :=
  filter (fun e => negb (String.eqb k (fst e))) m.

Definition size {V : Type} (m : t V) : Z := Z.of_nat (List.length m).

Definition keys {V : Type} (m : t V) : list string := map fst m.


(** [forEach] over a map whose callback updates a state [S] (which may
    contain the map itself): the callback sees the entries of the map in
    insertion order.  Every callback of the two programs deletes at most
    the entry it is visiting, so the entries visited are those present
    when the loop starts. *)
Definition forEach {V S : Type} (f : string -> V -> S -> S)
    (m : t V) (s : S) : S :=
  fold_left (fun acc e => f (fst e) (snd e) acc) m s.

Definition wf {V : Type} (m : t V) : Prop := NoDup (keys m).

End JSMap.

(** ** Arrays of indices *)

Module JSArray.

(** [a.shift()]: the removed head ([undefined] on an empty array) and
    the array left. *)
Definition shift (a : list Z) : option Z * list Z :=
  match a with
  | [] => (None, [])
  | x :: rest => (Some x, rest)
  end.

Definition push (x : Z) (a : list Z) : list Z := a ++ [x].

Fixpoint insert_asc (x : Z) (a : list Z) : list Z :=
  match a with
  | [] => [x]
  | y :: rest => if x <=? y then x :: y :: rest else y :: insert_asc x rest
  end.

(** [a.sort((a, b) => a - b)]: a stable ascending sort.  The elements
    are integers, so the result is the one ascending arrangement of the
    array whatever the engine's algorithm; it is computed here by
    insertion from the right, which keeps equal elements in their
    order. *)
Definition sort_asc (a : list Z) : list Z :=
  fold_right insert_asc [] a.

(** [Array.from({ length: n }, (_, i) => i)] *)
Definition from_length (n : Z) : list Z :=
  map Z.of_nat (seq 0 (Z.to_nat n)).

End JSArray.

(** ** What travels between server and client *)

(** A producer as the server describes it to clients: an element of
    [currentProducers] in the [init] snapshot ([getAllProducers]) or the
    payload of [new-producer] / [new-presentation].  A field that a
    payload does not carry is [None] ([isScreen]: [false]). *)
Record Descriptor : Type := mkDescriptor {
  d_id : string;
  d_socketId : option string;
  d_kind : string;
  d_source : option string;
  d_peerName : string;
  d_isScreen : bool;
  d_userIndex : option Z;
  d_presentationIndex : option Z
}.

(** A participant as sent in [currentUsers], [user-joined] and
    [user-updated]. *)
Record UserInfo : Type := mkUserInfo {
  ui_socketId : string;
  ui_name : string;
  ui_userIndex : Z;
  ui_videoEnabled : bool;
  ui_audioEnabled : bool
}.

Inductive Event : Type :=
| room_full
| init (userIndex : Z) (currentUsers : list UserInfo)
       (currentProducers : list Descriptor)
| user_joined (u : UserInfo)
| user_updated (u : UserInfo)
| user_left (socketId : string)
| user_video_toggled (socketId : string) (enabled : bool)
| user_audio_toggled (socketId : string) (enabled : bool)
| new_producer (d : Descriptor)
| new_presentation (d : Descriptor)
| presentation_ended (producerId : string) (socketId : option string)
| room_status (userCount maxUsers screenShareCount : Z).

(** Who an emit reaches: [io.emit], [socket.emit], and
    [socket.broadcast.emit] or [io.except(id).emit]. *)
Inductive Target : Type :=
| to_all
| to_socket (socketId : string)
| to_all_except (socketId : string).

Definition receives (who : string) (t : Target) : bool :=
  match t with
  | to_all => true
  | to_socket s => String.eqb who s
  | to_all_except s => negb (String.eqb who s)
  end.

Inductive Effect : Type :=
| emit (t : Target) (e : Event)
| socket_disconnect (socketId : string).

(** The answer of the media engine to an awaited request. *)
Inductive Awaited (A : Type) : Type :=
| resolved (a : A)
| rejected (message : string).

Arguments resolved {A} a.
Arguments rejected {A} message.

(** ** The server: room state (server.js) *)

Module Server.

(** The two limits of config.js ([parseInt(process.env...) || 3] and
    [|| 2]): integers set by the environment. *)
Record Config : Type := mkConfig {
  maxUsers : Z;
  maxScreenShares : Z
}.

(** A value of [RoomState.users]. *)
Record UserState : Type := mkUserState {
  u_id : string;
  u_name : string;
  u_videoEnabled : bool;
  u_audioEnabled : bool;
  u_userIndex : Z
}.

(** A value of [RoomState.transports], without the engine's handle. *)
Record TransportData : Type := mkTransportData {
  t_socketId : string;
  t_direction : option string
}.

(** A value of [RoomState.producers], without the engine's handle;
    [presentationIndex] is set for a screen share only. *)
Record ProducerData : Type := mkProducerData {
  p_socketId : option string;
  p_kind : string;
  p_source : string;
  p_presentationIndex : option Z
}.

(** The object [RoomState]; a value of [screenProducers] is the
    producer's handle, kept as its id. *)
Record RoomState : Type := mkRoomState {
  users : JSMap.t UserState;
  availableIndexes : list Z;
  transports : JSMap.t TransportData;
  producers : JSMap.t ProducerData;
  screenProducers : JSMap.t string;
  userCounter : Z;
  presentationCounter : Z;
  availablePresentationIndexes : list Z
}.

Definition with_users (m : JSMap.t UserState) (s : RoomState) : RoomState :=
  mkRoomState m (availableIndexes s) (transports s) (producers s)
    (screenProducers s) (userCounter s) (presentationCounter s)
    (availablePresentationIndexes s).

Definition with_availableIndexes (a : list Z) (s : RoomState) : RoomState :=
  mkRoomState (users s) a (transports s) (producers s)
    (screenProducers s) (userCounter s) (presentationCounter s)
    (availablePresentationIndexes s).

Definition with_transports (m : JSMap.t TransportData) (s : RoomState)
    : RoomState :=
  mkRoomState (users s) (availableIndexes s) m (producers s)
    (screenProducers s) (userCounter s) (presentationCounter s)
    (availablePresentationIndexes s).

Definition with_producers (m : JSMap.t ProducerData) (s : RoomState)
    : RoomState :=
  mkRoomState (users s) (availableIndexes s) (transports s) m
    (screenProducers s) (userCounter s) (presentationCounter s)
    (availablePresentationIndexes s).

Definition with_screenProducers (m : JSMap.t string) (s : RoomState)
    : RoomState :=
  mkRoomState (users s) (availableIndexes s) (transports s) (producers s)
    m (userCounter s) (presentationCounter s)
    (availablePresentationIndexes s).

Definition with_availablePresentationIndexes (a : list Z) (s : RoomState)
    : RoomState :=
  mkRoomState (users s) (availableIndexes s) (transports s) (producers s)
    (screenProducers s) (userCounter s) (presentationCounter s) a.

(** The two slot pools run the same code on their own array and bound:
    [acquire] is the body of [getNextUserIndex] and
    [getNextPresentationIndex], [release] the body of [releaseUserIndex]
    and [releasePresentationIndex]. *)
Definition acquire (pool : list Z) : option Z * list Z :=
  match pool with
  | [] => (None, pool)
  | _ :: _ => JSArray.shift pool
  end.

Definition release (bound : Z) (index : option Z) (pool : list Z) : list Z :=
  match index with
  | Some i =>
      if (i >=? 0) && (i <? bound)
      then JSArray.sort_asc (JSArray.push i pool)
      else pool
  | None => pool
  end.

Section WithConfig.

Variable config : Config.

Definition MAX_USERS : Z := maxUsers config.
Definition MAX_SCREEN_SHARES : Z := maxScreenShares config.

(** The object literal [RoomState], which is also what
    [resetServerState] restores. *)
Definition resetServerState : RoomState :=
  mkRoomState JSMap.empty (JSArray.from_length (maxUsers config))
    JSMap.empty JSMap.empty JSMap.empty 0 0
    (JSArray.from_length (maxScreenShares config)).

Definition isRoomFull (s : RoomState) : bool :=
  JSMap.size (users s) >=? MAX_USERS.

Definition getScreenShareCount (s : RoomState) : Z :=
  JSMap.size (screenProducers s).

Definition getNextUserIndex (s : RoomState) : option Z * RoomState :=
  let (i, rest) := acquire (availableIndexes s) in
  (i, with_availableIndexes rest s).

Definition releaseUserIndex (userIndex : option Z) (s : RoomState)
    : RoomState :=
  with_availableIndexes (release MAX_USERS userIndex (availableIndexes s)) s.

Definition getNextPresentationIndex (s : RoomState)
    : option Z * RoomState :=
  let (i, rest) := acquire (availablePresentationIndexes s) in
  (i, with_availablePresentationIndexes rest s).

Definition releasePresentationIndex (presentationIndex : option Z)
    (s : RoomState) : RoomState :=
  with_availablePresentationIndexes
    (release MAX_SCREEN_SHARES presentationIndex
       (availablePresentationIndexes s)) s.

Definition getUserBySocketId (socketId : string) (s : RoomState)
    : option UserState :=
  JSMap.get socketId (users s).

(** The user entry of a socket id taken from a request body. *)
Definition userOf (socketId : option string) (s : RoomState)
    : option UserState :=
  match socketId with
  | Some sid => getUserBySocketId sid s
  | None => None
  end.

Definition peerNameOf (userState : option UserState) : string :=
  match userState with
  | Some u => u_name u
  | None => "Unknown"
  end.

Definition getAllProducers (s : RoomState) : list Descriptor :=
  map (fun e =>
         let producerData := snd e in
         let userState := userOf (p_socketId producerData) s in
         mkDescriptor (fst e) (p_socketId producerData)
           (p_kind producerData) (Some (p_source producerData))
           (peerNameOf userState)
           (String.eqb (p_source producerData) "screen")
           (Some match userState with
                 | Some u => u_userIndex u
                 | None => 0
                 end)
           (p_presentationIndex producerData))
      (producers s).

Definition getAllUsers (excludeSocketId : option string) (s : RoomState)
    : list UserInfo :=
  map (fun e =>
         mkUserInfo (fst e) (u_name (snd e)) (u_userIndex (snd e))
           (u_videoEnabled (snd e)) (u_audioEnabled (snd e)))
      (filter (fun e => negb (strict_eq excludeSocketId (fst e))) (users s)).

(** [removeUserScreenShares]: the state carries the list
    [removedProducers] through the loop. *)
Definition removeUserScreenShares (socketId : string) (s : RoomState)
    : list string * RoomState :=
  JSMap.forEach
    (fun producerId producerData (acc : list string * RoomState) =>
       let (removedProducers, st) := acc in
       if strict_eq (p_socketId producerData) socketId
          && String.eqb (p_source producerData) "screen"
       then
         let st1 := releasePresentationIndex
                      (p_presentationIndex producerData) st in
         let st2 := with_producers
                      (JSMap.delete producerId (producers st1)) st1 in
         let st3 := with_screenProducers
                      (JSMap.delete producerId (screenProducers st2)) st2 in
         ((removedProducers ++ [producerId])%list, st3)
       else acc)
    (producers s) ([], s).

Definition cleanupUser (socketId : string) (s : RoomState) : RoomState :=
  let userState := JSMap.get socketId (users s) in
  let s1 := with_users (JSMap.delete socketId (users s)) s in
  let s2 := match userState with
            | Some u => releaseUserIndex (Some (u_userIndex u)) s1
            | None => s1
            end in
  let s3 :=
    JSMap.forEach
      (fun producerId producerData st =>
         if strict_eq (p_socketId producerData) socketId then
           let st1 :=
             if String.eqb (p_source producerData) "screen" then
               let st' := releasePresentationIndex
                            (p_presentationIndex producerData) st in
               with_screenProducers
                 (JSMap.delete producerId (screenProducers st')) st'
             else st in
           with_producers (JSMap.delete producerId (producers st1)) st1
         else st)
      (producers s2) s2 in
  JSMap.forEach
    (fun transportId transportData st =>
       if String.eqb (t_socketId transportData) socketId
       then with_transports (JSMap.delete transportId (transports st)) st
       else st)
    (transports s3) s3.

(** *** HTTP endpoints *)

Inductive Response : Type :=
| json_transport (id : string)
| json_id (id : string)
| json_error (status : Z) (error : string).

Record TransportRequest : Type := mkTransportRequest {
  ct_socketId : option string;
  ct_direction : option string
}.

Record ProduceRequest : Type := mkProduceRequest {
  pr_transportId : string;
  pr_kind : string;
  pr_socketId : option string;
  pr_source : option string
}.

Definition RoomFull : Response :=
  json_error 403
    ("Room is full. Maximum " ++ show_index (Some (maxUsers config))
       ++ " users allowed.").

Definition PresentationFull : Response :=
  json_error 403
    ("Maximum " ++ show_index (Some (maxScreenShares config))
       ++ " screen shares allowed").

Definition NotFound : Response := json_error 404 "Transport not found".

(** [POST /create-transport] up to [await router.createWebRtcTransport]:
    the answer that ends the request there, if any. *)
Definition createTransport_before (req : TransportRequest) (s : RoomState)
    : option Response :=
  match ct_socketId req with
  | Some socketId =>
      if String.eqb socketId EmptyString then
        Some (json_error 400 "Socket ID is required")
      else if strict_eq (ct_direction req) "send"
              && match getUserBySocketId socketId s with
                 | Some _ => false
                 | None => isRoomFull s
                 end
      then Some RoomFull
      else None
  | None => Some (json_error 400 "Socket ID is required")
  end.

(** ... and from the engine's answer on, in the state found then. *)
Definition createTransport_after (answer : Awaited string)
    (req : TransportRequest) (s : RoomState) : RoomState * Response :=
  match answer with
  | resolved transportId =>
      (with_transports
         (JSMap.set transportId
            (mkTransportData (js_or (ct_socketId req) EmptyString)
               (ct_direction req))
            (transports s)) s,
       json_transport transportId)
  | rejected message => (s, json_error 500 message)
  end.

Definition createTransport (answer : Awaited string)
    (req : TransportRequest) (s : RoomState) : RoomState * Response :=
  match createTransport_before req s with
  | Some response => (s, response)
  | None => createTransport_after answer req s
  end.

Definition is_screen (source : option string) : bool :=
  strict_eq source "screen".

(** [POST /produce] up to [await transportData.transport.produce]. *)
Definition produce_before (req : ProduceRequest) (s : RoomState)
    : option Response :=
  match JSMap.get (pr_transportId req) (transports s) with
  | None => Some NotFound
  | Some _ =>
      if is_screen (pr_source req)
         && (getScreenShareCount s >=? MAX_SCREEN_SHARES)
      then Some PresentationFull
      else None
  end.

Definition roomStatus (s : RoomState) : Event :=
  room_status (JSMap.size (users s)) MAX_USERS (getScreenShareCount s).

(** ... and from the engine's answer (the new producer's id) on. *)
Definition produce_after (answer : Awaited string) (req : ProduceRequest)
    (s : RoomState) : RoomState * Response * list Effect :=
  match answer with
  | rejected message => (s, json_error 500 message, [])
  | resolved producerId =>
      let socketId := pr_socketId req in
      let kind := pr_kind req in
      let source := pr_source req in
      let userState := userOf socketId s in
      let peerName := peerNameOf userState in
      if is_screen source then
        match getNextPresentationIndex s with
        | (None, s1) => (s1, PresentationFull, [])
        | (Some presentationIndex, s1) =>
            let producerData :=
              mkProducerData socketId kind (js_or source "camera")
                (Some presentationIndex) in
            let s2 := with_screenProducers
                        (JSMap.set producerId producerId
                           (screenProducers s1)) s1 in
            (with_producers
               (JSMap.set producerId producerData (producers s2)) s2,
             json_id producerId,
             [ emit to_all
                 (new_presentation
                    (mkDescriptor producerId socketId kind None peerName
                       false None (Some presentationIndex)));
               emit to_all (roomStatus s2) ])
        end
      else
        let producerData :=
          mkProducerData socketId kind (js_or source "camera") None in
        (with_producers
           (JSMap.set producerId producerData (producers s)) s,
         json_id producerId,
         match socketId with
         | Some sid =>
             if truthy socketId then
               [ emit (to_all_except sid)
                   (new_producer
                      (mkDescriptor producerId socketId kind
                         (Some (js_or source "camera")) peerName false
                         (Some match userState with
                               | Some u => u_userIndex u
                               | None => 0
                               end)
                         None)) ]
             else []
         | None => []
         end)
  end.

Definition produce (answer : Awaited string) (req : ProduceRequest)
    (s : RoomState) : RoomState * Response * list Effect :=
  match produce_before req s with
  | Some response => (s, response, [])
  | None => produce_after answer req s
  end.

(** *** Socket.IO handlers *)

(** [io.on("connection")]: the state, what is sent, and whether the
    handlers of the socket ([set-name] ... [disconnect]) were installed. *)
Definition onConnection (socketId : string) (s : RoomState)
    : RoomState * list Effect * bool :=
  if isRoomFull s then
    (s, [emit (to_socket socketId) room_full; socket_disconnect socketId],
     false)
  else
    match getNextUserIndex s with
    | (None, s1) =>
        (s1,
         [emit (to_socket socketId) room_full; socket_disconnect socketId],
         false)
    | (Some userIndex, s1) =>
        let s2 := with_users
                    (JSMap.set socketId
                       (mkUserState socketId "Anonymous" true true userIndex)
                       (users s1)) s1 in
        (s2,
         [ emit (to_socket socketId)
             (init userIndex (getAllUsers (Some socketId) s2)
                (getAllProducers s2));
           emit (to_all_except socketId)
             (user_joined
                (mkUserInfo socketId "Anonymous" userIndex true true));
           emit to_all (roomStatus s2) ],
         true)
    end.

Definition onSetName (socketId name : string) (s : RoomState)
    : RoomState * list Effect :=
  match getUserBySocketId socketId s with
  | Some userState =>
      let s1 := with_users
                  (JSMap.set socketId
                     (mkUserState (u_id userState) name
                        (u_videoEnabled userState) (u_audioEnabled userState)
                        (u_userIndex userState))
                     (users s)) s in
      (s1,
       [ emit (to_all_except socketId)
           (user_updated
              (mkUserInfo socketId name (u_userIndex userState)
                 (u_videoEnabled userState) (u_audioEnabled userState)));
         emit to_all (roomStatus s1) ])
  | None => (s, [])
  end.

Definition onToggleVideo (socketId : string) (enabled : bool)
    (s : RoomState) : RoomState * list Effect :=
  match getUserBySocketId socketId s with
  | Some userState =>
      (with_users
         (JSMap.set socketId
            (mkUserState (u_id userState) (u_name userState) enabled
               (u_audioEnabled userState) (u_userIndex userState))
            (users s)) s,
       [emit (to_all_except socketId) (user_video_toggled socketId enabled)])
  | None => (s, [])
  end.

Definition onToggleAudio (socketId : string) (enabled : bool)
    (s : RoomState) : RoomState * list Effect :=
  match getUserBySocketId socketId s with
  | Some userState =>
      (with_users
         (JSMap.set socketId
            (mkUserState (u_id userState) (u_name userState)
               (u_videoEnabled userState) enabled (u_userIndex userState))
            (users s)) s,
       [emit (to_all_except socketId) (user_audio_toggled socketId enabled)])
  | None => (s, [])
  end.

Definition onStopScreenShare (socketId : string) (s : RoomState)
    : RoomState * list Effect :=
  let (removedProducers, s1) := removeUserScreenShares socketId s in
  (s1,
   (map (fun producerId =>
           emit to_all (presentation_ended producerId (Some socketId)))
      removedProducers
    ++ [emit to_all (roomStatus s1)])%list).

(** The [presentation-ended] loop of the [disconnect] handler, over the
    directory as [cleanupUser] left it. *)
Definition endedPresentations (socketId : string) (s : RoomState)
    : list Effect :=
  JSMap.forEach
    (fun producerId producerData (sent : list Effect) =>
       if strict_eq (p_socketId producerData) socketId
          && String.eqb (p_source producerData) "screen"
       then (sent ++ [emit to_all (presentation_ended producerId None)])%list
       else sent)
    (producers s) [].

Definition onDisconnect (socketId : string) (s : RoomState)
    : RoomState * list Effect :=
  let s1 := cleanupUser socketId s in
  (s1,
   (emit (to_all_except socketId) (user_left socketId)
    :: endedPresentations socketId s1
    ++ [emit to_all (roomStatus s1)])%list).

(** *** The server as a transition system *)

(** One inbound message, handled to completion.  A request that awaits
    the engine enters at its resumption: what precedes the [await] changes
    nothing, and the state may have moved on meanwhile. *)
Inductive Input : Type :=
| connection (socketId : string)
| set_name (socketId name : string)
| toggle_video (socketId : string) (enabled : bool)
| toggle_audio (socketId : string) (enabled : bool)
| stop_screen_share (socketId : string)
| disconnect (socketId : string)
| create_transport_resumes (answer : Awaited string) (req : TransportRequest)
| produce_resumes (answer : Awaited string) (req : ProduceRequest).

Definition handle (i : Input) (s : RoomState) : RoomState * list Effect :=
  match i with
  | connection socketId =>
      let '(s1, sent, _) := onConnection socketId s in (s1, sent)
  | set_name socketId name => onSetName socketId name s
  | toggle_video socketId enabled => onToggleVideo socketId enabled s
  | toggle_audio socketId enabled => onToggleAudio socketId enabled s
  | stop_screen_share socketId => onStopScreenShare socketId s
  | disconnect socketId => onDisconnect socketId s
  | create_transport_resumes answer req =>
      (fst (createTransport_after answer req s), [])
  | produce_resumes answer req =>
      let '(s1, _, sent) := produce_after answer req s in (s1, sent)
  end.

Inductive reachable : RoomState -> Prop :=
| reachable_start : reachable resetServerState
| reachable_step (i : Input) (s : RoomState) :
    reachable s -> reachable (fst (handle i s)).

(** The events of [sent] that the socket [who] receives. *)
Definition delivered (who : string) (sent : list Effect) : list Event :=
  flat_map (fun x =>
              match x with
              | emit t e => if receives who t then [e] else []
              | socket_disconnect _ => []
              end)
    sent.

End WithConfig.

End Server.

(** ** The server: requests that only read the directories (server.js) *)

Module ServerRequests.

Import Server.

(** The engine's consumer as [POST /consume] reports it; the RTP
    parameters are the engine's and are not kept. *)
Record ConsumerInfo : Type := mkConsumerInfo {
  ci_id : string;
  ci_producerId : string;
  ci_kind : string
}.

Inductive Answer : Type :=
| json_success
| json_consumer (consumer : ConsumerInfo)
| json_failure (status : Z) (error : string).

Record ConsumeRequest : Type := mkConsumeRequest {
  cs_transportId : string;
  cs_producerId : string
}.

(** [POST /connect-transport]; [answer] is what [transport.connect]
    settles to.  The room state is not written. *)
Definition connectTransport (answer : Awaited unit) (transportId : string)
    (s : RoomState) : Answer :=
  match JSMap.get transportId (transports s) with
  | None => json_failure 404 "Transport not found"
  | Some _ =>
      match answer with
      | resolved _ => json_success
      | rejected message => json_failure 500 message
      end
  end.

(** [POST /consume]; [canConsume] is the answer of [router.canConsume]
    and [answer] what [transport.consume] settles to.  The room state is
    not written. *)
Definition consume (canConsume : bool) (answer : Awaited ConsumerInfo)
    (req : ConsumeRequest) (s : RoomState) : Answer :=
  match JSMap.get (cs_transportId req) (transports s) with
  | None => json_failure 404 "Transport not found"
  | Some _ =>
      match JSMap.get (cs_producerId req) (producers s) with
      | None => json_failure 404 "Producer not found"
      | Some _ =>
          if negb canConsume then json_failure 400 "Cannot consume"
          else
            match answer with
            | resolved consumer => json_consumer consumer
            | rejected message => json_failure 500 message
            end
      end
  end.

End ServerRequests.

(** ** The client: [VideoConference] (public/client.js) *)

Module Client.

(** Rendering of a string field that may be [undefined], in a template
    literal; it is also the key under which such a field is stored in a
    [Map] (no socket id is the word [undefined]). *)
Definition show (v : option string) : string :=
  match v with
  | Some s => s
  | None => "undefined"
  end.

(** *** The page *)

(** A [div.video-wrapper]: its id (empty for the local one), whether it
    has the class [self], the texts of [.video-title] and
    [.screen-number], the classes and inline styles the swap gesture
    sets, and the ids of the consumers whose tracks its [video] and
    [audio] elements play. *)
Record Wrapper : Type := mkWrapper {
  w_id : string;
  w_self : bool;
  w_title : string;
  w_label : string;
  w_swap_source : bool;
  w_swap_target : bool;
  w_cursor : string;
  w_opacity : string;
  w_transition : string;
  w_video : option string;
  w_audio : option string
}.

(** The parents a wrapper can have: [#peersContainer] and
    [#presentationsContainer]. *)
Inductive Parent : Type := in_peers | in_presentations.

Definition Parent_eqb (a b : Parent) : bool :=
  match a, b with
  | in_peers, in_peers => true
  | in_presentations, in_presentations => true
  | _, _ => false
  end.

(** A wrapper in the page: its parent and its position there. *)
Definition Node : Type := (Parent * nat)%type.

(** [#presentationsSection], once [createPresentationsContainer] has
    made it: its [display] and the children of
    [#presentationsContainer]. *)
Record PresentationsSection : Type := mkPresentationsSection {
  ps_display : string;
  ps_children : list Wrapper
}.

(** The part of the document the modelled methods read or write.  The
    items of the switcher panel are rebuilt from [userStates] and
    [presentations] each time the panel is refreshed
    ([updateVideoSwitcherList]) and the status line repeats counters;
    neither is kept here. *)
Record Document : Type := mkDocument {
  peersContainer : list Wrapper;
  presentationsSection : option PresentationsSection;
  videoSwitcher_display : string;
  swapInstructions_display : string;
  body_swap_mode : bool
}.

Definition presentationsContainer (doc : Document) : list Wrapper :=
  match presentationsSection doc with
  | Some sec => ps_children sec
  | None => []
  end.

Definition children (p : Parent) (doc : Document) : list Wrapper :=
  match p with
  | in_peers => peersContainer doc
  | in_presentations => presentationsContainer doc
  end.

Definition with_children (p : Parent) (l : list Wrapper) (doc : Document)
    : Document :=
  match p with
  | in_peers =>
      mkDocument l (presentationsSection doc) (videoSwitcher_display doc)
        (swapInstructions_display doc) (body_swap_mode doc)
  | in_presentations =>
      match presentationsSection doc with
      | Some sec =>
          mkDocument (peersContainer doc)
            (Some (mkPresentationsSection (ps_display sec) l))
            (videoSwitcher_display doc) (swapInstructions_display doc)
            (body_swap_mode doc)
      | None => doc
      end
  end.

(** [document.querySelectorAll('.video-wrapper')], in document order: the
    section of the presentations follows [#peersContainer]. *)
Definition videoWrappers (doc : Document) : list Wrapper :=
  (peersContainer doc ++ presentationsContainer doc)%list.

(** A statement run on every wrapper of the page. *)
Definition forEachWrapper (f : Wrapper -> Wrapper) (doc : Document)
    : Document :=
  with_children in_presentations (map f (presentationsContainer doc))
    (with_children in_peers (map f (peersContainer doc)) doc).

Fixpoint find_index {A : Type} (f : A -> bool) (l : list A) : option nat :=
  match l with
  | [] => None
  | x :: rest =>
      if f x then Some O else option_map S (find_index f rest)
  end.

(** The first wrapper of the page, in document order, that satisfies
    [f]. *)
Definition firstWrapper (f : Wrapper -> bool) (doc : Document)
    : option Node :=
  match find_index f (peersContainer doc) with
  | Some i => Some (in_peers, i)
  | None =>
      option_map (fun i => (in_presentations, i))
        (find_index f (presentationsContainer doc))
  end.

Fixpoint update_nth {A : Type} (n : nat) (f : A -> A) (l : list A)
    : list A :=
  match l, n with
  | [], _ => []
  | x :: rest, O => f x :: rest
  | x :: rest, S k => x :: update_nth k f rest
  end.

Definition updateNode (n : Node) (f : Wrapper -> Wrapper) (doc : Document)
    : Document :=
  with_children (fst n) (update_nth (snd n) f (children (fst n) doc)) doc.

Definition nodeAt (n : Node) (doc : Document) : option Wrapper :=
  nth_error (children (fst n) doc) (snd n).

Definition getElementById (id : string) (doc : Document) : option Node :=
  firstWrapper (fun w => String.eqb (w_id w) id) doc.

Definition findVideoContainerByScreen (screenId : string) (doc : Document)
    : option Node :=
  firstWrapper (fun w => String.eqb (w_label w) screenId) doc.

(** *** The state of the conference object *)

Record Selection : Type := mkSelection {
  sel_id : string;
  sel_screen : string
}.

Record ConsumerData : Type := mkConsumerData {
  c_consumer : string;
  c_transport : string;
  c_socketId : option string;
  c_kind : string;
  c_isPresentation : bool
}.

Record UserMirror : Type := mkUserMirror {
  um_name : string;
  um_userIndex : option Z;
  um_videoEnabled : bool;
  um_audioEnabled : bool
}.

Record PresentationRecord : Type := mkPresentationRecord {
  pres_socketId : option string;
  pres_peerName : string;
  pres_presentationIndex : option Z
}.

(** The fields of [VideoConference] that the replicator, the pipeline and
    the swap gesture use, with the page; [socket_id] is
    [this.socket.id]. *)
Record VideoConference : Type := mkVideoConference {
  socket_id : string;
  consumers : JSMap.t ConsumerData;
  consumerTransports : JSMap.t string;
  userStates : JSMap.t UserMirror;
  presentations : JSMap.t PresentationRecord;
  myUserIndex : Z;
  pendingProducers : list Descriptor;
  pendingPresentations : list Descriptor;
  deviceReady : bool;
  isSwapMode : bool;
  swapSource : option Selection;
  swapTarget : option Selection;
  document : Document
}.

Definition with_consumers (m : JSMap.t ConsumerData) (c : VideoConference)
    : VideoConference :=
  mkVideoConference (socket_id c) m (consumerTransports c) (userStates c)
    (presentations c) (myUserIndex c) (pendingProducers c)
    (pendingPresentations c) (deviceReady c) (isSwapMode c) (swapSource c)
    (swapTarget c) (document c).

Definition with_consumerTransports (m : JSMap.t string)
    (c : VideoConference) : VideoConference :=
  mkVideoConference (socket_id c) (consumers c) m (userStates c)
    (presentations c) (myUserIndex c) (pendingProducers c)
    (pendingPresentations c) (deviceReady c) (isSwapMode c) (swapSource c)
    (swapTarget c) (document c).

Definition with_userStates (m : JSMap.t UserMirror) (c : VideoConference)
    : VideoConference :=
  mkVideoConference (socket_id c) (consumers c) (consumerTransports c) m
    (presentations c) (myUserIndex c) (pendingProducers c)
    (pendingPresentations c) (deviceReady c) (isSwapMode c) (swapSource c)
    (swapTarget c) (document c).

Definition with_presentations (m : JSMap.t PresentationRecord)
    (c : VideoConference) : VideoConference :=
  mkVideoConference (socket_id c) (consumers c) (consumerTransports c)
    (userStates c) m (myUserIndex c) (pendingProducers c)
    (pendingPresentations c) (deviceReady c) (isSwapMode c) (swapSource c)
    (swapTarget c) (document c).

Definition with_myUserIndex (i : Z) (c : VideoConference)
    : VideoConference :=
  mkVideoConference (socket_id c) (consumers c) (consumerTransports c)
    (userStates c) (presentations c) i (pendingProducers c)
    (pendingPresentations c) (deviceReady c) (isSwapMode c) (swapSource c)
    (swapTarget c) (document c).

Definition with_pendingProducers (q : list Descriptor)
    (c : VideoConference) : VideoConference :=
  mkVideoConference (socket_id c) (consumers c) (consumerTransports c)
    (userStates c) (presentations c) (myUserIndex c) q
    (pendingPresentations c) (deviceReady c) (isSwapMode c) (swapSource c)
    (swapTarget c) (document c).

Definition with_pendingPresentations (q : list Descriptor)
    (c : VideoConference) : VideoConference :=
  mkVideoConference (socket_id c) (consumers c) (consumerTransports c)
    (userStates c) (presentations c) (myUserIndex c) (pendingProducers c)
    q (deviceReady c) (isSwapMode c) (swapSource c) (swapTarget c)
    (document c).


Definition with_swap (mode : bool) (source target : option Selection)
    (c : VideoConference) : VideoConference :=
  mkVideoConference (socket_id c) (consumers c) (consumerTransports c)
    (userStates c) (presentations c) (myUserIndex c) (pendingProducers c)
    (pendingPresentations c) (deviceReady c) mode source target
    (document c).

Definition with_document (doc : Document) (c : VideoConference)
    : VideoConference :=
  mkVideoConference (socket_id c) (consumers c) (consumerTransports c)
    (userStates c) (presentations c) (myUserIndex c) (pendingProducers c)
    (pendingPresentations c) (deviceReady c) (isSwapMode c) (swapSource c)
    (swapTarget c) doc.

(** *** The swap gesture *)

Definition set_highlight (source target : bool) (cursor opacity : string)
    (w : Wrapper) : Wrapper :=
  mkWrapper (w_id w) (w_self w) (w_title w) (w_label w) source target
    cursor opacity (w_transition w) (w_video w) (w_audio w).

Definition clearSwapHighlights (doc : Document) : Document :=
  forEachWrapper (set_highlight false false EmptyString EmptyString) doc.

Definition highlightSwapSource (screenId : string) (doc : Document)
    : Document :=
  let doc1 := clearSwapHighlights doc in
  match findVideoContainerByScreen screenId doc1 with
  | Some sourceContainer =>
      updateNode sourceContainer
        (fun w => set_highlight true (w_swap_target w) "default"
                    (w_opacity w) w)
        doc1
  | None => doc1
  end.

Definition highlightSwapTarget (screenId : string) (doc : Document)
    : Document :=
  match findVideoContainerByScreen screenId doc with
  | Some targetContainer =>
      updateNode targetContainer
        (fun w => set_highlight (w_swap_source w) true (w_cursor w)
                    (w_opacity w) w)
        doc
  | None => doc
  end.

Definition set_body_swap_mode (b : bool) (doc : Document) : Document :=
  mkDocument (peersContainer doc) (presentationsSection doc)
    (videoSwitcher_display doc) (swapInstructions_display doc) b.

Definition enableSwapModeVisuals (doc : Document) : Document :=
  set_body_swap_mode true
    (forEachWrapper
       (fun w =>
          if w_swap_source w then w
          else mkWrapper (w_id w) (w_self w) (w_title w) (w_label w)
                 (w_swap_source w) (w_swap_target w) "pointer" "0.9"
                 "all 0.3s ease" (w_video w) (w_audio w))
       doc).

Definition disableSwapModeVisuals (doc : Document) : Document :=
  set_body_swap_mode false
    (forEachWrapper
       (fun w => set_highlight (w_swap_source w) (w_swap_target w)
                   EmptyString EmptyString w)
       doc).

Definition set_swapInstructions (display : string) (doc : Document)
    : Document :=
  mkDocument (peersContainer doc) (presentationsSection doc)
    (videoSwitcher_display doc) display (body_swap_mode doc).

Definition showSwapInstructions : Document -> Document :=
  set_swapInstructions "block".

Definition hideSwapInstructions : Document -> Document :=
  set_swapInstructions "none".

Definition hideVideoSwitcher (doc : Document) : Document :=
  mkDocument (peersContainer doc) (presentationsSection doc) "none"
    (swapInstructions_display doc) (body_swap_mode doc).

(** Children of one parent while nodes move: each carries the position it
    had at the start as its identity; the temporary [div] is the child
    without a wrapper. *)
Definition Child : Type := (nat * option Wrapper)%type.

Definition removeChild (key : nat) (l : list Child) : list Child :=
  filter (fun c => negb (Nat.eqb (fst c) key)) l.

(** The reference child is always present where the swap calls this (the
    DOM would throw otherwise); a missing one puts the node last. *)
Fixpoint insert_before (node : Child) (ref : nat) (l : list Child)
    : list Child :=
  match l with
  | [] => [node]
  | x :: rest =>
      if Nat.eqb (fst x) ref then node :: x :: rest
      else x :: insert_before node ref rest
  end.

(** [parent.insertBefore(node, ref)]: the node leaves its place first; a
    node inserted before itself stays where it is. *)
Definition insertBefore (node : Child) (ref : nat) (l : list Child)
    : list Child :=
  if Nat.eqb (fst node) ref then l
  else insert_before node ref (removeChild (fst node) l).

Definition wrappersOf (l : list Child) : list Wrapper :=
  flat_map (fun c => match snd c with Some w => [w] | None => [] end) l.

(** [swapVideoContainers], which [performSwap] calls for two children of
    one parent. *)
Definition swapVideoContainers (container1 container2 : Node)
    (doc : Document) : Document :=
  let parent := fst container2 in
  let l := children parent doc in
  match nth_error l (snd container1), nth_error l (snd container2) with
  | Some w1, Some w2 =>
      let temp : Child := (List.length l, None) in
      let l0 := combine (seq 0 (List.length l)) (map Some l) in
      let l1 := insertBefore temp (snd container2) l0 in
      let l2 := insertBefore (snd container2, Some w2) (snd container1) l1 in
      let l3 := insertBefore (snd container1, Some w1) (fst temp) l2 in
      let l4 := removeChild (fst temp) l3 in
      with_children parent (wrappersOf l4) doc
  | _, _ => doc
  end.

Fixpoint remove_nth {A : Type} (n : nat) (l : list A) : list A :=
  match l, n with
  | [], _ => []
  | _ :: rest, O => rest
  | x :: rest, S k => x :: remove_nth k rest
  end.

(** [swapCrossContainers], which [performSwap] calls for children of two
    different parents. *)
Definition swapCrossContainers (container1 container2 : Node)
    (doc : Document) : Document :=
  let parent1 := fst container1 in
  let parent2 := fst container2 in
  match nodeAt container1 doc, nodeAt container2 doc with
  | Some w1, Some w2 =>
      let doc1 := with_children parent1
                    (remove_nth (snd container1) (children parent1 doc))
                    doc in
      let doc2 := with_children parent2
                    (remove_nth (snd container2) (children parent2 doc1))
                    doc1 in
      let doc3 := with_children parent1
                    (children parent1 doc2 ++ [w2])%list doc2 in
      with_children parent2 (children parent2 doc3 ++ [w1])%list doc3
  | _, _ => doc
  end.

Definition cancelSwap (c : VideoConference) : VideoConference :=
  with_document
    (disableSwapModeVisuals
       (hideSwapInstructions (clearSwapHighlights (document c))))
    (with_swap false None None c).

Definition completeSwap (c : VideoConference) : VideoConference :=
  with_document
    (disableSwapModeVisuals
       (hideSwapInstructions (clearSwapHighlights (document c))))
    (with_swap false None None c).

Definition performSwap (c : VideoConference) : VideoConference :=
  match swapSource c, swapTarget c with
  | Some source, Some target =>
      if String.eqb (sel_id source) (sel_id target) then cancelSwap c
      else
        match findVideoContainerByScreen (sel_screen source) (document c),
              findVideoContainerByScreen (sel_screen target) (document c)
        with
        | Some sourceContainer, Some targetContainer =>
            completeSwap
              (with_document
                 (if Parent_eqb (fst sourceContainer) (fst targetContainer)
                  then swapVideoContainers sourceContainer targetContainer
                         (document c)
                  else swapCrossContainers sourceContainer targetContainer
                         (document c))
                 c)
        | _, _ => cancelSwap c
        end
  | _, _ => cancelSwap c
  end.

Definition selectForSwap (sourceId screenId : string)
    (c : VideoConference) : VideoConference :=
  match swapSource c with
  | None =>
      with_document
        (enableSwapModeVisuals
           (hideVideoSwitcher
              (showSwapInstructions
                 (highlightSwapSource screenId (document c)))))
        (with_swap true (Some (mkSelection sourceId screenId))
           (swapTarget c) c)
  | Some _ =>
      performSwap
        (with_document (highlightSwapTarget screenId (document c))
           (with_swap (isSwapMode c) (swapSource c)
              (Some (mkSelection sourceId screenId)) c))
  end.

Definition handleVideoGridClick (videoWrapper : Node)
    (c : VideoConference) : VideoConference :=
  match isSwapMode c, swapSource c, nodeAt videoWrapper (document c) with
  | true, Some _, Some w =>
      let screenId := w_label w in
      let videoId :=
        if w_self w then Some "local"
        else if String.prefix "user-" (w_id w) then Some (w_id w)
        else if String.prefix "presentation-" (w_id w) then Some (w_id w)
        else None in
      match videoId with
      | Some id =>
          performSwap
            (with_document (highlightSwapTarget screenId (document c))
               (with_swap (isSwapMode c) (swapSource c)
                  (Some (mkSelection id screenId)) c))
      | None => c
      end
  | _, _, _ => c
  end.

(** The click listener on [document.body]; [target] is the wrapper that
    [e.target.closest('.video-wrapper')] finds, if any. *)
Definition onBodyClick (target : option Node) (c : VideoConference)
    : VideoConference :=
  if isSwapMode c then
    match target with
    | Some videoWrapper =>
        match nodeAt videoWrapper (document c) with
        | Some w =>
            if w_swap_source w then c
            else handleVideoGridClick videoWrapper c
        | None => c
        end
    | None => c
    end
  else c.

(** *** The consumption pipeline *)

(** What the outside answers during one run of [consumeProducer]: the
    [create-transport] request, [device.createRecvTransport], the
    [consume] request, [consumerTransport.consume] (which performs the
    transport's connect handshake), and whether building the media stream
    in [setupMediaElement] succeeds. *)
Inductive Outcome : Type :=
| transport_request_fails
| recv_transport_fails
| consume_request_fails (transportId : string)
| transport_consume_fails (transportId : string)
| consumer_created (transportId consumerId : string) (attached : bool).

(** [setupMediaElement]; an exception while attaching is caught inside
    it. *)
Definition setupMediaElement (mediaElement : Node) (consumer kind : string)
    (attached : bool) (doc : Document) : Document :=
  if attached then
    if String.eqb kind "video" then
      updateNode mediaElement
        (fun w => mkWrapper (w_id w) (w_self w) (w_title w) (w_label w)
                    (w_swap_source w) (w_swap_target w) (w_cursor w)
                    (w_opacity w) (w_transition w) (Some consumer)
                    (w_audio w))
        doc
    else if String.eqb kind "audio" then
      updateNode mediaElement
        (fun w => mkWrapper (w_id w) (w_self w) (w_title w) (w_label w)
                    (w_swap_source w) (w_swap_target w) (w_cursor w)
                    (w_opacity w) (w_transition w) (w_video w)
                    (Some consumer))
        doc
    else doc
  else doc.

Definition newWrapper (id title label : string) : Wrapper :=
  mkWrapper id false title label false false EmptyString EmptyString
    EmptyString None None.

Definition createUserElement (socketId : option string)
    (consumer kind peerName : string) (userIndex : option Z)
    (attached : bool) (doc : Document) : Document :=
  let elementId := "user-" ++ show socketId in
  match getElementById elementId doc with
  | Some mediaElement =>
      setupMediaElement mediaElement consumer kind attached doc
  | None =>
      let doc1 :=
        with_children in_peers
          (peersContainer doc
             ++ [newWrapper elementId peerName
                   ("scr" ++ show_index userIndex)])%list
          doc in
      setupMediaElement (in_peers, List.length (peersContainer doc))
        consumer kind attached doc1
  end.

(** [createPresentationsContainer]: the section is made hidden and
    empty. *)
Definition createPresentationsContainer (doc : Document) : Document :=
  mkDocument (peersContainer doc)
    (Some (mkPresentationsSection "none" []))
    (videoSwitcher_display doc) (swapInstructions_display doc)
    (body_swap_mode doc).

Definition showPresentationsSection (doc : Document) : Document :=
  match presentationsSection doc with
  | Some sec =>
      mkDocument (peersContainer doc)
        (Some (mkPresentationsSection "block" (ps_children sec)))
        (videoSwitcher_display doc) (swapInstructions_display doc)
        (body_swap_mode doc)
  | None => doc
  end.

(** [createPresentationElement].  The engine's consumer object has no
    [socketId] property, so [isOwn] is false and the title names the
    peer. *)
Definition createPresentationElement (producerId consumer kind : string)
    (peerName : string) (presentationIndex : option Z) (attached : bool)
    (doc : Document) : Document :=
  let elementId := "presentation-" ++ producerId in
  match getElementById elementId doc with
  | Some mediaElement =>
      setupMediaElement mediaElement consumer kind attached doc
  | None =>
      let doc1 :=
        match presentationsSection doc with
        | Some _ => doc
        | None => createPresentationsContainer doc
        end in
      let doc2 :=
        with_children in_presentations
          (presentationsContainer doc1
             ++ [newWrapper elementId (peerName ++ "'s Screen")
                   ("pr" ++ show_index presentationIndex)])%list
          doc1 in
      setupMediaElement
        (in_presentations, List.length (presentationsContainer doc1))
        consumer kind attached (showPresentationsSection doc2)
  end.

Definition consumeProducer (answer : Outcome) (data : Descriptor)
    (isPresentation : bool) (c : VideoConference) : VideoConference :=
  let producerId := d_id data in
  let socketId := d_socketId data in
  let kind := d_kind data in
  let peerName := d_peerName data in
  let userIndex := d_userIndex data in
  let presentationIndex := d_presentationIndex data in
  if strict_eq socketId (socket_id c) && negb isPresentation then c
  else if JSMap.has producerId (consumers c) then c
  else
    match answer with
    | transport_request_fails => c
    | recv_transport_fails => c
    | consume_request_fails transportId =>
        with_consumerTransports
          (JSMap.set transportId transportId (consumerTransports c)) c
    | transport_consume_fails transportId =>
        with_consumerTransports
          (JSMap.set transportId transportId (consumerTransports c)) c
    | consumer_created transportId consumer attached =>
        let c1 :=
          with_consumerTransports
            (JSMap.set transportId transportId (consumerTransports c)) c in
        let c2 :=
          with_consumers
            (JSMap.set producerId
               (mkConsumerData consumer transportId socketId kind
                  isPresentation)
               (consumers c1)) c1 in
        if isPresentation then
          let c3 :=
            with_presentations
              (JSMap.set producerId
                 (mkPresentationRecord socketId peerName presentationIndex)
                 (presentations c2)) c2 in
          with_document
            (createPresentationElement producerId consumer kind peerName
               presentationIndex attached (document c3))
            c3
        else
          let c3 :=
            if JSMap.has (show socketId) (userStates c2) then c2
            else
              with_userStates
                (JSMap.set (show socketId)
                   (mkUserMirror peerName userIndex true true)
                   (userStates c2)) c2 in
          with_document
            (createUserElement socketId consumer kind peerName userIndex
               attached (document c3))
            c3
    end.

Definition consumeUserProducer (answer : Outcome) (data : Descriptor)
    : VideoConference -> VideoConference :=
  consumeProducer answer data false.

Definition consumePresentation (answer : Outcome) (data : Descriptor)
    : VideoConference -> VideoConference :=
  consumeProducer answer data true.

(** *** The replicator *)

(** A call of the pipeline: the descriptor handed over and the
    [isPresentation] flag.  The handlers below return, next to the new
    state, the calls they made, in order. *)
Definition Dispatch : Type := (Descriptor * bool)%type.

Definition addUser (socketId name : string) (userIndex : Z)
    (videoEnabled audioEnabled : bool) (c : VideoConference)
    : VideoConference :=
  if String.eqb socketId (socket_id c) then c
  else
    with_userStates
      (JSMap.set socketId
         (mkUserMirror name (Some userIndex) videoEnabled audioEnabled)
         (userStates c)) c.

Definition updateLocalUserIndex (userIndex : Z) (c : VideoConference)
    : VideoConference :=
  let c1 := with_myUserIndex userIndex c in
  match firstWrapper w_self (document c1) with
  | Some localIndexElement =>
      with_document
        (updateNode localIndexElement
           (fun w => mkWrapper (w_id w) (w_self w) (w_title w)
                       ("scr" ++ show_index (Some userIndex))
                       (w_swap_source w) (w_swap_target w) (w_cursor w)
                       (w_opacity w) (w_transition w) (w_video w)
                       (w_audio w))
           (document c1))
        c1
  | None => c1
  end.

(** [socket.on('init')] *)
Definition onInit (userIndex : Z) (currentUsers : list UserInfo)
    (currentProducers : list Descriptor) (c : VideoConference)
    : VideoConference :=
  let c1 := updateLocalUserIndex userIndex (with_myUserIndex userIndex c) in
  let c2 :=
    fold_left
      (fun acc user =>
         addUser (ui_socketId user) (ui_name user) (ui_userIndex user)
           (ui_videoEnabled user) (ui_audioEnabled user) acc)
      currentUsers c1 in
  fold_left
    (fun acc producer =>
       if d_isScreen producer
       then with_pendingPresentations
              (pendingPresentations acc ++ [producer])%list acc
       else with_pendingProducers
              (pendingProducers acc ++ [producer])%list acc)
    currentProducers c2.

(** [socket.on('new-producer')] *)
Definition onNewProducer (answer : Outcome) (data : Descriptor)
    (c : VideoConference) : VideoConference * list Dispatch :=
  if negb (deviceReady c) then
    (with_pendingProducers (pendingProducers c ++ [data])%list c, [])
  else (consumeUserProducer answer data c, [(data, false)]).

(** [socket.on('new-presentation')] *)
Definition onNewPresentation (answer : Outcome) (data : Descriptor)
    (c : VideoConference) : VideoConference * list Dispatch :=
  if negb (deviceReady c) then
    (with_pendingPresentations (pendingPresentations c ++ [data])%list c,
     [])
  else (consumePresentation answer data c, [(data, true)]).




(** The messages that carry resources to consume: the [init] snapshot
    and the two live creation events. *)
Inductive Creation : Type :=
| snapshot (userIndex : Z) (currentUsers : list UserInfo)
    (currentProducers : list Descriptor)
| producer_created (data : Descriptor)
| presentation_created (data : Descriptor).

Definition creationOf (e : Event) : option Creation :=
  match e with
  | init userIndex currentUsers currentProducers =>
      Some (snapshot userIndex currentUsers currentProducers)
  | new_producer data => Some (producer_created data)
  | new_presentation data => Some (presentation_created data)
  | _ => None
  end.

Definition onCreation (answer : Outcome) (m : Creation)
    (c : VideoConference) : VideoConference * list Dispatch :=
  match m with
  | snapshot userIndex currentUsers currentProducers =>
      (onInit userIndex currentUsers currentProducers c, [])
  | producer_created data => onNewProducer answer data c
  | presentation_created data => onNewPresentation answer data c
  end.

(** A sequence of such messages, handled one after the other;
    [answers k] serves the message number [k]. *)
Fixpoint receive (messages : list Creation) (answers : nat -> Outcome)
    (k : nat) (c : VideoConference) : VideoConference * list Dispatch :=
  match messages with
  | [] => (c, [])
  | m :: rest =>
      let (c1, calls1) := onCreation (answers k) m c in
      let (c2, calls2) := receive rest answers (S k) c1 in
      (c2, (calls1 ++ calls2)%list)
  end.

End Client.

(** ** The client: what leaves the conference (public/client.js) *)

Module ClientRemoval.

Import Client.

(** [element.remove()] on a wrapper. *)
Definition removeNode (n : Node) (doc : Document) : Document :=
  with_children (fst n) (remove_nth (snd n) (children (fst n) doc)) doc.

(** [selection && selection.id === id] *)
Definition selected (selection : option Selection) (id : string) : bool :=
  match selection with
  | Some sel => String.eqb (sel_id sel) id
  | None => false
  end.

(** The last statement of [removePresentation]: the section is hidden
    once [#presentationsContainer] has no child. *)
Definition hideEmptyPresentationsSection (doc : Document) : Document :=
  match presentationsSection doc with
  | Some sec =>
      match ps_children sec with
      | [] =>
          mkDocument (peersContainer doc)
            (Some (mkPresentationsSection "none" (ps_children sec)))
            (videoSwitcher_display doc) (swapInstructions_display doc)
            (body_swap_mode doc)
      | _ :: _ => doc
      end
  | None => doc
  end.

(** [removePresentation].  Closing the consumer and its transport leaves
    the maps as they are; [activeScreenProducers] belongs to the sending
    side and is not among the fields of [VideoConference] kept here. *)
Definition removePresentation (producerId : string) (c : VideoConference)
    : VideoConference :=
  let elementId := "presentation-" ++ producerId in
  let c1 := if selected (swapSource c) elementId then cancelSwap c else c in
  let c2 :=
    if selected (swapTarget c1) elementId then cancelSwap c1 else c1 in
  let c3 :=
    match getElementById elementId (document c2) with
    | Some presentationElement =>
        with_document (removeNode presentationElement (document c2)) c2
    | None => c2
    end in
  let c4 :=
    match JSMap.get producerId (consumers c3) with
    | Some _ =>
        with_consumers (JSMap.delete producerId (consumers c3)) c3
    | None => c3
    end in
  let c5 :=
    with_presentations (JSMap.delete producerId (presentations c4)) c4 in
  with_document (hideEmptyPresentationsSection (document c5)) c5.

Definition removeUserPresentations (socketId : string)
    (c : VideoConference) : VideoConference :=
  JSMap.forEach
    (fun producerId presentation acc =>
       if strict_eq (pres_socketId presentation) socketId
       then removePresentation producerId acc
       else acc)
    (presentations c) c.

(** [removeUser] *)
Definition removeUser (socketId : string) (c : VideoConference)
    : VideoConference :=
  let elementId := "user-" ++ socketId in
  let c1 := if selected (swapSource c) elementId then cancelSwap c else c in
  let c2 :=
    if selected (swapTarget c1) elementId then cancelSwap c1 else c1 in
  let c3 :=
    match getElementById elementId (document c2) with
    | Some userVideo => with_document (removeNode userVideo (document c2)) c2
    | None => c2
    end in
  let c4 := removeUserPresentations socketId c3 in
  let c5 :=
    JSMap.forEach
      (fun producerId consumerData acc =>
         if strict_eq (c_socketId consumerData) socketId
         then with_consumers (JSMap.delete producerId (consumers acc)) acc
         else acc)
      (consumers c4) c4 in
  with_userStates (JSMap.delete socketId (userStates c5)) c5.

(** [handleDisconnect], on the fields kept here: the maps and the queues
    are emptied, the flags reset, every child of [#peersContainer] but
    the first removed, [#presentationsSection] removed, and the panel,
    the banner and the marks of the gesture cleared. *)
Definition handleDisconnect (c : VideoConference) : VideoConference :=
  let doc := document c in
  let doc1 :=
    mkDocument (firstn 1 (peersContainer doc)) None
      (videoSwitcher_display doc) (swapInstructions_display doc)
      (body_swap_mode doc) in
  mkVideoConference (socket_id c) JSMap.empty JSMap.empty JSMap.empty
    JSMap.empty (myUserIndex c) [] [] false false None None
    (disableSwapModeVisuals
       (clearSwapHighlights (hideSwapInstructions (hideVideoSwitcher doc1)))).

(** The messages that take resources away: [user-left] and
    [presentation-ended]. *)
Inductive Removal : Type :=
| user_gone (socketId : string)
| presentation_gone (producerId : string).

Definition removalOf (e : Event) : option Removal :=
  match e with
  | user_left socketId => Some (user_gone socketId)
  | presentation_ended producerId _ => Some (presentation_gone producerId)
  | _ => None
  end.

Definition onRemoval (m : Removal) (c : VideoConference)
    : VideoConference :=
  match m with
  | user_gone socketId => removeUser socketId c
  | presentation_gone producerId => removePresentation producerId c
  end.

End ClientRemoval.

(** ** The client: what changes about a user (public/client.js) *)

Module ClientUsers.

Import Client.

(** [updateUser].  The mirror of a user the client knows is overwritten,
    and the title and the label of the user's wrapper, if the page has
    one; the status indicators of a wrapper are not among the parts kept
    in [Wrapper]. *)
Definition updateUser (socketId name : string) (userIndex : Z)
    (videoEnabled audioEnabled : bool) (c : VideoConference)
    : VideoConference :=
  match JSMap.get socketId (userStates c) with
  | Some _ =>
      let c1 :=
        with_userStates
          (JSMap.set socketId
             (mkUserMirror name (Some userIndex) videoEnabled audioEnabled)
             (userStates c)) c in
      match getElementById ("user-" ++ socketId) (document c1) with
      | Some userElement =>
          with_document
            (updateNode userElement
               (fun w => mkWrapper (w_id w) (w_self w) name
                           ("scr" ++ show_index (Some userIndex))
                           (w_swap_source w) (w_swap_target w) (w_cursor w)
                           (w_opacity w) (w_transition w) (w_video w)
                           (w_audio w))
               (document c1))
            c1
      | None => c1
      end
  | None => c
  end.

(** [updateUserMediaStatus]: it returns at once when the page has no
    wrapper of the user; otherwise the flag named by [mediaType] is set
    in the mirror, if the client has one (and in the indicator, which is
    not kept in [Wrapper]). *)
Definition updateUserMediaStatus (socketId mediaType : string)
    (enabled : bool) (c : VideoConference) : VideoConference :=
  match getElementById ("user-" ++ socketId) (document c) with
  | None => c
  | Some _ =>
      match JSMap.get socketId (userStates c) with
      | Some userState =>
          if String.eqb mediaType "video" then
            with_userStates
              (JSMap.set socketId
                 (mkUserMirror (um_name userState) (um_userIndex userState)
                    enabled (um_audioEnabled userState))
                 (userStates c)) c
          else if String.eqb mediaType "audio" then
            with_userStates
              (JSMap.set socketId
                 (mkUserMirror (um_name userState) (um_userIndex userState)
                    (um_videoEnabled userState) enabled)
                 (userStates c)) c
          else c
      | None => c
      end
  end.

(** The messages that change what is known of a user: [user-updated],
    [user-video-toggled] and [user-audio-toggled]. *)
Inductive Change : Type :=
| user_changed (u : UserInfo)
| video_toggled (socketId : string) (enabled : bool)
| audio_toggled (socketId : string) (enabled : bool).

Definition changeOf (e : Event) : option Change :=
  match e with
  | user_updated u => Some (user_changed u)
  | user_video_toggled socketId enabled =>
      Some (video_toggled socketId enabled)
  | user_audio_toggled socketId enabled =>
      Some (audio_toggled socketId enabled)
  | _ => None
  end.

Definition onChange (m : Change) (c : VideoConference) : VideoConference :=
  match m with
  | user_changed u =>
      updateUser (ui_socketId u) (ui_name u) (ui_userIndex u)
        (ui_videoEnabled u) (ui_audioEnabled u) c
  | video_toggled socketId enabled =>
      updateUserMediaStatus socketId "video" enabled c
  | audio_toggled socketId enabled =>
      updateUserMediaStatus socketId "audio" enabled c
  end.

End ClientUsers.

(** * Vocabulary of the statements *)

(** ** The server *)

Module ServerSpec.

Import Server.

(** The test of the loops of [cleanupUser]: the entry was registered
    under the socket. *)
Definition ownsProducer (socketId : string) (e : string * ProducerData)
    : bool :=
  strict_eq (p_socketId (snd e)) socketId.

Definition ownsTransport (socketId : string) (e : string * TransportData)
    : bool :=
  String.eqb (t_socketId (snd e)) socketId.

(** The key of the entry is one of [ks]. *)
Definition keyIn {V : Type} (ks : list string) (e : string * V) : bool :=
  existsb (String.eqb (fst e)) ks.

(** The loop over the transports. *)
Definition closeTransports (socketId : string) (l : JSMap.t TransportData)
    (s : RoomState) : RoomState :=
  JSMap.forEach
    (fun transportId transportData st =>
       if String.eqb (t_socketId transportData) socketId
       then with_transports (JSMap.delete transportId (transports st)) st
       else st)
    l s.

(** [x] is an index of a pool of [bound] slots. *)
Definition inRange (bound x : Z) : Prop := 0 <= x < bound.

(** The indexes held by the users of the room. *)
Definition userIndexes (s : RoomState) : list Z :=
  map (fun e => u_userIndex (snd e)) (users s).

(** [i] is free and no free index is smaller. *)
Definition leastFree (i : Z) (pool : list Z) : Prop :=
  In i pool /\ forall x, In x pool -> i <= x.

(** What the release of [i] and the acquire that follows do to a pool
    that the state [s] holds in the field [pool], through the methods
    [rel] and [acq] of that pool. *)
Definition ReleaseThenAcquire (bound : Z) (pool : RoomState -> list Z)
    (rel : option Z -> RoomState -> RoomState)
    (acq : RoomState -> option Z * RoomState) (s : RoomState) : Prop :=
  forall i : Z,
    let s1 := rel (Some i) s in
    Sorted Z.le (pool s1) /\
    (inRange bound i -> Permutation (pool s1) (i :: pool s)) /\
    (forall m s2, acq s1 = (Some m, s2) ->
       leastFree m (pool s1) /\ pool s1 = m :: pool s2) /\
    (forall s2, acq s1 = (None, s2) -> pool s1 = []) /\
    (leastFree i (pool s1) ->
       exists s2, acq s1 = (Some i, s2) /\ pool s2 = pool s).

Section WithConfig.

Variable config : Config.

(** The loop over the producers, as [cleanupUser] runs it. *)
Definition closeProducers (socketId : string) (l : JSMap.t ProducerData)
    (s : RoomState) : RoomState :=
  JSMap.forEach
    (fun producerId producerData st =>
       if strict_eq (p_socketId producerData) socketId then
         let st1 :=
           if String.eqb (p_source producerData) "screen" then
             let st' := releasePresentationIndex config
                          (p_presentationIndex producerData) st in
             with_screenProducers
               (JSMap.delete producerId (screenProducers st')) st'
           else st in
         with_producers (JSMap.delete producerId (producers st1)) st1
       else st)
    l s.

(** The state between the release of the user's index and the two
    loops. *)
Definition userRemoved (socketId : string) (s : RoomState) : RoomState :=
  match JSMap.get socketId (users s) with
  | Some u =>
      releaseUserIndex config (Some (u_userIndex u))
        (with_users (JSMap.delete socketId (users s)) s)
  | None => with_users (JSMap.delete socketId (users s)) s
  end.

(** The user pool is strictly ascending and within bounds; the users hold
    distinct indexes, none of which is free. *)
Definition UserSlots (s : RoomState) : Prop :=
  Sorted Z.lt (availableIndexes s) /\
  Forall (inRange (MAX_USERS config)) (availableIndexes s) /\
  NoDup (userIndexes s) /\
  Forall (fun i => inRange (MAX_USERS config) i /\
                   ~ In i (availableIndexes s))
    (userIndexes s).

(** The presentation pool is ascending and within bounds. *)
Definition PresentationSlots (s : RoomState) : Prop :=
  Sorted Z.le (availablePresentationIndexes s) /\
  Forall (inRange (MAX_SCREEN_SHARES config))
    (availablePresentationIndexes s).

(** No screen share can be added: the count has reached the bound, or no
    presentation index is free. *)
Definition exhausted (s : RoomState) : Prop :=
  MAX_SCREEN_SHARES config <= getScreenShareCount s \/
  availablePresentationIndexes s = [].

End WithConfig.

(** *** States for the scenarios *)

(** The limits of config.js when the environment sets none. *)
Definition defaults : Config := mkConfig 3 2.

(** The state after a sequence of inputs. *)
Definition run (inputs : list Input) (s : RoomState) : RoomState :=
  fold_left (fun st i => fst (handle defaults i st)) inputs s.

Definition started : RoomState := resetServerState defaults.

(** One user, who has released nothing yet. *)
Definition oneUser : RoomState := run [connection "a"] started.

(** Two users; [a] shares a screen through the producer [p1]. *)
Definition sharing : RoomState :=
  run [ connection "a"; connection "b";
        create_transport_resumes (resolved "t1")
          (mkTransportRequest (Some "a") (Some "send"));
        produce_resumes (resolved "p1")
          (mkProduceRequest "t1" "video" (Some "a") (Some "screen")) ]
    started.

(** Both presentation slots taken. *)
Definition twoShares : RoomState :=
  run [ produce_resumes (resolved "p2")
          (mkProduceRequest "t1" "video" (Some "b") (Some "screen")) ]
    sharing.

(** As many users as the room admits. *)
Definition fullRoom : RoomState :=
  run [connection "a"; connection "b"; connection "c"] started.

(** A transport requested under a socket id that is no user. *)
Definition strangerTransport : RoomState :=
  run [ create_transport_resumes (resolved "t9")
          (mkTransportRequest (Some "ghost") (Some "recv")) ]
    started.

(** [a] registers its camera in the state [sharing]. *)
Definition cameraRequest : ProduceRequest :=
  mkProduceRequest "t1" "video" (Some "a") (Some "camera").

(** *** Further vocabulary *)

(** The four maps of the room never hold a key twice. *)
Definition MapsWf (s : RoomState) : Prop :=
  JSMap.wf (users s) /\ JSMap.wf (transports s) /\
  JSMap.wf (producers s) /\ JSMap.wf (screenProducers s).

(** The test of the loop of [removeUserScreenShares]: a screen share
    registered under the socket. *)
Definition ownsScreen (socketId : string) (e : string * ProducerData)
    : bool :=
  strict_eq (p_socketId (snd e)) socketId
  && String.eqb (p_source (snd e)) "screen".

(** The source of the entry is the screen. *)
Definition isScreenEntry (e : string * ProducerData) : bool :=
  String.eqb (p_source (snd e)) "screen".

(** The presentation indexes recorded with the screen shares of the
    directory, in its order. *)
Definition heldPresentationIndexes (s : RoomState) : list (option Z) :=
  map (fun e => p_presentationIndex (snd e))
    (filter isScreenEntry (producers s)).

(** What the release of [index] adds to a pool of [bound] slots. *)
Definition released (bound : Z) (index : option Z) : list Z :=
  match index with
  | Some i => if (i >=? 0) && (i <? bound) then [i] else []
  | None => []
  end.

(** The indexes that the removal of the entries of [l] that satisfy
    [own] gives back, in the order of [l]. *)
Definition releasedBy (bound : Z) (own : string * ProducerData -> bool)
    (l : JSMap.t ProducerData) : list Z :=
  flat_map
    (fun e => if own e then released bound (p_presentationIndex (snd e))
              else [])
    l.

(** Socket.IO gives a connection an id that no live connection has, and
    the engine gives a producer an id that no producer has. *)
Definition freshInput (i : Input) (s : RoomState) : Prop :=
  match i with
  | connection socketId => JSMap.get socketId (users s) = None
  | produce_resumes (resolved producerId) _ =>
      JSMap.get producerId (producers s) = None
  | _ => True
  end.

Section FurtherWithConfig.

Variable config : Config.

(** One round of the loop of [removeUserScreenShares]. *)
Definition screenShareStep (socketId : string)
    (acc : list string * RoomState) (e : string * ProducerData)
    : list string * RoomState :=
  let (removedProducers, st) := acc in
  if strict_eq (p_socketId (snd e)) socketId
     && String.eqb (p_source (snd e)) "screen"
  then
    let st1 := releasePresentationIndex config
                 (p_presentationIndex (snd e)) st in
    let st2 := with_producers (JSMap.delete (fst e) (producers st1)) st1 in
    let st3 := with_screenProducers
                 (JSMap.delete (fst e) (screenProducers st2)) st2 in
    ((removedProducers ++ [fst e])%list, st3)
  else acc.

(** The states the server reaches when ids are fresh. *)
Inductive freshReachable : RoomState -> Prop :=
| freshReachable_start : freshReachable (resetServerState config)
| freshReachable_step (i : Input) (s : RoomState) :
    freshReachable s -> freshInput i s ->
    freshReachable (fst (handle config i s)).

(** The user indexes: the free ones followed by the held ones are a
    rearrangement of [0 .. MAX_USERS). *)
Definition UsersPartition (s : RoomState) : Prop :=
  Permutation (availableIndexes s ++ userIndexes s)
    (JSArray.from_length (MAX_USERS config)).

(** The presentation indexes: the free ones followed by those recorded
    with the screen shares are a rearrangement of
    [0 .. MAX_SCREEN_SHARES), and [screenProducers] holds the keys of
    the screen shares of the directory, in its order. *)
Definition ScreensPartition (s : RoomState) : Prop :=
  Permutation
    (map Some (availablePresentationIndexes s)
     ++ heldPresentationIndexes s)
    (map Some (JSArray.from_length (MAX_SCREEN_SHARES config))) /\
  JSMap.keys (screenProducers s) =
    map fst (filter isScreenEntry (producers s)).

End FurtherWithConfig.

End ServerSpec.

(** ** The client *)

Module ClientSpec.

Import Client.

(** The resources a sequence of messages carries, per queue, in order of
    arrival. *)
Definition producerArrivals (messages : list Creation) : list Descriptor :=
  flat_map
    (fun m =>
       match m with
       | snapshot _ _ currentProducers =>
           filter (fun d => negb (d_isScreen d)) currentProducers
       | producer_created data => [data]
       | presentation_created _ => []
       end)
    messages.

Definition presentationArrivals (messages : list Creation)
    : list Descriptor :=
  flat_map
    (fun m =>
       match m with
       | snapshot _ _ currentProducers => filter d_isScreen currentProducers
       | producer_created _ => []
       | presentation_created data => [data]
       end)
    messages.

(** The ids of the wrappers of the page, in document order. *)
Definition wrapperIds (doc : Document) : list string :=
  map w_id (videoWrappers doc).

(** Number of render slots whose id is [id]. *)
Definition countId (id : string) (doc : Document) : nat :=
  List.length (filter (String.eqb id) (wrapperIds doc)).

(** The semantic id of the render slot of a resource. *)
Definition slotId (data : Descriptor) (isPresentation : bool) : string :=
  if isPresentation then "presentation-" ++ d_id data
  else "user-" ++ show (d_socketId data).

(** The call gets past the two early returns (own camera or microphone,
    resource already consumed) and reaches the requests. *)
Definition passes (data : Descriptor) (isPresentation : bool)
    (c : VideoConference) : bool :=
  negb (strict_eq (d_socketId data) (socket_id c) && negb isPresentation)
  && negb (JSMap.has (d_id data) (consumers c)).

(** The outside made the call end in the [catch] block. *)
Definition failed (answer : Outcome) : bool :=
  match answer with
  | consumer_created _ _ _ => false
  | _ => true
  end.

(** The receive transport that existed when the call ended, if any. *)
Definition transportOf (answer : Outcome) : option string :=
  match answer with
  | transport_request_fails => None
  | recv_transport_fails => None
  | consume_request_fails transportId => Some transportId
  | transport_consume_fails transportId => Some transportId
  | consumer_created transportId _ _ => Some transportId
  end.

(** A wrapper without the classes and inline styles of the gesture. *)
Definition plain (w : Wrapper) : Wrapper :=
  set_highlight false false EmptyString EmptyString w.

(** The creation messages among the events a client receives. *)
Definition creations (events : list Event) : list Client.Creation :=
  flat_map (fun e => match Client.creationOf e with
                     | Some m => [m]
                     | None => []
                     end)
    events.

(** *** States for the scenarios *)

Definition localWrapper : Wrapper :=
  mkWrapper EmptyString true "You" "scr0" false false EmptyString
    EmptyString EmptyString None None.

(** The page as the server renders it. *)
Definition servedPage : Document :=
  mkDocument [localWrapper] None EmptyString "none" false.

(** The conference object as its constructor leaves it, on a socket
    [me]. *)
Definition constructed : VideoConference :=
  mkVideoConference "me" JSMap.empty JSMap.empty JSMap.empty JSMap.empty 0
    [] [] false false None None servedPage.

Definition cameraOfA : Descriptor :=
  mkDescriptor "p1" (Some "a") "video" (Some "camera") "Ann" false (Some 1)
    None.


Definition screenOfA : Descriptor :=
  mkDescriptor "p3" (Some "a") "video" None "Ann" false None (Some 0).


(** The client after it has consumed the camera of [a]. *)
Definition watching : VideoConference :=
  consumeProducer (consumer_created "rt1" "c1" true) cameraOfA false
    constructed.

(** The engine after [a]'s video was selected as the source. *)
Definition sourceSelected : VideoConference :=
  selectForSwap "user-a" "scr1" watching.

Definition cameraOfB : Descriptor :=
  mkDescriptor "p5" (Some "b") "video" (Some "camera") "Bob" false (Some 2)
    None.

(** The client shows the cameras of [a] and [b] and the screen of
    [a]. *)
Definition gallery : VideoConference :=
  consumeProducer (consumer_created "rt3" "c3" true) screenOfA true
    (consumeProducer (consumer_created "rt2" "c2" true) cameraOfB false
       watching).



(** *** Further vocabulary *)

(** The children of a parent as [swapVideoContainers] numbers them: each
    with the position it has when the swap starts, counted from
    [start]. *)
Definition keyed (start : nat) (l : list Wrapper) : list Child :=
  combine (seq start (List.length l)) (map Some l).

(** The engine of the gesture is idle and the page carries none of its
    marks. *)
Definition idle (c : VideoConference) : Prop :=
  swapSource c = None /\ swapTarget c = None /\ isSwapMode c = false /\
  Forall (fun w => plain w = w) (videoWrappers (document c)) /\
  swapInstructions_display (document c) = "none" /\
  body_swap_mode (document c) = false.





(** No two wrappers of the page have the same id. *)
Definition uniqueIds (doc : Document) : Prop :=
  forall id, (countId id doc <= 1)%nat.

(** The removal messages among the events a client receives. *)
Definition removals (events : list Event) : list ClientRemoval.Removal :=
  flat_map (fun e => match ClientRemoval.removalOf e with
                     | Some m => [m]
                     | None => []
                     end)
    events.

(** The client after it handled a sequence of removal messages. *)
Definition afterRemovals (messages : list ClientRemoval.Removal)
    (c : VideoConference) : VideoConference :=
  fold_left (fun acc m => ClientRemoval.onRemoval m acc) messages c.

(** The messages about a user among the events a client receives. *)
Definition changes (events : list Event) : list ClientUsers.Change :=
  flat_map (fun e => match ClientUsers.changeOf e with
                     | Some m => [m]
                     | None => []
                     end)
    events.

(** The client after it handled a sequence of such messages. *)
Definition afterChanges (messages : list ClientUsers.Change)
    (c : VideoConference) : VideoConference :=
  fold_left (fun acc m => ClientUsers.onChange m acc) messages c.

(** The mirror that agrees with an entry of the server's [users]. *)
Definition mirrorOf (u : Server.UserState) : UserMirror :=
  mkUserMirror (Server.u_name u) (Some (Server.u_userIndex u))
    (Server.u_videoEnabled u) (Server.u_audioEnabled u).

End ClientSpec.

(** * Properties *)

(** ** Facts about maps and arrays *)

Module JSMapFacts.

Lemma get_set_same {V : Type} (k : string) (v : V) (m : JSMap.t V) :
  JSMap.get k (JSMap.set k v m) = Some v.
Proof.
  induction m as [|[k' v'] m IH]; simpl.
  - now rewrite String.eqb_refl.
  - destruct (String.eqb k k') eqn:E; simpl.
    + now rewrite String.eqb_refl.
    + now rewrite E.
Qed.

Lemma get_set_other {V : Type} (k k0 : string) (v : V) (m : JSMap.t V) :
  k0 <> k -> JSMap.get k0 (JSMap.set k v m) = JSMap.get k0 m.
Proof.
  intros Hne. induction m as [|[k' v'] m IH]; simpl.
  - destruct (String.eqb k0 k) eqn:E; [|reflexivity].
    apply String.eqb_eq in E. contradiction.
  - destruct (String.eqb k k') eqn:E; simpl.
    + apply String.eqb_eq in E. subst k'.
      destruct (String.eqb k0 k) eqn:E0; [|reflexivity].
      apply String.eqb_eq in E0. contradiction.
    + now rewrite IH.
Qed.

Lemma has_set_same {V : Type} (k : string) (v : V) (m : JSMap.t V) :
  JSMap.has k (JSMap.set k v m) = true.
Proof. unfold JSMap.has. now rewrite get_set_same. Qed.


Lemma set_absent {V : Type} (k : string) (v : V) (m : JSMap.t V) :
  JSMap.get k m = None -> JSMap.set k v m = (m ++ [(k, v)])%list.
Proof.
  induction m as [|[k' v'] m IH]; simpl; [reflexivity|].
  destruct (String.eqb k k'); [discriminate|].
  intros H. now rewrite IH.
Qed.


Lemma delete_absent {V : Type} (k : string) (m : JSMap.t V) :
  JSMap.get k m = None -> JSMap.delete k m = m.
Proof.
  unfold JSMap.delete. induction m as [|[k' v'] m IH]; simpl; [reflexivity|].
  destruct (String.eqb k k'); [discriminate|]. simpl.
  intros H. now rewrite IH.
Qed.

Lemma get_delete_same {V : Type} (k : string) (m : JSMap.t V) :
  JSMap.get k (JSMap.delete k m) = None.
Proof.
  unfold JSMap.delete. induction m as [|[k' v'] m IH]; simpl; [reflexivity|].
  destruct (String.eqb k k') eqn:E; simpl; [exact IH|].
  now rewrite E.
Qed.

Lemma get_in {V : Type} (k : string) (v : V) (m : JSMap.t V) :
  JSMap.get k m = Some v -> In (k, v) m.
Proof.
  induction m as [|[k' v'] m IH]; simpl; [discriminate|].
  destruct (String.eqb k k') eqn:E.
  - apply String.eqb_eq in E. intros [= ->]. subst. now left.
  - intros H. right. now apply IH.
Qed.

Lemma in_set {V : Type} (k : string) (v : V) (m : JSMap.t V)
    (e : string * V) :
  In e (JSMap.set k v m) -> e = (k, v) \/ In e m.
Proof.
  induction m as [|[k' v'] m IH]; simpl.
  - intros [<-|[]]. now left.
  - destruct (String.eqb k k'); simpl.
    + intros [<-|H]; [now left|right; now right].
    + intros [<-|H]; [right; now left|].
      destruct (IH H) as [->|H']; [now left|right; now right].
Qed.

Lemma in_delete {V : Type} (k : string) (m : JSMap.t V) (e : string * V) :
  In e (JSMap.delete k m) <-> In e m /\ fst e <> k.
Proof.
  unfold JSMap.delete. rewrite filter_In.
  destruct (String.eqb k (fst e)) eqn:E; simpl.
  - apply String.eqb_eq in E. split; [intros [_ [=]]|intros [_ H]].
    now symmetry in E.
  - apply String.eqb_neq in E. split; intros [H _]; split; congruence.
Qed.

(** Overwriting an entry by one with the same image under [g] keeps
    the images. *)
Lemma map_set_same {V A : Type} (g : V -> A) (k : string) (v u : V)
    (m : JSMap.t V) :
  JSMap.get k m = Some u -> g v = g u ->
  map (fun e => g (snd e)) (JSMap.set k v m) = map (fun e => g (snd e)) m.
Proof.
  intros Hget Hg. induction m as [|[k' v'] m IH]; simpl in *; [discriminate|].
  destruct (String.eqb k k'); simpl.
  - injection Hget as ->. now rewrite Hg.
  - now rewrite IH.
Qed.

Lemma nodup_map_set {V A : Type} (g : V -> A) (k : string) (v : V)
    (m : JSMap.t V) :
  NoDup (map (fun e => g (snd e)) m) ->
  ~ In (g v) (map (fun e => g (snd e)) m) ->
  NoDup (map (fun e => g (snd e)) (JSMap.set k v m)).
Proof.
  induction m as [|[k' v'] m IH]; simpl; intros Hnd Hv.
  - constructor; [intros []|constructor].
  - inversion Hnd as [|? ? Hx Hnd']; subst.
    destruct (String.eqb k k'); simpl.
    + constructor; [|exact Hnd']. intros H. apply Hv. now right.
    + constructor.
      * intros H. apply in_map_iff in H as [e [He Hin]].
        apply in_set in Hin as [->|Hin].
        -- simpl in He. apply Hv. left. now symmetry.
        -- apply Hx. apply in_map_iff. now exists e.
      * apply IH; [exact Hnd'|]. intros H. apply Hv. now right.
Qed.

Lemma nodup_map_filter {A B : Type} (g : A -> B) (f : A -> bool)
    (l : list A) :
  NoDup (map g l) -> NoDup (map g (filter f l)).
Proof.
  induction l as [|x l IH]; simpl; intros Hnd; [constructor|].
  inversion Hnd as [|? ? Hx Hnd']; subst.
  destruct (f x); simpl; [|now apply IH].
  constructor; [|now apply IH].
  intros H. apply Hx. apply in_map_iff in H as [y [Hy Hin]].
  apply in_map_iff. exists y. split; [exact Hy|].
  now apply filter_In in Hin.
Qed.

Lemma nodup_map_inj {A B : Type} (g : A -> B) (l : list A) (a b : A) :
  NoDup (map g l) -> In a l -> In b l -> g a = g b -> a = b.
Proof.
  induction l as [|x l IH]; simpl; intros Hnd Ha Hb Hg; [contradiction|].
  inversion Hnd as [|? ? Hx Hnd']; subst.
  destruct Ha as [->|Ha], Hb as [->|Hb]; try reflexivity.
  - exfalso. apply Hx. rewrite Hg. now apply in_map.
  - exfalso. apply Hx. rewrite <- Hg. now apply in_map.
  - now apply IH.
Qed.

End JSMapFacts.

Module JSArrayFacts.

Import JSArray.

Lemma insert_asc_perm (x : Z) (a : list Z) :
  Permutation (insert_asc x a) (x :: a).
Proof.
  induction a as [|y a IH]; simpl; [reflexivity|].
  destruct (x <=? y); [reflexivity|].
  rewrite IH. apply perm_swap.
Qed.

Lemma sort_asc_perm (a : list Z) : Permutation (sort_asc a) a.
Proof.
  induction a as [|x a IH]; simpl; [reflexivity|].
  rewrite insert_asc_perm. now constructor.
Qed.

Lemma insert_asc_sorted (x : Z) (a : list Z) :
  Sorted Z.le a -> Sorted Z.le (insert_asc x a).
Proof.
  induction a as [|y a IH]; simpl; intros Hs.
  - repeat constructor.
  - destruct (x <=? y) eqn:E.
    + constructor; [exact Hs|]. constructor. now apply Z.leb_le.
    + apply Z.leb_gt in E. inversion Hs as [|? ? Hs' Hhd]; subst.
      constructor; [now apply IH|].
      destruct a as [|z a]; simpl.
      * constructor. lia.
      * destruct (x <=? z); constructor; [lia|].
        now inversion Hhd.
Qed.

Lemma sort_asc_sorted (a : list Z) : Sorted Z.le (sort_asc a).
Proof.
  induction a as [|x a IH]; simpl; [constructor|].
  now apply insert_asc_sorted.
Qed.

Lemma sorted_head_least (x : Z) (a : list Z) :
  Sorted Z.le (x :: a) -> forall y, In y (x :: a) -> x <= y.
Proof.
  intros Hs. apply Sorted_StronglySorted in Hs.
  - inversion Hs as [|? ? _ Hall]; subst. intros y [->|Hy]; [lia|].
    rewrite Forall_forall in Hall. now apply Hall.
  - intros p q r. apply Z.le_trans.
Qed.

Lemma insert_asc_least (x : Z) (a : list Z) :
  (forall y, In y a -> x <= y) -> insert_asc x a = x :: a.
Proof.
  destruct a as [|y a]; simpl; [reflexivity|].
  intros H. assert (x <= y) as Hxy by (apply H; now left).
  apply Z.leb_le in Hxy. now rewrite Hxy.
Qed.

(** Pushing a lower bound of an ascending array and sorting puts it in
    front and leaves the rest as it was. *)
Lemma sort_push_least (x : Z) (a : list Z) :
  Sorted Z.le a -> (forall y, In y a -> x <= y) ->
  sort_asc (push x a) = x :: a.
Proof.
  unfold push, sort_asc. induction a as [|y a IH]; simpl; intros Hs Hlb.
  - reflexivity.
  - rewrite IH.
    + assert (x <= y) as Hxy by (apply Hlb; now left).
      simpl. destruct (y <=? x) eqn:E.
      * apply Z.leb_le in E. assert (y = x) by lia. now subst.
      * f_equal. apply insert_asc_least.
        intros z Hz. apply (sorted_head_least y a Hs). now right.
    + now inversion Hs.
    + intros z Hz. apply Hlb. now right.
Qed.

Lemma sort_asc_in (x : Z) (a : list Z) : In x (sort_asc a) <-> In x a.
Proof.
  split; apply Permutation_in; [|symmetry]; apply sort_asc_perm.
Qed.

Lemma from_length_sorted (n : Z) : Sorted Z.lt (from_length n).
Proof.
  unfold from_length. generalize 0%nat as start.
  induction (Z.to_nat n) as [|k IH]; intros start; simpl; [constructor|].
  constructor; [apply IH|].
  destruct k; simpl; constructor. lia.
Qed.

Lemma from_length_range (n x : Z) : In x (from_length n) -> 0 <= x < n.
Proof.
  unfold from_length. rewrite in_map_iff. intros [k [<- Hk]].
  apply in_seq in Hk. lia.
Qed.

Lemma sorted_lt_nodup (a : list Z) : Sorted Z.lt a -> NoDup a.
Proof.
  intros Hs. apply Sorted_StronglySorted in Hs.
  - induction Hs as [|x a _ IH Hall]; constructor; [|exact IH].
    intros Hin. rewrite Forall_forall in Hall.
    specialize (Hall x Hin). lia.
  - intros p q r. apply Z.lt_trans.
Qed.

Lemma sorted_lt_le (a : list Z) : Sorted Z.lt a -> Sorted Z.le a.
Proof.
  induction 1 as [|x a _ IH Hhd]; constructor; [exact IH|].
  destruct Hhd; constructor. lia.
Qed.

Lemma sorted_le_nodup_lt (a : list Z) :
  Sorted Z.le a -> NoDup a -> Sorted Z.lt a.
Proof.
  induction 1 as [|x a _ IH Hhd]; intros Hnd; [constructor|].
  inversion Hnd as [|? ? Hx Hnd']; subst.
  constructor; [now apply IH|].
  destruct Hhd as [|y a Hxy]; constructor.
  assert (x <> y) by (intros ->; apply Hx; now left). lia.
Qed.

(** Releasing an index that is not free keeps the array free of
    repetitions. *)
Lemma sort_push_strict (x : Z) (a : list Z) :
  Sorted Z.lt a -> ~ In x a -> Sorted Z.lt (sort_asc (push x a)).
Proof.
  intros Hs Hx. apply sorted_le_nodup_lt; [apply sort_asc_sorted|].
  apply (Permutation_NoDup (l := x :: a)).
  - symmetry. rewrite sort_asc_perm. unfold push.
    symmetry. apply Permutation_cons_append.
  - constructor; [exact Hx|now apply sorted_lt_nodup].
Qed.

End JSArrayFacts.

(** ** The server *)

Module ServerFacts.

Import Server ServerSpec.

Lemma fold_left_preserves {A B : Type} (P : A -> Prop) (f : A -> B -> A)
    (l : list B) (a : A) :
  (forall x b, In b l -> P x -> P (f x b)) -> P a -> P (fold_left f l a).
Proof.
  revert a. induction l as [|b l IH]; simpl; intros a Hf Ha; [exact Ha|].
  apply IH.
  - intros x b' Hb'. apply Hf. now right.
  - apply Hf; [now left|exact Ha].
Qed.

Lemma fold_left_fixed {A B : Type} (f : A -> B -> A) (l : list B) (a : A) :
  (forall x b, In b l -> f x b = x) -> fold_left f l a = a.
Proof.
  revert a. induction l as [|b l IH]; simpl; intros a Hf; [reflexivity|].
  rewrite Hf by now left. apply IH. intros x b' Hb'. apply Hf. now right.
Qed.

Lemma filter_all {A : Type} (f : A -> bool) (l : list A) :
  (forall x, In x l -> f x = true) -> filter f l = l.
Proof.
  induction l as [|x l IH]; simpl; intros H; [reflexivity|].
  rewrite H by now left. f_equal. apply IH. intros y Hy. apply H. now right.
Qed.

Lemma filter_filter {A : Type} (f g : A -> bool) (l : list A) :
  filter f (filter g l) = filter (fun x => g x && f x) l.
Proof.
  induction l as [|x l IH]; simpl; [reflexivity|].
  destruct (g x); simpl; [destruct (f x)|]; now rewrite IH.
Qed.

(** Record eta for the room state. *)
Lemma RoomState_eta (s : RoomState) :
  mkRoomState (users s) (availableIndexes s) (transports s) (producers s)
    (screenProducers s) (userCounter s) (presentationCounter s)
    (availablePresentationIndexes s) = s.
Proof. now destruct s. Qed.

Lemma acquire_empty (pool : list Z) :
  fst (acquire pool) = None <-> pool = [].
Proof. destruct pool; simpl; split; congruence. Qed.

Lemma acquire_none_same (pool rest : list Z) :
  acquire pool = (None, rest) -> rest = pool.
Proof. destruct pool; simpl; congruence. Qed.

Lemma acquire_some (pool rest : list Z) (i : Z) :
  acquire pool = (Some i, rest) -> pool = i :: rest.
Proof. destruct pool; simpl; congruence. Qed.

Section WithConfig.

Variable config : Config.

(** *** What [cleanupUser] leaves *)

Lemma cleanupUser_unfold (socketId : string) (s : RoomState) :
  cleanupUser config socketId s =
  let s1 := with_users (JSMap.delete socketId (users s)) s in
  let s2 := match JSMap.get socketId (users s) with
            | Some u => releaseUserIndex config (Some (u_userIndex u)) s1
            | None => s1
            end in
  let s3 := closeProducers config socketId (producers s2) s2 in
  closeTransports socketId (transports s3) s3.
Proof. reflexivity. Qed.

Lemma delete_as_filter {V : Type} (k : string) (m : JSMap.t V) :
  JSMap.delete k m = filter (fun e => negb (keyIn [k] e)) m.
Proof.
  unfold JSMap.delete, keyIn. apply filter_ext. intros e. simpl.
  rewrite orb_false_r. now rewrite String.eqb_sym.
Qed.

Lemma keyIn_cons {V : Type} (k : string) (ks : list string)
    (e : string * V) :
  negb (keyIn [k] e) && negb (keyIn ks e) = negb (keyIn (k :: ks) e).
Proof.
  unfold keyIn. simpl. rewrite orb_false_r.
  now destruct (String.eqb (fst e) k), (existsb (String.eqb (fst e)) ks).
Qed.

Lemma closeProducers_frame (socketId : string) (l : JSMap.t ProducerData)
    (s : RoomState) :
  let s' := closeProducers config socketId l s in
  users s' = users s /\ availableIndexes s' = availableIndexes s /\
  transports s' = transports s /\ userCounter s' = userCounter s /\
  presentationCounter s' = presentationCounter s.
Proof.
  unfold closeProducers, JSMap.forEach.
  apply fold_left_preserves with
    (P := fun s' =>
            users s' = users s /\ availableIndexes s' = availableIndexes s /\
            transports s' = transports s /\ userCounter s' = userCounter s /\
            presentationCounter s' = presentationCounter s);
    [|now repeat split].
  intros x [k pd] _ H. simpl.
  destruct (strict_eq (p_socketId pd) socketId); [|exact H].
  destruct (String.eqb (p_source pd) "screen"); simpl; exact H.
Qed.

Lemma closeProducers_producers (socketId : string)
    (l : JSMap.t ProducerData) (s : RoomState) :
  producers (closeProducers config socketId l s) =
  filter (fun e => negb (keyIn (map fst (filter (ownsProducer socketId) l)) e))
    (producers s).
Proof.
  unfold closeProducers, JSMap.forEach. revert s.
  induction l as [|[k pd] l IH]; intros s; simpl.
  - symmetry. now apply filter_all.
  - rewrite IH. unfold ownsProducer at 2. simpl.
    destruct (strict_eq (p_socketId pd) socketId); [|reflexivity].
    destruct (String.eqb (p_source pd) "screen"); simpl;
      rewrite delete_as_filter, filter_filter;
      apply filter_ext; intros e; apply keyIn_cons.
Qed.

Lemma closeTransports_frame (socketId : string)
    (l : JSMap.t TransportData) (s : RoomState) :
  let s' := closeTransports socketId l s in
  users s' = users s /\ availableIndexes s' = availableIndexes s /\
  producers s' = producers s /\ screenProducers s' = screenProducers s /\
  userCounter s' = userCounter s /\
  presentationCounter s' = presentationCounter s /\
  availablePresentationIndexes s' = availablePresentationIndexes s.
Proof.
  unfold closeTransports, JSMap.forEach.
  apply fold_left_preserves with
    (P := fun s' =>
            users s' = users s /\ availableIndexes s' = availableIndexes s /\
            producers s' = producers s /\
            screenProducers s' = screenProducers s /\
            userCounter s' = userCounter s /\
            presentationCounter s' = presentationCounter s /\
            availablePresentationIndexes s' =
              availablePresentationIndexes s);
    [|now repeat split].
  intros x [k td] _ H. simpl.
  destruct (String.eqb (t_socketId td) socketId); exact H.
Qed.

Lemma closeTransports_transports (socketId : string)
    (l : JSMap.t TransportData) (s : RoomState) :
  transports (closeTransports socketId l s) =
  filter
    (fun e => negb (keyIn (map fst (filter (ownsTransport socketId) l)) e))
    (transports s).
Proof.
  unfold closeTransports, JSMap.forEach. revert s.
  induction l as [|[k td] l IH]; intros s; simpl.
  - symmetry. now apply filter_all.
  - rewrite IH. unfold ownsTransport at 2. simpl.
    destruct (String.eqb (t_socketId td) socketId); [|reflexivity].
    simpl. rewrite delete_as_filter, filter_filter.
    apply filter_ext. intros e. apply keyIn_cons.
Qed.

(** No entry that the loop was to close is left. *)
Lemma keyIn_owned {V : Type} (own : string * V -> bool)
    (l : list (string * V)) (e : string * V) :
  In e l -> own e = true -> keyIn (map fst (filter own l)) e = true.
Proof.
  intros Hin Hown. unfold keyIn. apply existsb_exists.
  exists (fst e). split; [|apply String.eqb_refl].
  apply in_map. apply filter_In. now split.
Qed.

Lemma cleanupUser_loops (socketId : string) (s : RoomState) :
  cleanupUser config socketId s =
  closeTransports socketId
    (transports
       (closeProducers config socketId (producers s) (userRemoved config socketId s)))
    (closeProducers config socketId (producers s) (userRemoved config socketId s)).
Proof.
  rewrite cleanupUser_unfold. cbv zeta. unfold userRemoved.
  now destruct (JSMap.get socketId (users s)).
Qed.

Lemma userRemoved_fields (socketId : string) (s : RoomState) :
  users (userRemoved config socketId s) = JSMap.delete socketId (users s) /\
  availableIndexes (userRemoved config socketId s) =
    match JSMap.get socketId (users s) with
    | Some u => release (MAX_USERS config) (Some (u_userIndex u))
                  (availableIndexes s)
    | None => availableIndexes s
    end /\
  producers (userRemoved config socketId s) = producers s /\
  transports (userRemoved config socketId s) = transports s /\
  screenProducers (userRemoved config socketId s) = screenProducers s /\
  availablePresentationIndexes (userRemoved config socketId s) =
    availablePresentationIndexes s.
Proof.
  unfold userRemoved.
  destruct (JSMap.get socketId (users s)); simpl; now repeat split.
Qed.

Lemma cleanupUser_users (socketId : string) (s : RoomState) :
  users (cleanupUser config socketId s) = JSMap.delete socketId (users s).
Proof.
  rewrite cleanupUser_loops.
  match goal with |- users (closeTransports ?a ?b ?c) = _ =>
    destruct (closeTransports_frame a b c) as [-> _] end.
  match goal with |- users (closeProducers config ?a ?b ?c) = _ =>
    destruct (closeProducers_frame a b c) as [-> _] end.
  apply userRemoved_fields.
Qed.

Lemma cleanupUser_availableIndexes (socketId : string) (s : RoomState) :
  availableIndexes (cleanupUser config socketId s) =
  match JSMap.get socketId (users s) with
  | Some u => release (MAX_USERS config) (Some (u_userIndex u))
                (availableIndexes s)
  | None => availableIndexes s
  end.
Proof.
  rewrite cleanupUser_loops.
  match goal with |- availableIndexes (closeTransports ?a ?b ?c) = _ =>
    destruct (closeTransports_frame a b c) as [_ [-> _]] end.
  match goal with |- availableIndexes (closeProducers config ?a ?b ?c) = _ =>
    destruct (closeProducers_frame a b c) as [_ [-> _]] end.
  apply userRemoved_fields.
Qed.

Lemma cleanupUser_producers (socketId : string) (s : RoomState) :
  producers (cleanupUser config socketId s) =
  filter
    (fun e =>
       negb (keyIn (map fst (filter (ownsProducer socketId) (producers s)))
               e))
    (producers s).
Proof.
  rewrite cleanupUser_loops.
  match goal with |- producers (closeTransports ?a ?b ?c) = _ =>
    destruct (closeTransports_frame a b c) as [_ [_ [-> _]]] end.
  rewrite closeProducers_producers.
  now destruct (userRemoved_fields socketId s) as [_ [_ [-> _]]].
Qed.

Lemma cleanupUser_transports (socketId : string) (s : RoomState) :
  transports (cleanupUser config socketId s) =
  filter
    (fun e =>
       negb (keyIn (map fst (filter (ownsTransport socketId) (transports s)))
               e))
    (transports s).
Proof.
  rewrite cleanupUser_loops. rewrite closeTransports_transports.
  match goal with |- context [transports (closeProducers config ?a ?b ?c)] =>
    destruct (closeProducers_frame a b c) as [_ [_ [-> _]]] end.
  now destruct (userRemoved_fields socketId s) as [_ [_ [_ [-> _]]]].
Qed.

(** After [cleanupUser] the directory holds nothing of the socket. *)
Lemma cleanupUser_no_producer_left (socketId : string) (s : RoomState)
    (e : string * ProducerData) :
  In e (producers (cleanupUser config socketId s)) ->
  ownsProducer socketId e = false.
Proof.
  rewrite cleanupUser_producers, filter_In. intros [Hin Hk].
  destruct (ownsProducer socketId e) eqn:Hown; [|reflexivity].
  now rewrite (keyIn_owned _ _ _ Hin Hown) in Hk.
Qed.

Lemma cleanupUser_no_transport_left (socketId : string) (s : RoomState)
    (e : string * TransportData) :
  In e (transports (cleanupUser config socketId s)) ->
  ownsTransport socketId e = false.
Proof.
  rewrite cleanupUser_transports, filter_In. intros [Hin Hk].
  destruct (ownsTransport socketId e) eqn:Hown; [|reflexivity].
  now rewrite (keyIn_owned _ _ _ Hin Hown) in Hk.
Qed.

Lemma closeProducers_nothing (socketId : string)
    (l : JSMap.t ProducerData) (s : RoomState) :
  (forall e, In e l -> ownsProducer socketId e = false) ->
  closeProducers config socketId l s = s.
Proof.
  intros H. unfold closeProducers, JSMap.forEach.
  apply fold_left_fixed. intros x e He.
  specialize (H e He). unfold ownsProducer in H. now rewrite H.
Qed.

Lemma closeTransports_nothing (socketId : string)
    (l : JSMap.t TransportData) (s : RoomState) :
  (forall e, In e l -> ownsTransport socketId e = false) ->
  closeTransports socketId l s = s.
Proof.
  intros H. unfold closeTransports, JSMap.forEach.
  apply fold_left_fixed. intros x e He.
  specialize (H e He). unfold ownsTransport in H. now rewrite H.
Qed.

(** [cleanupUser] changes nothing for a socket that is not a user and
    owns nothing. *)
Lemma cleanupUser_stranger (socketId : string) (s : RoomState) :
  JSMap.get socketId (users s) = None ->
  (forall e, In e (producers s) -> ownsProducer socketId e = false) ->
  (forall e, In e (transports s) -> ownsTransport socketId e = false) ->
  cleanupUser config socketId s = s.
Proof.
  intros Hu Hp Ht. rewrite cleanupUser_loops.
  assert (userRemoved config socketId s = s) as ->.
  { unfold userRemoved. rewrite Hu.
    unfold with_users. rewrite (JSMapFacts.delete_absent _ _ Hu).
    apply RoomState_eta. }
  rewrite (closeProducers_nothing _ _ _ Hp).
  now apply closeTransports_nothing.
Qed.

Lemma cleanupUser_twice (socketId : string) (s : RoomState) :
  cleanupUser config socketId (cleanupUser config socketId s) =
  cleanupUser config socketId s.
Proof.
  apply cleanupUser_stranger.
  - rewrite cleanupUser_users. apply JSMapFacts.get_delete_same.
  - apply cleanupUser_no_producer_left.
  - apply cleanupUser_no_transport_left.
Qed.

Lemma endedPresentations_nothing (socketId : string) (s : RoomState) :
  (forall e, In e (producers s) -> ownsProducer socketId e = false) ->
  endedPresentations socketId s = [].
Proof.
  intros H. unfold endedPresentations, JSMap.forEach.
  apply fold_left_fixed. intros x e He.
  specialize (H e He). unfold ownsProducer in H. now rewrite H.
Qed.

(** What the [disconnect] handler sends, whatever the socket owned. *)
Lemma onDisconnect_sent (socketId : string) (s : RoomState) :
  snd (onDisconnect config socketId s) =
  [ emit (to_all_except socketId) (user_left socketId);
    emit to_all (roomStatus config (cleanupUser config socketId s)) ].
Proof.
  unfold onDisconnect. simpl.
  rewrite endedPresentations_nothing; [reflexivity|].
  apply cleanupUser_no_producer_left.
Qed.

(** *** The slot pools in the states the server can reach *)

Lemma UserSlots_ext (s s' : RoomState) :
  users s' = users s -> availableIndexes s' = availableIndexes s ->
  UserSlots config s -> UserSlots config s'.
Proof.
  unfold UserSlots, userIndexes. intros -> ->. exact (fun H => H).
Qed.

Lemma PresentationSlots_ext (s s' : RoomState) :
  availablePresentationIndexes s' = availablePresentationIndexes s ->
  PresentationSlots config s -> PresentationSlots config s'.
Proof. unfold PresentationSlots. intros ->. exact (fun H => H). Qed.

Lemma release_sorted (bound : Z) (index : option Z) (pool : list Z) :
  Sorted Z.le pool -> Sorted Z.le (release bound index pool).
Proof.
  intros Hs. unfold release. destruct index as [i|]; [|exact Hs].
  destruct ((i >=? 0) && (i <? bound)); [|exact Hs].
  apply JSArrayFacts.sort_asc_sorted.
Qed.

Lemma release_range (bound : Z) (index : option Z) (pool : list Z) :
  Forall (inRange bound) pool ->
  Forall (inRange bound) (release bound index pool).
Proof.
  intros Hr. unfold release. destruct index as [i|]; [|exact Hr].
  destruct ((i >=? 0) && (i <? bound)) eqn:E; [|exact Hr].
  apply andb_prop in E as [E1 E2].
  apply Z.geb_le in E1. apply Z.ltb_lt in E2.
  rewrite Forall_forall in *. intros x Hx.
  apply (proj1 (JSArrayFacts.sort_asc_in _ _)) in Hx. unfold JSArray.push in Hx.
  apply in_app_or in Hx as [Hx|[<-|[]]]; [now apply Hr|].
  unfold inRange. lia.
Qed.

Lemma release_in (bound : Z) (i x : Z) (pool : list Z) :
  In x (release bound (Some i) pool) -> x = i \/ In x pool.
Proof.
  unfold release. destruct ((i >=? 0) && (i <? bound)); [|now right].
  intros Hx. apply (proj1 (JSArrayFacts.sort_asc_in _ _)) in Hx. unfold JSArray.push in Hx.
  apply in_app_or in Hx as [Hx|[<-|[]]]; [now right|now left].
Qed.

Lemma release_strict (bound : Z) (i : Z) (pool : list Z) :
  Sorted Z.lt pool -> ~ In i pool ->
  Sorted Z.lt (release bound (Some i) pool).
Proof.
  intros Hs Hi. unfold release.
  destruct ((i >=? 0) && (i <? bound)); [|exact Hs].
  now apply JSArrayFacts.sort_push_strict.
Qed.

Lemma releasePresentationIndex_slots (index : option Z) (s : RoomState) :
  PresentationSlots config s ->
  PresentationSlots config (releasePresentationIndex config index s).
Proof.
  intros [Hs Hr]. split; simpl.
  - now apply release_sorted.
  - now apply release_range.
Qed.

Lemma start_slots :
  UserSlots config (resetServerState config) /\
  PresentationSlots config (resetServerState config).
Proof.
  split; [split; [|split; [|split]]|split]; simpl.
  - apply JSArrayFacts.from_length_sorted.
  - apply Forall_forall. exact (JSArrayFacts.from_length_range _).
  - constructor.
  - constructor.
  - apply JSArrayFacts.sorted_lt_le, JSArrayFacts.from_length_sorted.
  - apply Forall_forall. exact (JSArrayFacts.from_length_range _).
Qed.

(** Admission: the head of the pool goes to the new user. *)
Lemma admit_slots (socketId : string) (u : UserState) (rest : list Z)
    (s : RoomState) :
  availableIndexes s = u_userIndex u :: rest ->
  UserSlots config s ->
  UserSlots config
    (with_users (JSMap.set socketId u (users s))
       (with_availableIndexes rest s)).
Proof.
  intros Hpool (Hs & Hr & Hnd & Hu). rewrite Hpool in *.
  pose proof (JSArrayFacts.sorted_lt_nodup _ Hs) as Hnd0.
  inversion Hnd0 as [|? ? Hhead _]; subst.
  rewrite Forall_forall in Hu.
  unfold UserSlots, userIndexes. simpl. repeat split.
  - now inversion Hs.
  - now inversion Hr.
  - apply JSMapFacts.nodup_map_set; [exact Hnd|].
    intros Hin. apply (Hu _ Hin). now left.
  - apply Forall_forall. intros i Hi.
    apply in_map_iff in Hi as [e [<- He]].
    apply JSMapFacts.in_set in He as [->|He]; simpl.
    + split; [|exact Hhead]. now inversion Hr.
    + assert (In (u_userIndex (snd e)) (userIndexes s)) as Hi
        by (unfold userIndexes; now apply in_map with
              (f := fun e => u_userIndex (snd e))).
      destruct (Hu _ Hi) as [Hrange Hfree]. split; [exact Hrange|].
      intros H. apply Hfree. now right.
Qed.

(** A change of name or of a media flag keeps the index. *)
Lemma update_slots (socketId : string) (u v : UserState) (s : RoomState) :
  JSMap.get socketId (users s) = Some u ->
  u_userIndex v = u_userIndex u ->
  UserSlots config s ->
  UserSlots config (with_users (JSMap.set socketId v (users s)) s).
Proof.
  intros Hget Hidx H. unfold UserSlots, userIndexes in *. simpl.
  now rewrite (JSMapFacts.map_set_same u_userIndex _ _ _ _ Hget Hidx).
Qed.

(** Removal: the index of the user is not free, so releasing it keeps
    the pool free of repetitions. *)
Lemma cleanupUser_UserSlots (socketId : string) (s : RoomState) :
  UserSlots config s -> UserSlots config (cleanupUser config socketId s).
Proof.
  intros (Hs & Hr & Hnd & Hu).
  unfold UserSlots, userIndexes.
  rewrite cleanupUser_users, cleanupUser_availableIndexes.
  rewrite Forall_forall in Hu.
  assert (forall e, In e (JSMap.delete socketId (users s)) ->
                    In (u_userIndex (snd e)) (userIndexes s)) as Hsub.
  { intros e He. apply JSMapFacts.in_delete in He as [He _].
    unfold userIndexes.
    now apply in_map with (f := fun e => u_userIndex (snd e)). }
  destruct (JSMap.get socketId (users s)) as [u|] eqn:Hget.
  - apply JSMapFacts.get_in in Hget.
    assert (In (u_userIndex u) (userIndexes s)) as Hiu
      by (unfold userIndexes;
          now apply in_map with (f := fun e => u_userIndex (snd e))
                                (x := (socketId, u))).
    repeat split.
    + apply release_strict; [exact Hs|]. now apply Hu.
    + now apply release_range.
    + unfold JSMap.delete. now apply JSMapFacts.nodup_map_filter.
    + apply Forall_forall. intros i Hi.
      apply in_map_iff in Hi as [e [<- He]].
      split; [now apply Hu, Hsub|].
      intros Hin. apply release_in in Hin as [Heq|Hin].
      * pose proof He as He'.
        apply JSMapFacts.in_delete in He' as [He' Hkey].
        apply Hkey.
        assert (e = (socketId, u)) as ->; [|reflexivity].
        now apply (JSMapFacts.nodup_map_inj
                     (fun e => u_userIndex (snd e)) (users s)).
      * now apply (Hu _ (Hsub e He)).
  - repeat split; [exact Hs|exact Hr| |].
    + unfold JSMap.delete. now apply JSMapFacts.nodup_map_filter.
    + apply Forall_forall. intros i Hi.
      apply in_map_iff in Hi as [e [<- He]]. now apply Hu, Hsub.
Qed.

Lemma closeProducers_PresentationSlots (socketId : string)
    (l : JSMap.t ProducerData) (s : RoomState) :
  PresentationSlots config s -> PresentationSlots config (closeProducers config socketId l s).
Proof.
  unfold closeProducers, JSMap.forEach.
  apply fold_left_preserves. intros x [k pd] _ H. simpl.
  destruct (strict_eq (p_socketId pd) socketId); [|exact H].
  destruct (String.eqb (p_source pd) "screen"); [|exact H].
  apply (PresentationSlots_ext
           (releasePresentationIndex config (p_presentationIndex pd) x));
    [reflexivity|].
  now apply releasePresentationIndex_slots.
Qed.

Lemma cleanupUser_PresentationSlots (socketId : string) (s : RoomState) :
  PresentationSlots config s -> PresentationSlots config (cleanupUser config socketId s).
Proof.
  intros H. rewrite cleanupUser_loops.
  match goal with |- PresentationSlots config (closeTransports ?a ?b ?c) =>
    apply (PresentationSlots_ext c);
      [apply (closeTransports_frame a b c)|] end.
  apply closeProducers_PresentationSlots.
  apply (PresentationSlots_ext s); [apply userRemoved_fields|exact H].
Qed.

Lemma removeUserScreenShares_slots (socketId : string) (s : RoomState) :
  let s' := snd (removeUserScreenShares config socketId s) in
  users s' = users s /\ availableIndexes s' = availableIndexes s /\
  (PresentationSlots config s -> PresentationSlots config s').
Proof.
  unfold removeUserScreenShares, JSMap.forEach.
  apply fold_left_preserves with
    (P := fun acc : list string * RoomState =>
            users (snd acc) = users s /\
            availableIndexes (snd acc) = availableIndexes s /\
            (PresentationSlots config s -> PresentationSlots config (snd acc)));
    [|simpl; split; [reflexivity|split; [reflexivity|exact (fun H => H)]]].
  intros [removed x] [k pd] _ (Hu & Ha & Hp). simpl in *.
  destruct (strict_eq (p_socketId pd) socketId
            && String.eqb (p_source pd) "screen"); simpl;
    [|split; [exact Hu|split; [exact Ha|exact Hp]]].
  split; [exact Hu|split; [exact Ha|]].
  intros H.
  apply (PresentationSlots_ext
           (releasePresentationIndex config (p_presentationIndex pd) x));
    [reflexivity|].
  now apply releasePresentationIndex_slots, Hp.
Qed.

Lemma handle_slots (i : Input) (s : RoomState) :
  UserSlots config s /\ PresentationSlots config s ->
  UserSlots config (fst (handle config i s)) /\
  PresentationSlots config (fst (handle config i s)).
Proof.
  intros [HU HP]. destruct i as [sid|sid name|sid b|sid b|sid|sid|a req|a req];
    simpl.
  - unfold onConnection. destruct (isRoomFull config s); [now split|].
    unfold getNextUserIndex.
    destruct (acquire (availableIndexes s)) as [[i|] rest] eqn:E; simpl.
    + apply acquire_some in E. split.
      * now apply (admit_slots sid
                     (mkUserState sid "Anonymous" true true i) rest s).
      * exact HP.
    + apply acquire_none_same in E. subst rest. split.
      * now apply (UserSlots_ext s).
      * now apply (PresentationSlots_ext s).
  - unfold onSetName, getUserBySocketId.
    destruct (JSMap.get sid (users s)) as [u|] eqn:E; simpl; [|now split].
    split; [|exact HP]. now apply (update_slots sid u).
  - unfold onToggleVideo, getUserBySocketId.
    destruct (JSMap.get sid (users s)) as [u|] eqn:E; simpl; [|now split].
    split; [|exact HP]. now apply (update_slots sid u).
  - unfold onToggleAudio, getUserBySocketId.
    destruct (JSMap.get sid (users s)) as [u|] eqn:E; simpl; [|now split].
    split; [|exact HP]. now apply (update_slots sid u).
  - unfold onStopScreenShare.
    pose proof (removeUserScreenShares_slots sid s) as H.
    destruct (removeUserScreenShares config sid s) as [removed s1].
    simpl in *. destruct H as (Hu & Ha & Hp). split.
    + now apply (UserSlots_ext s).
    + now apply Hp.
  - split.
    + now apply cleanupUser_UserSlots.
    + now apply cleanupUser_PresentationSlots.
  - destruct a as [tid|msg]; simpl; now split.
  - unfold produce_after. destruct a as [pid|msg]; [|now split].
    destruct (is_screen (pr_source req)); [|now split].
    unfold getNextPresentationIndex.
    destruct (acquire (availablePresentationIndexes s)) as [[i|] rest] eqn:E;
      simpl.
    + apply acquire_some in E. split; [exact HU|].
      destruct HP as [Hs Hr]. rewrite E in Hs, Hr.
      split; simpl; [now inversion Hs|now inversion Hr].
    + apply acquire_none_same in E. subst rest. split.
      * now apply (UserSlots_ext s).
      * now apply (PresentationSlots_ext s).
Qed.

Lemma reachable_slots (s : RoomState) :
  reachable config s -> UserSlots config s /\ PresentationSlots config s.
Proof.
  induction 1 as [|i s _ IH]; [apply start_slots|now apply handle_slots].
Qed.

(** *** Release followed by acquire *)

Lemma release_reinserts (bound i : Z) (pool : list Z) :
  inRange bound i -> Permutation (release bound (Some i) pool) (i :: pool).
Proof.
  intros [H0 H1]. unfold release.
  apply Z.geb_le in H0. apply Z.ltb_lt in H1. rewrite H0, H1. simpl.
  rewrite JSArrayFacts.sort_asc_perm. unfold JSArray.push.
  symmetry. apply Permutation_cons_append.
Qed.

Lemma acquire_least (pool rest : list Z) (m : Z) :
  Sorted Z.le pool -> acquire pool = (Some m, rest) ->
  leastFree m pool /\ pool = m :: rest.
Proof.
  intros Hs E. apply acquire_some in E. subst pool.
  split; [split; [now left|]|reflexivity].
  now apply JSArrayFacts.sorted_head_least.
Qed.

Lemma release_least_acquire (bound i : Z) (pool : list Z) :
  Sorted Z.le pool -> Forall (inRange bound) pool ->
  leastFree i (release bound (Some i) pool) ->
  acquire (release bound (Some i) pool) = (Some i, pool).
Proof.
  intros Hs Hr [Hin Hleast].
  assert (inRange bound i) as Hi.
  { apply release_in in Hin as Hin'.
    pose proof (release_range bound (Some i) pool Hr) as Hr'.
    rewrite Forall_forall in Hr'. now apply Hr'. }
  assert (release bound (Some i) pool = i :: pool) as E.
  { unfold release in *. destruct Hi as [H0 H1].
    apply Z.geb_le in H0. apply Z.ltb_lt in H1.
    rewrite H0, H1 in *. simpl in *.
    apply JSArrayFacts.sort_push_least; [exact Hs|].
    intros y Hy. apply Hleast. apply JSArrayFacts.sort_asc_in.
    unfold JSArray.push. apply in_or_app. now left. }
  now rewrite E.
Qed.

Lemma pool_release_then_acquire (bound i : Z) (pool : list Z) :
  Sorted Z.le pool -> Forall (inRange bound) pool ->
  let pool1 := release bound (Some i) pool in
  Sorted Z.le pool1 /\
  (inRange bound i -> Permutation pool1 (i :: pool)) /\
  (forall m rest, acquire pool1 = (Some m, rest) ->
     leastFree m pool1 /\ pool1 = m :: rest) /\
  (forall rest, acquire pool1 = (None, rest) -> pool1 = []) /\
  (leastFree i pool1 -> acquire pool1 = (Some i, pool)).
Proof.
  intros Hs Hr pool1.
  assert (Sorted Z.le pool1) as Hs1 by now apply release_sorted.
  split; [exact Hs1|]. split; [apply release_reinserts|].
  split; [intros m rest; now apply acquire_least|].
  split.
  - intros rest E. apply acquire_empty. now rewrite E.
  - now apply release_least_acquire.
Qed.

Lemma ReleaseThenAcquire_of_pool (bound : Z) (pool : RoomState -> list Z)
    (rel : option Z -> RoomState -> RoomState)
    (acq : RoomState -> option Z * RoomState) (s : RoomState) :
  (forall idx st, pool (rel idx st) = release bound idx (pool st)) ->
  (forall st, fst (acq st) = fst (acquire (pool st)) /\
              pool (snd (acq st)) = snd (acquire (pool st))) ->
  Sorted Z.le (pool s) -> Forall (inRange bound) (pool s) ->
  ReleaseThenAcquire bound pool rel acq s.
Proof.
  intros Hrel Hacq Hs Hr i. cbv zeta. rewrite Hrel.
  destruct (pool_release_then_acquire bound i (pool s) Hs Hr)
    as (H1 & H2 & H3 & H4 & H5).
  destruct (Hacq (rel (Some i) s)) as [Hfst Hsnd]. rewrite Hrel in Hfst, Hsnd.
  split; [exact H1|]. split; [exact H2|].
  destruct (acquire (release bound (Some i) (pool s))) as [o rest] eqn:E.
  simpl in Hfst, Hsnd.
  split; [|split].
  - intros m s2 Eacq. rewrite Eacq in Hfst, Hsnd. simpl in Hfst, Hsnd.
    subst o. rewrite Hsnd. now apply H3.
  - intros s2 Eacq. rewrite Eacq in Hfst. simpl in Hfst. subst o.
    now apply (H4 rest).
  - intros Hl. specialize (H5 Hl). injection H5 as -> ->.
    exists (snd (acq (rel (Some i) s))). split; [|exact Hsnd].
    destruct (acq (rel (Some i) s)) as [o' s2]. simpl in *. now subst o'.
Qed.

(** ** C2 *)

(** C2.  In every state the server can reach, and for each of the two
    slot pools (user indexes, presentation indexes): releasing an index
    [i] leaves the free list sorted ascending and, when [i] is an index
    of the pool, re-inserts it (the new list is a rearrangement of [i]
    and the old one); the acquire that follows returns the smallest
    free index, and returns nothing only when no index is free; and when
    [i] is the smallest free index after its release, that acquire
    returns [i] and leaves the pool as it was before the release. *)
Theorem release_keeps_order_acquire_takes_least (s : RoomState) :
  reachable config s ->
  ReleaseThenAcquire (MAX_USERS config) availableIndexes
    (releaseUserIndex config) getNextUserIndex s /\
  ReleaseThenAcquire (MAX_SCREEN_SHARES config)
    availablePresentationIndexes (releasePresentationIndex config)
    getNextPresentationIndex s.
Proof.
  intros Hreach.
  destruct (reachable_slots s Hreach) as [(HU & HUr & _) (HP & HPr)].
  apply JSArrayFacts.sorted_lt_le in HU.
  split; apply ReleaseThenAcquire_of_pool; try assumption;
    try reflexivity.
  - intros st. unfold getNextUserIndex.
    now destruct (acquire (availableIndexes st)).
  - intros st. unfold getNextPresentationIndex.
    now destruct (acquire (availablePresentationIndexes st)).
Qed.

(** ** C9 *)

(** C9.  A connection that arrives while the number of users equals
    [MAX_USERS] is refused: the socket is sent [room-full] and
    disconnected, no handler is installed for it, and the room state (the
    users, the two pools, the directory) is the one before. *)
Theorem full_room_refuses_connection (socketId : string) (s : RoomState) :
  JSMap.size (users s) = MAX_USERS config ->
  onConnection config socketId s =
  (s, [emit (to_socket socketId) room_full; socket_disconnect socketId],
   false).
Proof.
  intros Hfull. unfold onConnection, isRoomFull. rewrite Hfull.
  now rewrite (proj2 (Z.geb_le _ _) (Z.le_refl _)).
Qed.

(** The second gate of the handler, an empty pool, refuses in the same
    way. *)
Lemma empty_pool_refuses_connection (socketId : string) (s : RoomState) :
  availableIndexes s = [] ->
  onConnection config socketId s =
  (s, [emit (to_socket socketId) room_full; socket_disconnect socketId],
   false).
Proof.
  intros Hempty. unfold onConnection.
  destruct (isRoomFull config s); [reflexivity|].
  unfold getNextUserIndex. rewrite Hempty. simpl.
  rewrite <- Hempty. unfold with_availableIndexes.
  now rewrite RoomState_eta.
Qed.

(** ** C8 *)

(** C8.  When the capacity for screen shares is exhausted config, a request to
    register a screen producer on a known transport is answered with
    PresentationFull, nothing is sent, and the room state (so the
    presentation pool and the maps of producers, screen producers and
    transports) is the one before. *)
Theorem presentation_full_changes_nothing (s : RoomState)
    (req : ProduceRequest) (producerId : string) :
  JSMap.has (pr_transportId req) (transports s) = true ->
  pr_source req = Some "screen" ->
  exhausted config s ->
  produce config (resolved producerId) req s =
  (s, PresentationFull config, []).
Proof.
  intros Ht Hsrc Hex. unfold produce, produce_before.
  unfold JSMap.has in Ht.
  destruct (JSMap.get (pr_transportId req) (transports s)); [|discriminate].
  rewrite Hsrc. simpl.
  destruct (getScreenShareCount s >=? MAX_SCREEN_SHARES config)
    eqn:E; [reflexivity|].
  destruct Hex as [Hcount|Hpool].
  - apply Z.geb_le in Hcount. congruence.
  - unfold produce_after. rewrite Hsrc. simpl.
    unfold getNextPresentationIndex. rewrite Hpool. simpl.
    rewrite <- Hpool. unfold with_availablePresentationIndexes.
    now rewrite RoomState_eta.
Qed.

(** Whenever [POST /produce] answers PresentationFull, it has changed
    nothing and sent nothing. *)
Lemma presentation_full_only_unchanged (answer : Awaited string)
    (req : ProduceRequest) (s s' : RoomState) (sent : list Effect) :
  produce config answer req s = (s', PresentationFull config, sent) ->
  s' = s /\ sent = [].
Proof.
  unfold produce.
  destruct (produce_before config req s) as [r|];
    [intros [= <- _ <-]; now split|].
  unfold produce_after. destruct answer as [pid|msg]; [|discriminate].
  destruct (is_screen (pr_source req)); [|discriminate].
  unfold getNextPresentationIndex.
  destruct (acquire (availablePresentationIndexes s)) as [[i|] rest] eqn:E;
    [discriminate|].
  apply acquire_none_same in E. subst rest.
  intros [= <- <-]. split; [|reflexivity].
  unfold with_availablePresentationIndexes. now rewrite RoomState_eta.
Qed.

(** ** C10 *)

(** C10, amended.  [cleanupUser] run twice for a socket gives what one
    run gives.  For a socket with no entry in [users], it leaves [users]
    and the free user indexes as they are, and it leaves the whole room
    state as it is when, besides, no producer and no transport is
    registered under that socket.  In every state the server can reach,
    the free user indexes hold no index twice after [cleanupUser] and
    after the [disconnect] handler. *)
Theorem cleanupUser_once_is_enough :
  (forall s socketId,
     cleanupUser config socketId (cleanupUser config socketId s) =
     cleanupUser config socketId s) /\
  (forall s socketId,
     JSMap.get socketId (users s) = None ->
     users (cleanupUser config socketId s) = users s /\
     availableIndexes (cleanupUser config socketId s) = availableIndexes s /\
     ((forall e, In e (producers s) -> ownsProducer socketId e = false) ->
      (forall e, In e (transports s) -> ownsTransport socketId e = false) ->
      cleanupUser config socketId s = s)) /\
  (forall s socketId,
     reachable config s ->
     NoDup (availableIndexes (cleanupUser config socketId s)) /\
     NoDup (availableIndexes (fst (onDisconnect config socketId s)))).
Proof.
  split; [|split].
  - intros s socketId. apply cleanupUser_twice.
  - intros s socketId Hget. split; [|split].
    + rewrite cleanupUser_users. now apply JSMapFacts.delete_absent.
    + rewrite cleanupUser_availableIndexes. now rewrite Hget.
    + now apply cleanupUser_stranger.
  - intros s socketId Hreach.
    assert (NoDup (availableIndexes (cleanupUser config socketId s))) as H.
    { apply JSArrayFacts.sorted_lt_nodup.
      apply cleanupUser_UserSlots. now apply reachable_slots. }
    now split.
Qed.

End WithConfig.

End ServerFacts.

(** ** Scenarios on the server *)

Module ServerScenarios.

Import Server ServerSpec ServerFacts.

Lemma run_reachable (inputs : list Input) (s : RoomState) :
  reachable defaults s -> reachable defaults (run inputs s).
Proof.
  revert s. induction inputs as [|i inputs IH]; intros s H; simpl;
    [exact H|].
  apply IH. now constructor.
Qed.

Example sharing_state :
  sharing =
  mkRoomState
    [ ("a", mkUserState "a" "Anonymous" true true 0);
      ("b", mkUserState "b" "Anonymous" true true 1) ]
    [2]
    [ ("t1", mkTransportData "a" (Some "send")) ]
    [ ("p1", mkProducerData (Some "a") "video" "screen" (Some 0)) ]
    [ ("p1", "p1") ]
    0 0 [1].
Proof. reflexivity. Qed.

(** The request that leads to [strangerTransport] passes the checks of
    [POST /create-transport]. *)
Example stranger_may_create_a_transport :
  createTransport defaults (resolved "t9")
    (mkTransportRequest (Some "ghost") (Some "recv")) started =
  (strangerTransport, json_transport "t9").
Proof. reflexivity. Qed.

(** The third screen share is refused, and one is possible again once
    the first has stopped: it gets the index 0. *)
Example screen_share_after_a_stop :
  fst (fst (produce defaults (resolved "p3")
              (mkProduceRequest "t1" "video" (Some "b") (Some "screen"))
              twoShares)) = twoShares /\
  availablePresentationIndexes
    (fst (onStopScreenShare defaults "a" twoShares)) = [0] /\
  JSMap.get "p3"
    (producers
       (fst (fst (produce defaults (resolved "p3")
                    (mkProduceRequest "t1" "video" (Some "b")
                       (Some "screen"))
                    (fst (onStopScreenShare defaults "a" twoShares)))))) =
  Some (mkProducerData (Some "b") "video" "screen" (Some 0)).
Proof. repeat split. Qed.

(** A fourth connection is refused; after the user at index 0 has left,
    the next one is admitted at index 0. *)
Example admission_after_a_leave :
  snd (onConnection defaults "d" fullRoom) = false /\
  JSMap.get "d"
    (users (run [disconnect "a"; connection "d"] fullRoom)) =
  Some (mkUserState "d" "Anonymous" true true 0).
Proof. repeat split. Qed.

(** ** C1 *)

(** C1, at a failing input.  The user [a] owns the screen-share producer
    [p1] and disconnects.  The handler destroys [p1] (it leaves both maps
    and its index 0 is free again) and sends [user-left] to the others
    and [room-status] to all: no [presentation-ended] is sent, and the
    other user [b] receives none. *)
Theorem disconnect_of_sharer_sends_no_presentation_ended :
  JSMap.get "p1" (producers sharing) =
    Some (mkProducerData (Some "a") "video" "screen" (Some 0)) /\
  JSMap.has "p1" (producers (fst (onDisconnect defaults "a" sharing)))
    = false /\
  JSMap.has "p1" (screenProducers (fst (onDisconnect defaults "a" sharing)))
    = false /\
  availablePresentationIndexes (fst (onDisconnect defaults "a" sharing))
    = [0; 1] /\
  snd (onDisconnect defaults "a" sharing) =
    [ emit (to_all_except "a") (user_left "a");
      emit to_all (room_status 1 3 0) ] /\
  delivered "b" (snd (onDisconnect defaults "a" sharing)) =
    [ user_left "a"; room_status 1 3 0 ].
Proof. repeat split. Qed.

(** The sibling handler [stop-screen-share] does send the end of [p1]. *)
Example stop_screen_share_sends_presentation_ended :
  snd (onStopScreenShare defaults "a" sharing) =
  [ emit to_all (presentation_ended "p1" (Some "a"));
    emit to_all (room_status 2 3 0) ].
Proof. reflexivity. Qed.

(** ** Instances of C2, C8, C9 and C10 *)

Lemma release_keeps_order_acquire_takes_least_witness :
  reachable defaults oneUser /\
  (ReleaseThenAcquire (MAX_USERS defaults) availableIndexes
     (releaseUserIndex defaults) getNextUserIndex oneUser /\
   ReleaseThenAcquire (MAX_SCREEN_SHARES defaults)
     availablePresentationIndexes (releasePresentationIndex defaults)
     getNextPresentationIndex oneUser).
Proof.
  split.
  - apply run_reachable. constructor.
  - apply (release_keeps_order_acquire_takes_least defaults oneUser).
    apply run_reachable. constructor.
Defined.

Example release_then_acquire_index_0 :
  availableIndexes oneUser = [1; 2] /\
  getNextUserIndex (releaseUserIndex defaults (Some 0) oneUser) =
  (Some 0, oneUser).
Proof. split; reflexivity. Qed.

Lemma full_room_refuses_connection_witness :
  JSMap.size (users fullRoom) = MAX_USERS defaults /\
  onConnection defaults "d" fullRoom =
  (fullRoom, [emit (to_socket "d") room_full; socket_disconnect "d"],
   false).
Proof.
  split.
  - reflexivity.
  - apply (full_room_refuses_connection defaults "d" fullRoom).
    reflexivity.
Defined.

Lemma presentation_full_changes_nothing_witness :
  JSMap.has "t1" (transports twoShares) = true /\
  exhausted defaults twoShares /\
  produce defaults (resolved "p3")
    (mkProduceRequest "t1" "video" (Some "a") (Some "screen")) twoShares =
  (twoShares, PresentationFull defaults, []).
Proof.
  split; [reflexivity|]. split.
  - right. reflexivity.
  - apply (presentation_full_changes_nothing defaults twoShares
             (mkProduceRequest "t1" "video" (Some "a") (Some "screen"))
             "p3").
    + reflexivity.
    + reflexivity.
    + right. reflexivity.
Defined.

Lemma cleanupUser_once_is_enough_witness :
  reachable defaults sharing /\
  JSMap.get "c" (users sharing) = None /\
  cleanupUser defaults "a" (cleanupUser defaults "a" sharing) =
    cleanupUser defaults "a" sharing /\
  cleanupUser defaults "c" sharing = sharing /\
  NoDup (availableIndexes (cleanupUser defaults "a" sharing)).
Proof.
  assert (reachable defaults sharing) as Hreach
    by (apply run_reachable; constructor).
  destruct (cleanupUser_once_is_enough defaults) as (Htwice & Habsent & Hpool).
  split; [exact Hreach|]. split; [reflexivity|]. split; [apply Htwice|].
  split.
  - apply (Habsent sharing "c"); [reflexivity| |].
    + intros e [<-|[]]. reflexivity.
    + intros e [<-|[]]. reflexivity.
  - apply (Hpool sharing "a" Hreach).
Defined.

(** C10 as stated fails: the state [strangerTransport] is reachable and
    has no user [ghost], and [cleanupUser] for [ghost] changes it, by
    removing the transport registered under that id. *)
Lemma cleanupUser_of_absent_socket_can_change_state :
  ~ (forall s socketId,
       reachable defaults s ->
       JSMap.get socketId (users s) = None ->
       cleanupUser defaults socketId s = s).
Proof.
  intros H.
  specialize (H strangerTransport "ghost").
  assert (reachable defaults strangerTransport) as Hreach
    by (apply run_reachable; constructor).
  specialize (H Hreach eq_refl).
  apply (f_equal transports) in H. discriminate H.
Qed.

End ServerScenarios.

(** ** The client *)

Module ClientFacts.

Import Client ClientSpec.

Lemma VideoConference_eta (c : VideoConference) :
  mkVideoConference (socket_id c) (consumers c) (consumerTransports c)
    (userStates c) (presentations c) (myUserIndex c) (pendingProducers c)
    (pendingPresentations c) (deviceReady c) (isSwapMode c) (swapSource c)
    (swapTarget c) (document c) = c.
Proof. now destruct c. Qed.

(** *** The replicator *)





Lemma addUsers_frame (currentUsers : list UserInfo) (c : VideoConference) :
  let c' :=
    fold_left
      (fun acc user =>
         addUser (ui_socketId user) (ui_name user) (ui_userIndex user)
           (ui_videoEnabled user) (ui_audioEnabled user) acc)
      currentUsers c in
  pendingProducers c' = pendingProducers c /\
  pendingPresentations c' = pendingPresentations c /\
  deviceReady c' = deviceReady c.
Proof.
  apply ServerFacts.fold_left_preserves with
    (P := fun c' =>
            pendingProducers c' = pendingProducers c /\
            pendingPresentations c' = pendingPresentations c /\
            deviceReady c' = deviceReady c);
    [|now repeat split].
  intros x user _ H. unfold addUser.
  now destruct (String.eqb (ui_socketId user) (socket_id x)).
Qed.

Lemma enqueue_snapshot (currentProducers : list Descriptor)
    (c : VideoConference) :
  let c' :=
    fold_left
      (fun acc producer =>
         if d_isScreen producer
         then with_pendingPresentations
                (pendingPresentations acc ++ [producer])%list acc
         else with_pendingProducers
                (pendingProducers acc ++ [producer])%list acc)
      currentProducers c in
  pendingProducers c' =
    (pendingProducers c
     ++ filter (fun d => negb (d_isScreen d)) currentProducers)%list /\
  pendingPresentations c' =
    (pendingPresentations c ++ filter d_isScreen currentProducers)%list /\
  deviceReady c' = deviceReady c.
Proof.
  revert c. induction currentProducers as [|d rest IH]; intros c; simpl.
  - now rewrite !app_nil_r.
  - destruct (d_isScreen d); simpl;
      match goal with |- context [fold_left _ rest ?x] =>
        destruct (IH x) as (I1 & I2 & I3) end;
      rewrite I1, I2, I3; simpl; rewrite <- ?app_assoc; now repeat split.
Qed.

Lemma onInit_queues (userIndex : Z) (currentUsers : list UserInfo)
    (currentProducers : list Descriptor) (c : VideoConference) :
  let c' := onInit userIndex currentUsers currentProducers c in
  pendingProducers c' =
    (pendingProducers c
     ++ filter (fun d => negb (d_isScreen d)) currentProducers)%list /\
  pendingPresentations c' =
    (pendingPresentations c ++ filter d_isScreen currentProducers)%list /\
  deviceReady c' = deviceReady c.
Proof.
  unfold onInit.
  match goal with |- context [fold_left _ currentProducers ?x] =>
    destruct (enqueue_snapshot currentProducers x) as (E1 & E2 & E3) end.
  cbv zeta. rewrite E1, E2, E3.
  match goal with |- context [fold_left _ currentUsers ?x] =>
    destruct (addUsers_frame currentUsers x) as (A1 & A2 & A3) end.
  rewrite A1, A2, A3.
  unfold updateLocalUserIndex.
  destruct (firstWrapper w_self
              (document (with_myUserIndex userIndex
                           (with_myUserIndex userIndex c))));
    now repeat split.
Qed.

(** While the device is not ready, every message is queued and nothing
    is handed to the pipeline. *)
Lemma receive_buffers (messages : list Creation) (answers : nat -> Outcome)
    (k : nat) (c : VideoConference) :
  deviceReady c = false ->
  snd (receive messages answers k c) = [] /\
  pendingProducers (fst (receive messages answers k c)) =
    (pendingProducers c ++ producerArrivals messages)%list /\
  pendingPresentations (fst (receive messages answers k c)) =
    (pendingPresentations c ++ presentationArrivals messages)%list /\
  deviceReady (fst (receive messages answers k c)) = false.
Proof.
  revert k c. induction messages as [|m rest IH]; intros k c Hready; simpl.
  - now rewrite !app_nil_r.
  - assert (snd (onCreation (answers k) m c) = [] /\
            pendingProducers (fst (onCreation (answers k) m c)) =
              (pendingProducers c ++ producerArrivals [m])%list /\
            pendingPresentations (fst (onCreation (answers k) m c)) =
              (pendingPresentations c ++ presentationArrivals [m])%list /\
            deviceReady (fst (onCreation (answers k) m c)) = false)
      as (H1 & H2 & H3 & H4).
    { destruct m as [userIndex currentUsers currentProducers|data|data];
        simpl.
      - destruct (onInit_queues userIndex currentUsers currentProducers c)
          as (Q1 & Q2 & Q3).
        rewrite Q1, Q2, Q3, !app_nil_r. now repeat split.
      - unfold onNewProducer. rewrite Hready. simpl.
        rewrite app_nil_r. now repeat split.
      - unfold onNewPresentation. rewrite Hready. simpl.
        rewrite app_nil_r. now repeat split. }
    destruct (onCreation (answers k) m c) as [c1 calls1]. simpl in *.
    specialize (IH (S k) c1 H4).
    destruct (receive rest answers (S k) c1) as [c2 calls2]. simpl in *.
    destruct IH as (I1 & I2 & I3 & I4). subst calls1 calls2.
    rewrite I2, I3, H2, H3, !app_nil_r, <- !app_assoc.
    now repeat split.
Qed.

(** ** C6 *)


(** *** The page under the pipeline *)

Lemma find_index_none {A : Type} (f : A -> bool) (l : list A) :
  find_index f l = None -> filter f l = [].
Proof.
  induction l as [|x l IH]; simpl; [reflexivity|].
  destruct (f x); [discriminate|].
  destruct (find_index f l); [discriminate|]. intros _. now apply IH.
Qed.

Lemma find_index_some {A : Type} (f : A -> bool) (l : list A) (i : nat) :
  find_index f l = Some i -> filter f l <> [].
Proof.
  revert i. induction l as [|x l IH]; simpl; intros i; [discriminate|].
  destruct (f x); [discriminate|].
  destruct (find_index f l) as [j|]; [|discriminate].
  intros _. now apply (IH j).
Qed.

Lemma filter_ids (id : string) (l : list Wrapper) :
  filter (String.eqb id) (map w_id l) =
  map w_id (filter (fun w => String.eqb (w_id w) id) l).
Proof.
  induction l as [|w l IH]; simpl; [reflexivity|].
  rewrite (String.eqb_sym id (w_id w)).
  destruct (String.eqb (w_id w) id); simpl; now rewrite IH.
Qed.

Lemma countId_split (id : string) (doc : Document) :
  countId id doc =
  (List.length (filter (fun w => String.eqb (w_id w) id)
                  (peersContainer doc))
   + List.length (filter (fun w => String.eqb (w_id w) id)
                    (presentationsContainer doc)))%nat.
Proof.
  unfold countId, wrapperIds, videoWrappers.
  now rewrite filter_ids, length_map, filter_app, length_app.
Qed.

Lemma getElementById_none (id : string) (doc : Document) :
  getElementById id doc = None -> countId id doc = O.
Proof.
  unfold getElementById, firstWrapper. rewrite countId_split.
  destruct (find_index (fun w => String.eqb (w_id w) id)
              (peersContainer doc)) eqn:E1; [discriminate|].
  destruct (find_index (fun w => String.eqb (w_id w) id)
              (presentationsContainer doc)) eqn:E2; [discriminate|].
  intros _. now rewrite (find_index_none _ _ E1), (find_index_none _ _ E2).
Qed.

Lemma getElementById_some (id : string) (doc : Document) (n : Node) :
  getElementById id doc = Some n -> (1 <= countId id doc)%nat.
Proof.
  unfold getElementById, firstWrapper. rewrite countId_split.
  destruct (find_index (fun w => String.eqb (w_id w) id)
              (peersContainer doc)) eqn:E1.
  - intros _. apply find_index_some in E1.
    destruct (filter _ (peersContainer doc)); [contradiction|simpl; lia].
  - destruct (find_index (fun w => String.eqb (w_id w) id)
                (presentationsContainer doc)) eqn:E2; [|discriminate].
    intros _. apply find_index_some in E2.
    destruct (filter _ (presentationsContainer doc));
      [contradiction|simpl; lia].
Qed.

Lemma map_update_nth {A B : Type} (g : A -> B) (f : A -> A) (n : nat)
    (l : list A) :
  (forall x, g (f x) = g x) -> map g (update_nth n f l) = map g l.
Proof.
  intros H. revert n. induction l as [|x l IH]; intros [|n]; simpl;
    try reflexivity.
  - now rewrite H.
  - now rewrite IH.
Qed.

Lemma children_with_children (p q : Parent) (l : list Wrapper)
    (doc : Document) :
  children p (with_children q l doc) =
  if Parent_eqb p q
  then match q with
       | in_peers => l
       | in_presentations =>
           match presentationsSection doc with
           | Some _ => l
           | None => []
           end
       end
  else children p doc.
Proof.
  destruct p, q; unfold children, with_children, presentationsContainer;
    simpl; destruct (presentationsSection doc) eqn:E; simpl;
    rewrite ?E; reflexivity.
Qed.

Lemma videoWrappers_children (doc : Document) :
  videoWrappers doc =
  (children in_peers doc ++ children in_presentations doc)%list.
Proof. reflexivity. Qed.

(** A change of fields other than the id, at one node, keeps the ids of
    the page. *)
Lemma wrapperIds_updateNode (n : Node) (f : Wrapper -> Wrapper)
    (doc : Document) :
  (forall w, w_id (f w) = w_id w) ->
  wrapperIds (updateNode n f doc) = wrapperIds doc.
Proof.
  intros Hf. unfold wrapperIds, updateNode.
  rewrite !videoWrappers_children, !map_app, !children_with_children.
  destruct n as [[|] i]; simpl.
  - now rewrite map_update_nth.
  - unfold presentationsContainer.
    destruct (presentationsSection doc); [|reflexivity].
    now rewrite map_update_nth.
Qed.

Lemma wrapperIds_setupMediaElement (mediaElement : Node)
    (consumer kind : string) (attached : bool) (doc : Document) :
  wrapperIds (setupMediaElement mediaElement consumer kind attached doc) =
  wrapperIds doc.
Proof.
  unfold setupMediaElement. destruct attached; [|reflexivity].
  destruct (String.eqb kind "video");
    [now apply wrapperIds_updateNode|].
  destruct (String.eqb kind "audio");
    [now apply wrapperIds_updateNode|reflexivity].
Qed.

Lemma countId_append (p : Parent) (id title label : string)
    (doc : Document) :
  (p = in_presentations -> presentationsSection doc <> None) ->
  countId id
    (with_children p (children p doc ++ [newWrapper id title label])%list
       doc) =
  S (countId id doc).
Proof.
  intros Hsec. rewrite !countId_split.
  destruct p; unfold with_children, children, presentationsContainer in *;
    simpl.
  - rewrite filter_app, length_app. cbn [filter newWrapper w_id].
    rewrite String.eqb_refl. simpl. lia.
  - destruct (presentationsSection doc) as [sec|]; [|now destruct Hsec].
    simpl. rewrite filter_app, length_app. cbn [filter newWrapper w_id].
    rewrite String.eqb_refl. simpl. lia.
Qed.

Lemma countId_setupMediaElement (id : string) (mediaElement : Node)
    (consumer kind : string) (attached : bool) (doc : Document) :
  countId id (setupMediaElement mediaElement consumer kind attached doc) =
  countId id doc.
Proof. unfold countId. now rewrite wrapperIds_setupMediaElement. Qed.

Lemma countId_showPresentationsSection (id : string) (doc : Document) :
  countId id (showPresentationsSection doc) = countId id doc.
Proof.
  unfold showPresentationsSection, countId, wrapperIds, videoWrappers,
    presentationsContainer.
  destruct (presentationsSection doc) eqn:E; simpl; rewrite ?E; reflexivity.
Qed.

Lemma countId_createPresentationsContainer (id : string) (doc : Document) :
  presentationsSection doc = None ->
  countId id (createPresentationsContainer doc) = countId id doc.
Proof.
  intros H.
  unfold createPresentationsContainer, countId, wrapperIds, videoWrappers,
    presentationsContainer.
  simpl. now rewrite H.
Qed.

(** [createUserElement] makes the slot when the page has none with that
    id and reuses it otherwise. *)
Lemma createUserElement_count (socketId : option string)
    (consumer kind peerName : string) (userIndex : option Z)
    (attached : bool) (doc : Document) :
  countId ("user-" ++ show socketId)
    (createUserElement socketId consumer kind peerName userIndex attached
       doc) =
  Nat.max 1 (countId ("user-" ++ show socketId) doc).
Proof.
  unfold createUserElement.
  generalize ("user-" ++ show socketId) as id. intros id.
  destruct (getElementById id doc) as [n|] eqn:E;
    rewrite countId_setupMediaElement.
  - apply getElementById_some in E. lia.
  - apply getElementById_none in E.
    rewrite (countId_append in_peers); [lia|discriminate].
Qed.

Lemma createPresentationElement_count (producerId consumer kind : string)
    (peerName : string) (presentationIndex : option Z) (attached : bool)
    (doc : Document) :
  countId ("presentation-" ++ producerId)
    (createPresentationElement producerId consumer kind peerName
       presentationIndex attached doc) =
  Nat.max 1 (countId ("presentation-" ++ producerId) doc).
Proof.
  unfold createPresentationElement.
  generalize ("presentation-" ++ producerId) as id. intros id.
  destruct (getElementById id doc) as [n|] eqn:E;
    rewrite countId_setupMediaElement.
  - apply getElementById_some in E. lia.
  - apply getElementById_none in E.
    rewrite countId_showPresentationsSection.
    destruct (presentationsSection doc) as [sec|] eqn:Esec.
    + rewrite (countId_append in_presentations);
        [lia|intros _; now rewrite Esec].
    + rewrite (countId_append in_presentations); [|discriminate].
      rewrite countId_createPresentationsContainer; [lia|exact Esec].
Qed.

Lemma countId_append_other (p : Parent) (id id0 title label : string)
    (doc : Document) :
  id <> id0 ->
  countId id
    (with_children p (children p doc ++ [newWrapper id0 title label])%list
       doc) =
  countId id doc.
Proof.
  intros Hne. apply String.eqb_neq in Hne.
  rewrite String.eqb_sym in Hne. rewrite !countId_split.
  destruct p; unfold with_children, children, presentationsContainer in *;
    simpl.
  - rewrite filter_app, length_app. cbn [filter newWrapper w_id].
    rewrite Hne. simpl. lia.
  - destruct (presentationsSection doc) as [sec|] eqn:Esec; simpl;
      [|now rewrite Esec].
    rewrite filter_app, length_app. cbn [filter newWrapper w_id].
    rewrite Hne. simpl. lia.
Qed.

(** The two element makers keep the ids of the page free of
    repetitions. *)
Lemma createUserElement_unique (socketId : option string)
    (consumer kind peerName : string) (userIndex : option Z)
    (attached : bool) (doc : Document) :
  (forall id, (countId id doc <= 1)%nat) ->
  forall id,
    (countId id
       (createUserElement socketId consumer kind peerName userIndex
          attached doc) <= 1)%nat.
Proof.
  intros H id.
  destruct (String.eqb id ("user-" ++ show socketId)) eqn:E.
  - apply String.eqb_eq in E. subst id.
    rewrite createUserElement_count. specialize (H ("user-" ++ show socketId)).
    lia.
  - apply String.eqb_neq in E. unfold createUserElement.
    destruct (getElementById ("user-" ++ show socketId) doc);
      rewrite countId_setupMediaElement; [apply H|].
    rewrite (countId_append_other in_peers); [apply H|exact E].
Qed.

Lemma createPresentationElement_unique (producerId consumer kind : string)
    (peerName : string) (presentationIndex : option Z) (attached : bool)
    (doc : Document) :
  (forall id, (countId id doc <= 1)%nat) ->
  forall id,
    (countId id
       (createPresentationElement producerId consumer kind peerName
          presentationIndex attached doc) <= 1)%nat.
Proof.
  intros H id.
  destruct (String.eqb id ("presentation-" ++ producerId)) eqn:E.
  - apply String.eqb_eq in E. subst id.
    rewrite createPresentationElement_count.
    specialize (H ("presentation-" ++ producerId)). lia.
  - apply String.eqb_neq in E. unfold createPresentationElement.
    destruct (getElementById ("presentation-" ++ producerId) doc);
      rewrite countId_setupMediaElement; [apply H|].
    rewrite countId_showPresentationsSection.
    rewrite (countId_append_other in_presentations); [|exact E].
    destruct (presentationsSection doc) eqn:Esec; [apply H|].
    rewrite countId_createPresentationsContainer; [apply H|exact Esec].
Qed.

(** *** The pipeline *)


Lemma own_camera_is_skipped (answer : Outcome) (data : Descriptor)
    (c : VideoConference) :
  d_socketId data = Some (socket_id c) ->
  consumeProducer answer data false c = c.
Proof.
  intros H. unfold consumeProducer. rewrite H. simpl.
  now rewrite String.eqb_refl.
Qed.

(** What a call that goes through records. *)
Lemma consumed_fields (transportId consumer : string) (attached : bool)
    (data : Descriptor) (isPresentation : bool) (c : VideoConference) :
  passes data isPresentation c = true ->
  let c' := consumeProducer (consumer_created transportId consumer attached)
              data isPresentation c in
  consumers c' =
    JSMap.set (d_id data)
      (mkConsumerData consumer transportId (d_socketId data) (d_kind data)
         isPresentation)
      (consumers c) /\
  consumerTransports c' =
    JSMap.set transportId transportId (consumerTransports c) /\
  document c' =
    if isPresentation
    then createPresentationElement (d_id data) consumer (d_kind data)
           (d_peerName data) (d_presentationIndex data) attached (document c)
    else createUserElement (d_socketId data) consumer (d_kind data)
           (d_peerName data) (d_userIndex data) attached (document c).
Proof.
  unfold passes, consumeProducer. intros H.
  apply andb_prop in H as [H1 H2].
  apply negb_true_iff in H1, H2. rewrite H1, H2.
  destruct isPresentation; simpl; [now repeat split|].
  destruct (JSMap.has (show (d_socketId data)) (userStates c));
    now repeat split.
Qed.

(** The pipeline keeps the ids of the render slots free of
    repetitions. *)
Lemma consumeProducer_unique (answer : Outcome) (data : Descriptor)
    (isPresentation : bool) (c : VideoConference) :
  (forall id, (countId id (document c) <= 1)%nat) ->
  forall id,
    (countId id (document (consumeProducer answer data isPresentation c))
     <= 1)%nat.
Proof.
  intros H id.
  destruct (passes data isPresentation c) eqn:Hpass.
  - destruct answer as [| |t|t|t cid att].
    5: { destruct (consumed_fields t cid att data isPresentation c Hpass)
           as (_ & _ & ->).
         destruct isPresentation;
           [now apply createPresentationElement_unique
           |now apply createUserElement_unique]. }
    all: unfold passes in Hpass; apply andb_prop in Hpass as [H1 H2];
      apply negb_true_iff in H1, H2; unfold consumeProducer;
      rewrite H1, H2; apply H.
  - unfold passes in Hpass. unfold consumeProducer.
    destruct (strict_eq (d_socketId data) (socket_id c)
              && negb isPresentation); [apply H|].
    simpl in Hpass. apply negb_false_iff in Hpass. rewrite Hpass. apply H.
Qed.

(** ** C7 *)


(** ** C3 *)

(** C3, amended.  When a call of [consumeProducer] fails, everything but
    [consumerTransports] is as before the call: the consumers, the
    presentations, the user states and the page.  When it fails before
    the receive transport exists (the [create-transport] request or
    [createRecvTransport]), [consumerTransports] is as before too.  When
    it fails later (the consume request, or [consumerTransport.consume]
    with its connect handshake), [consumerTransports] has gained the
    entry of the transport made for the call.  A failure to attach the
    media is caught inside [setupMediaElement]: the call completes, and
    the resource has its entry in the consumers and its render slot. *)
Theorem failed_consume_leaves_only_its_transport :
  (forall (answer : Outcome) (data : Descriptor) (isPresentation : bool)
          (c : VideoConference),
     failed answer = true ->
     let c' := consumeProducer answer data isPresentation c in
     consumers c' = consumers c /\
     presentations c' = presentations c /\
     userStates c' = userStates c /\
     document c' = document c /\
     with_consumerTransports (consumerTransports c) c' = c /\
     (transportOf answer = None -> c' = c) /\
     (forall transportId,
        transportOf answer = Some transportId ->
        consumerTransports c' =
        if passes data isPresentation c
        then JSMap.set transportId transportId (consumerTransports c)
        else consumerTransports c)) /\
  (forall (transportId consumer : string) (data : Descriptor)
          (isPresentation : bool) (c : VideoConference),
     passes data isPresentation c = true ->
     let c' := consumeProducer (consumer_created transportId consumer false)
                 data isPresentation c in
     JSMap.has (d_id data) (consumers c') = true /\
     (1 <= countId (slotId data isPresentation) (document c'))%nat).
Proof.
  split.
  - intros answer data isPresentation c Hfail. unfold passes.
    unfold consumeProducer.
    destruct (strict_eq (d_socketId data) (socket_id c)
              && negb isPresentation); simpl;
      [|destruct (JSMap.has (d_id data) (consumers c)); simpl;
        [|destruct answer as [| |t|t|t cid att];
          try discriminate Hfail; simpl]];
      repeat split;
      try reflexivity;
      try (unfold with_consumerTransports; simpl;
           apply VideoConference_eta);
      try discriminate;
      try (intros t' [= <-]; reflexivity);
      try (intros; reflexivity).
  - intros transportId consumer data isPresentation c Hpass c'.
    destruct (consumed_fields transportId consumer false data
                isPresentation c Hpass) as (Hcons & _ & Hdoc).
    fold c' in Hcons, Hdoc. split.
    + rewrite Hcons. apply JSMapFacts.has_set_same.
    + rewrite Hdoc. unfold slotId. destruct isPresentation.
      * rewrite createPresentationElement_count. lia.
      * rewrite createUserElement_count. lia.
Qed.

(** *** The swap gesture *)

Lemma children_forEachWrapper (p : Parent) (f : Wrapper -> Wrapper)
    (doc : Document) :
  children p (forEachWrapper f doc) = map f (children p doc).
Proof.
  unfold forEachWrapper. rewrite !children_with_children.
  destruct p; simpl; [reflexivity|].
  unfold presentationsContainer.
  now destruct (presentationsSection doc).
Qed.

Lemma children_updateNode {B : Type} (g : Wrapper -> B) (p : Parent)
    (n : Node) (f : Wrapper -> Wrapper) (doc : Document) :
  (forall w, g (f w) = g w) ->
  map g (children p (updateNode n f doc)) = map g (children p doc).
Proof.
  intros H. unfold updateNode. rewrite children_with_children.
  destruct p, n as [[|] i]; simpl; try reflexivity.
  - now apply map_update_nth.
  - unfold presentationsContainer.
    destruct (presentationsSection doc); [|reflexivity].
    now apply map_update_nth.
Qed.

Lemma plain_highlightSwapTarget (p : Parent) (screenId : string)
    (doc : Document) :
  map plain (children p (highlightSwapTarget screenId doc)) =
  map plain (children p doc).
Proof.
  unfold highlightSwapTarget.
  destruct (findVideoContainerByScreen screenId doc); [|reflexivity].
  now apply children_updateNode.
Qed.

Lemma forEachWrapper_displays (f : Wrapper -> Wrapper) (doc : Document) :
  videoSwitcher_display (forEachWrapper f doc) = videoSwitcher_display doc /\
  swapInstructions_display (forEachWrapper f doc) =
    swapInstructions_display doc /\
  body_swap_mode (forEachWrapper f doc) = body_swap_mode doc.
Proof.
  unfold forEachWrapper, with_children. simpl.
  destruct (presentationsSection doc); now repeat split.
Qed.

(** What [cancelSwap] leaves of a page. *)
Lemma cancelSwap_children (p : Parent) (c : VideoConference) :
  children p (document (cancelSwap c)) =
  map plain (children p (document c)).
Proof.
  unfold cancelSwap, disableSwapModeVisuals, hideSwapInstructions,
    clearSwapHighlights. simpl.
  assert (forall b d, children p (set_body_swap_mode b d) = children p d)
    as -> by (intros b d; now destruct p).
  rewrite children_forEachWrapper.
  assert (forall v d, children p (set_swapInstructions v d) = children p d)
    as -> by (intros v d; now destruct p).
  rewrite children_forEachWrapper, map_map.
  apply map_ext. intros w. reflexivity.
Qed.

(** ** C4 *)

(** C4, amended.  When a source is selected and [selectForSwap] is called
    again with the id of that source, the swap is refused and cancelled:
    the engine is idle afterwards (no source, no target, swap mode off),
    no render slot has moved (each parent has the same wrappers in the
    same order, without the classes and styles of the gesture), the
    instructions are hidden and the page has left swap mode. *)
Theorem selecting_the_source_again_cancels (c : VideoConference)
    (source : Selection) (screenId : string) :
  swapSource c = Some source ->
  let c' := selectForSwap (sel_id source) screenId c in
  swapSource c' = None /\
  swapTarget c' = None /\
  isSwapMode c' = false /\
  (forall p, children p (document c') = map plain (children p (document c)))
  /\
  swapInstructions_display (document c') = "none" /\
  body_swap_mode (document c') = false.
Proof.
  intros Hsrc. unfold selectForSwap. rewrite Hsrc.
  unfold performSwap. simpl. rewrite String.eqb_refl.
  split; [reflexivity|]. split; [reflexivity|]. split; [reflexivity|].
  split; [|split].
  - intros p. rewrite cancelSwap_children. simpl.
    apply plain_highlightSwapTarget.
  - unfold cancelSwap, disableSwapModeVisuals. simpl.
    match goal with |- context [forEachWrapper ?f ?d] =>
      destruct (forEachWrapper_displays f d) as (_ & -> & _) end.
    reflexivity.
  - reflexivity.
Qed.

(** A click in the grid on the wrapper that carries the class
    [swap-source] is ignored: the engine stays as it is. *)
Lemma click_on_the_source_is_ignored (n : Node) (w : Wrapper)
    (c : VideoConference) :
  nodeAt n (document c) = Some w -> w_swap_source w = true ->
  onBodyClick (Some n) c = c.
Proof.
  intros Hn Hw. unfold onBodyClick. rewrite Hn, Hw.
  now destruct (isSwapMode c).
Qed.

End ClientFacts.

(** ** Scenarios on the client *)

Module ClientScenarios.

Import Client ClientSpec ClientFacts.

Example watching_page :
  peersContainer (document watching) =
  [ localWrapper;
    mkWrapper "user-a" false "Ann" "scr1" false false EmptyString
      EmptyString EmptyString (Some "c1") None ].
Proof. reflexivity. Qed.

(** Two selections exchange two slots of one parent, and move each of
    two slots of different parents under the other's parent. *)
Example swap_within_the_grid :
  map w_id (peersContainer (document gallery)) =
    [EmptyString; "user-a"; "user-b"] /\
  map w_id
    (peersContainer
       (document
          (selectForSwap "user-b" "scr2"
             (selectForSwap "local" "scr0" gallery)))) =
    ["user-b"; "user-a"; EmptyString] /\
  swapSource
    (selectForSwap "user-b" "scr2" (selectForSwap "local" "scr0" gallery)) =
    None.
Proof. repeat split. Qed.

Example swap_across_the_sections :
  map w_id
    (videoWrappers
       (document
          (selectForSwap "presentation-p3" "pr0"
             (selectForSwap "user-a" "scr1" gallery)))) =
    [EmptyString; "user-b"; "presentation-p3"; "user-a"] /\
  map w_id
    (presentationsContainer
       (document
          (selectForSwap "presentation-p3" "pr0"
             (selectForSwap "user-a" "scr1" gallery)))) =
    ["user-a"].
Proof. repeat split. Qed.

(** A target whose label is on no wrapper: the swap is abandoned and
    nothing has moved. *)
Example swap_with_a_missing_slot :
  map w_id
    (videoWrappers
       (document
          (selectForSwap "user-z" "scr9"
             (selectForSwap "user-a" "scr1" gallery)))) =
    map w_id (videoWrappers (document gallery)) /\
  isSwapMode
    (selectForSwap "user-z" "scr9" (selectForSwap "user-a" "scr1" gallery)) =
    false.
Proof. repeat split. Qed.

(** *** Instances *)



Lemma failed_consume_leaves_only_its_transport_witness :
  failed (consume_request_fails "rt2") = true /\
  consumers (consumeProducer (consume_request_fails "rt2") screenOfA true
               watching) = consumers watching /\
  document (consumeProducer (consume_request_fails "rt2") screenOfA true
              watching) = document watching.
Proof.
  split; [reflexivity|].
  destruct (proj1 failed_consume_leaves_only_its_transport
              (consume_request_fails "rt2") screenOfA true watching eq_refl)
    as (H1 & _ & _ & H4 & _).
  split; [exact H1|exact H4].
Defined.

(** C3 as stated fails: a call that fails at the consume request leaves
    the transport it made in [consumerTransports]. *)
Lemma failed_consume_can_leave_a_transport :
  ~ (forall answer data isPresentation c,
       failed answer = true ->
       consumerTransports (consumeProducer answer data isPresentation c) =
       consumerTransports c).
Proof.
  intros H.
  specialize (H (consume_request_fails "rt2") screenOfA true watching
                eq_refl).
  discriminate H.
Qed.

Lemma selecting_the_source_again_cancels_witness :
  swapSource sourceSelected = Some (mkSelection "user-a" "scr1") /\
  swapSource (selectForSwap "user-a" "scr1" sourceSelected) = None /\
  isSwapMode (selectForSwap "user-a" "scr1" sourceSelected) = false.
Proof.
  split; [reflexivity|].
  destruct (selecting_the_source_again_cancels sourceSelected
              (mkSelection "user-a" "scr1") "scr1" eq_refl)
    as (H1 & _ & H3 & _).
  split; [exact H1|exact H3].
Defined.

(** C4 as stated fails: with the source [user-a] selected, selecting
    [user-a] again does not leave the engine in swap mode with that
    source. *)
Lemma selecting_the_source_again_leaves_swap_mode :
  isSwapMode sourceSelected = true /\
  swapSource sourceSelected = Some (mkSelection "user-a" "scr1") /\
  ~ (isSwapMode (selectForSwap "user-a" "scr1" sourceSelected) = true /\
     swapSource (selectForSwap "user-a" "scr1" sourceSelected) =
     swapSource sourceSelected).
Proof.
  split; [reflexivity|]. split; [reflexivity|].
  intros [H _]. discriminate H.
Qed.

End ClientScenarios.

(** ** From the server's broadcast to the owner's client *)

Module BroadcastFacts.

Import Server ServerSpec ClientSpec.

Section WithConfig.

Variable config : Config.

(** ** C5 *)

(** C5.  Let a request to register a producer succeed, for an owner named
    in the request.  If the source is the screen, every participant, the
    owner included, receives one [new-presentation] for the producer, and
    the owner's client does not skip it: it passes the early returns and,
    when the outside answers, records the consumer.  If the source is
    not the screen (the camera), every participant but the owner
    receives one [new-producer], the owner receives none, and the owner's
    client would skip such a descriptor: [consumeProducer] returns
    without changing anything. *)
Theorem creation_is_broadcast_by_source (s s' : RoomState)
    (req : ProduceRequest) (answer : Awaited string) (id owner : string)
    (sent : list Effect) :
  pr_socketId req = Some owner ->
  owner <> EmptyString ->
  produce config answer req s = (s', json_id id, sent) ->
  exists d : Descriptor,
    d_id d = id /\ d_socketId d = Some owner /\
    (pr_source req = Some "screen" ->
       (forall who,
          creations (delivered who sent) = [Client.presentation_created d])
       /\
       (forall (c : Client.VideoConference) transportId consumer attached,
          Client.socket_id c = owner ->
          JSMap.has id (Client.consumers c) = false ->
          ClientSpec.passes d true c = true /\
          JSMap.has id
            (Client.consumers
               (Client.consumePresentation
                  (Client.consumer_created transportId consumer attached)
                  d c)) = true)) /\
    (pr_source req <> Some "screen" ->
       (forall who,
          who <> owner ->
          creations (delivered who sent) = [Client.producer_created d]) /\
       creations (delivered owner sent) = [] /\
       (forall (c : Client.VideoConference) (outcome : Client.Outcome),
          Client.socket_id c = owner ->
          Client.consumeUserProducer outcome d c = c)).
Proof.
  intros Hsock Howner. unfold produce.
  destruct (produce_before config req s) as [r|] eqn:Eb.
  { unfold produce_before in Eb.
    destruct (JSMap.get (pr_transportId req) (transports s));
      [|injection Eb as <-; discriminate].
    destruct (is_screen (pr_source req)
              && (getScreenShareCount s >=? MAX_SCREEN_SHARES config));
      [injection Eb as <-; discriminate|discriminate]. }
  unfold produce_after. destruct answer as [pid|msg]; [|discriminate].
  rewrite Hsock.
  assert (truthy (Some owner) = true) as Htruthy.
  { simpl. apply negb_true_iff. now apply String.eqb_neq. }
  destruct (is_screen (pr_source req)) eqn:Escreen.
  - unfold getNextPresentationIndex.
    destruct (acquire (availablePresentationIndexes s)) as [[i|] rest];
      [|discriminate].
    intros [= <- <- <-].
    exists (mkDescriptor pid (Some owner) (pr_kind req) None
              (peerNameOf (userOf (Some owner) s)) false None (Some i)).
    split; [reflexivity|]. split; [reflexivity|]. split.
    + intros _. split.
      * intros who. reflexivity.
      * intros c transportId consumer attached Hc Hnew.
        assert (ClientSpec.passes
                  (mkDescriptor pid (Some owner) (pr_kind req) None
                     (peerNameOf (userOf (Some owner) s)) false None
                     (Some i)) true c = true) as Hpass.
        { unfold ClientSpec.passes. simpl. rewrite Hnew.
          now rewrite andb_false_r. }
        split; [exact Hpass|].
        destruct (ClientFacts.consumed_fields transportId consumer attached
                    _ true c Hpass) as [Hcons _].
        unfold Client.consumePresentation. rewrite Hcons.
        apply JSMapFacts.has_set_same.
    + intros Hsrc. exfalso. apply Hsrc.
      unfold is_screen, strict_eq in Escreen.
      destruct (pr_source req) as [src|]; [|discriminate].
      apply String.eqb_eq in Escreen. now subst.
  - rewrite Htruthy. intros [= <- <- <-].
    exists (mkDescriptor pid (Some owner) (pr_kind req)
              (Some (js_or (pr_source req) "camera"))
              (peerNameOf (userOf (Some owner) s)) false
              (Some match userOf (Some owner) s with
                    | Some u => u_userIndex u
                    | None => 0
                    end)
              None).
    split; [reflexivity|]. split; [reflexivity|]. split.
    + intros Hsrc. rewrite Hsrc in Escreen. discriminate.
    + intros _. split; [|split].
      * intros who Hwho. unfold delivered. simpl.
        apply String.eqb_neq in Hwho. now rewrite Hwho.
      * unfold delivered. simpl. now rewrite String.eqb_refl.
      * intros c outcome Hc. unfold Client.consumeUserProducer.
        apply ClientFacts.own_camera_is_skipped. simpl. now rewrite Hc.
Qed.

End WithConfig.


Lemma creation_is_broadcast_by_source_witness :
  pr_socketId cameraRequest = Some "a" /\
  "a" <> EmptyString /\
  produce defaults (resolved "p5") cameraRequest sharing =
    (fst (fst (produce defaults (resolved "p5") cameraRequest sharing)),
     json_id "p5",
     snd (produce defaults (resolved "p5") cameraRequest sharing)) /\
  exists d : Descriptor,
    d_id d = "p5" /\
    creations
      (delivered "b"
         (snd (produce defaults (resolved "p5") cameraRequest sharing))) =
    [Client.producer_created d] /\
    creations
      (delivered "a"
         (snd (produce defaults (resolved "p5") cameraRequest sharing))) =
    [].
Proof.
  split; [reflexivity|]. split; [discriminate|]. split; [reflexivity|].
  destruct (creation_is_broadcast_by_source defaults sharing _ cameraRequest
              (resolved "p5") "p5" "a" _ eq_refl
              ltac:(discriminate) eq_refl)
    as (d & Hid & _ & _ & Hcam).
  exists d. split; [exact Hid|].
  destruct (Hcam ltac:(discriminate)) as (Hothers & Hown & _).
  split; [apply Hothers; discriminate|exact Hown].
Defined.

Example screen_share_reaches_its_owner :
  delivered "a"
    (snd (produce defaults (resolved "p1")
            (mkProduceRequest "t1" "video" (Some "a") (Some "screen"))
            (run [ connection "a";
                   create_transport_resumes (resolved "t1")
                     (mkTransportRequest (Some "a") (Some "send")) ]
               started))) =
  [ new_presentation
      (mkDescriptor "p1" (Some "a") "video" None "Anonymous" false None
         (Some 0));
    room_status 1 3 1 ].
Proof. reflexivity. Qed.

End BroadcastFacts.

(** ** More on the server: admission, removal and the directory *)

Module ServerMore.

Import Server ServerSpec ServerFacts.

Lemma keys_set {V : Type} (k : string) (v : V) (m : JSMap.t V) :
  JSMap.keys (JSMap.set k v m) =
  if JSMap.has k m then JSMap.keys m else (JSMap.keys m ++ [k])%list.
Proof.
  unfold JSMap.has, JSMap.keys.
  induction m as [|[k' v'] m IH]; simpl; [reflexivity|].
  destruct (String.eqb k k') eqn:E; simpl.
  - apply String.eqb_eq in E. now subst.
  - rewrite IH. now destruct (JSMap.get k m).
Qed.

Lemma has_in_keys {V : Type} (k : string) (m : JSMap.t V) :
  JSMap.has k m = true <-> In k (JSMap.keys m).
Proof.
  unfold JSMap.has, JSMap.keys.
  induction m as [|[k' v'] m IH]; simpl; [split; [discriminate|tauto]|].
  destruct (String.eqb k k') eqn:E.
  - apply String.eqb_eq in E. subst. split; [now left|reflexivity].
  - apply String.eqb_neq in E. rewrite IH.
    split; [now right|intros [H|H]; [congruence|exact H]].
Qed.

Lemma wf_set {V : Type} (k : string) (v : V) (m : JSMap.t V) :
  JSMap.wf m -> JSMap.wf (JSMap.set k v m).
Proof.
  unfold JSMap.wf. intros H. rewrite keys_set.
  destruct (JSMap.has k m) eqn:E; [exact H|].
  apply NoDup_app; [exact H|repeat constructor; intros []|].
  intros x Hx [<-|[]]. apply has_in_keys in Hx. congruence.
Qed.

Lemma wf_filter {V : Type} (f : string * V -> bool) (m : JSMap.t V) :
  JSMap.wf m -> JSMap.wf (filter f m).
Proof. apply JSMapFacts.nodup_map_filter. Qed.

Lemma wf_delete {V : Type} (k : string) (m : JSMap.t V) :
  JSMap.wf m -> JSMap.wf (JSMap.delete k m).
Proof. apply wf_filter. Qed.

Lemma wf_entry_unique {V : Type} (m : JSMap.t V) (e e' : string * V) :
  JSMap.wf m -> In e m -> In e' m -> fst e = fst e' -> e = e'.
Proof. apply JSMapFacts.nodup_map_inj. Qed.

Lemma get_delete_other {V : Type} (k k0 : string) (m : JSMap.t V) :
  k0 <> k -> JSMap.get k0 (JSMap.delete k m) = JSMap.get k0 m.
Proof.
  intros Hne. unfold JSMap.delete.
  induction m as [|[k' v'] m IH]; simpl; [reflexivity|].
  destruct (String.eqb k k') eqn:E; simpl.
  - apply String.eqb_eq in E. subst k'.
    apply String.eqb_neq in Hne. now rewrite Hne.
  - now rewrite IH.
Qed.

Lemma delete_set_absent {V : Type} (k : string) (v : V) (m : JSMap.t V) :
  JSMap.get k m = None -> JSMap.delete k (JSMap.set k v m) = m.
Proof.
  intros H. rewrite (JSMapFacts.set_absent k v m H).
  unfold JSMap.delete. rewrite filter_app. simpl.
  rewrite String.eqb_refl. simpl. rewrite app_nil_r.
  now apply JSMapFacts.delete_absent.
Qed.

Lemma in_range_from_length (n x : Z) :
  0 <= x < n -> In x (JSArray.from_length n).
Proof.
  intros H. unfold JSArray.from_length. apply in_map_iff.
  exists (Z.to_nat x). split; [lia|]. apply in_seq. lia.
Qed.

Lemma length_from_length (n : Z) :
  Z.of_nat (List.length (JSArray.from_length n)) = Z.max 0 n.
Proof.
  unfold JSArray.from_length. rewrite length_map, length_seq. lia.
Qed.

Section WithConfig.

Variable config : Config.

(** *** The maps hold each key once *)

Lemma MapsWf_closeProducers (socketId : string) (l : JSMap.t ProducerData)
    (s : RoomState) :
  MapsWf s -> MapsWf (closeProducers config socketId l s).
Proof.
  unfold closeProducers, JSMap.forEach.
  apply fold_left_preserves. intros x [k pd] _ (Hu & Ht & Hp & Hs). simpl.
  destruct (strict_eq (p_socketId pd) socketId);
    [|now repeat split].
  destruct (String.eqb (p_source pd) "screen"); unfold MapsWf; simpl;
    repeat split; try assumption; now apply wf_delete.
Qed.

Lemma MapsWf_closeTransports (socketId : string)
    (l : JSMap.t TransportData) (s : RoomState) :
  MapsWf s -> MapsWf (closeTransports socketId l s).
Proof.
  unfold closeTransports, JSMap.forEach.
  apply fold_left_preserves. intros x [k td] _ (Hu & Ht & Hp & Hs). simpl.
  destruct (String.eqb (t_socketId td) socketId);
    unfold MapsWf; simpl; repeat split; try assumption.
  now apply wf_delete.
Qed.

Lemma MapsWf_cleanupUser (socketId : string) (s : RoomState) :
  MapsWf s -> MapsWf (cleanupUser config socketId s).
Proof.
  intros (Hu & Ht & Hp & Hs). rewrite cleanupUser_loops.
  apply MapsWf_closeTransports, MapsWf_closeProducers.
  unfold userRemoved.
  destruct (JSMap.get socketId (users s)); unfold MapsWf; simpl;
    repeat split; try assumption; now apply wf_delete.
Qed.

Lemma MapsWf_removeUserScreenShares (socketId : string) (s : RoomState) :
  MapsWf s -> MapsWf (snd (removeUserScreenShares config socketId s)).
Proof.
  unfold removeUserScreenShares, JSMap.forEach.
  intros H.
  apply (fold_left_preserves
           (fun acc : list string * RoomState => MapsWf (snd acc)));
    [|exact H].
  intros [removed x] [k pd] _ (Hu & Ht & Hp & Hs). simpl in *.
  destruct (strict_eq (p_socketId pd) socketId
            && String.eqb (p_source pd) "screen"); simpl;
    unfold MapsWf; simpl; repeat split; try assumption;
    now apply wf_delete.
Qed.

Lemma MapsWf_handle (i : Input) (s : RoomState) :
  MapsWf s -> MapsWf (fst (handle config i s)).
Proof.
  intros H. pose proof H as (Hu & Ht & Hp & Hs).
  destruct i as [sid|sid name|sid b|sid b|sid|sid|a req|a req]; simpl.
  - unfold onConnection. destruct (isRoomFull config s); [exact H|].
    unfold getNextUserIndex.
    destruct (acquire (availableIndexes s)) as [[i|] rest]; simpl;
      unfold MapsWf; simpl; repeat split; try assumption.
    now apply wf_set.
  - unfold onSetName, getUserBySocketId.
    destruct (JSMap.get sid (users s)); simpl; [|exact H].
    unfold MapsWf; simpl; repeat split; try assumption. now apply wf_set.
  - unfold onToggleVideo, getUserBySocketId.
    destruct (JSMap.get sid (users s)); simpl; [|exact H].
    unfold MapsWf; simpl; repeat split; try assumption. now apply wf_set.
  - unfold onToggleAudio, getUserBySocketId.
    destruct (JSMap.get sid (users s)); simpl; [|exact H].
    unfold MapsWf; simpl; repeat split; try assumption. now apply wf_set.
  - unfold onStopScreenShare.
    pose proof (MapsWf_removeUserScreenShares sid s H) as H'.
    now destruct (removeUserScreenShares config sid s).
  - now apply MapsWf_cleanupUser.
  - destruct a as [tid|msg]; simpl; [|exact H].
    unfold MapsWf; simpl; repeat split; try assumption. now apply wf_set.
  - unfold produce_after. destruct a as [pid|msg]; [|exact H].
    destruct (is_screen (pr_source req)).
    + unfold getNextPresentationIndex.
      destruct (acquire (availablePresentationIndexes s)) as [[i|] rest];
        simpl; unfold MapsWf; simpl; repeat split; try assumption;
        now apply wf_set.
    + simpl. unfold MapsWf; simpl; repeat split; try assumption.
      now apply wf_set.
Qed.

Lemma reachable_MapsWf (s : RoomState) : reachable config s -> MapsWf s.
Proof.
  induction 1 as [|i s _ IH]; [|now apply MapsWf_handle].
  unfold MapsWf, JSMap.wf; simpl. repeat split; constructor.
Qed.

(** *** X1 *)

(** X1.  In every state the server can reach, the users hold distinct
    indexes, each within [0, MAX_USERS), none of them free, and the
    number of users plus the number of free indexes is at most
    [MAX_USERS] (at most 0 for a bound that is not positive): the room
    never holds more users than its limit. *)
Theorem users_never_exceed_the_limit (s : RoomState) :
  reachable config s ->
  NoDup (userIndexes s) /\
  Forall (inRange (MAX_USERS config)) (userIndexes s) /\
  (forall i, In i (userIndexes s) -> ~ In i (availableIndexes s)) /\
  JSMap.size (users s) + Z.of_nat (List.length (availableIndexes s))
    <= Z.max 0 (MAX_USERS config).
Proof.
  intros Hreach.
  destruct (reachable_slots config s Hreach) as [(Hs & Hr & Hnd & Hu) _].
  rewrite Forall_forall in Hu, Hr.
  split; [exact Hnd|]. split; [|split].
  - apply Forall_forall. intros i Hi. now apply Hu.
  - intros i Hi. now apply Hu.
  - assert (NoDup (userIndexes s ++ availableIndexes s)) as Hall.
    { apply NoDup_app; [exact Hnd|now apply JSArrayFacts.sorted_lt_nodup|].
      intros i Hi. now apply Hu. }
    assert (incl (userIndexes s ++ availableIndexes s)
              (JSArray.from_length (MAX_USERS config))) as Hincl.
    { intros x Hx. apply in_range_from_length.
      apply in_app_or in Hx as [Hx|Hx]; [now apply Hu|now apply Hr]. }
    pose proof (NoDup_incl_length Hall Hincl) as Hlen.
    rewrite length_app in Hlen. unfold userIndexes in Hlen.
    rewrite length_map in Hlen.
    rewrite <- length_from_length. unfold JSMap.size. lia.
Qed.

(** *** X2 *)

(** X2.  When a connection is admitted in a reachable state, the new
    user gets the head of the free list, which is within bounds, smaller
    than every index that stays free and held by no other user; the
    socket is sent [init] with that index, and the free list loses
    exactly it. *)
Theorem admission_takes_the_least_free_index (socketId : string)
    (s s' : RoomState) (sent : list Effect) :
  reachable config s ->
  onConnection config socketId s = (s', sent, true) ->
  exists i : Z,
    availableIndexes s = i :: availableIndexes s' /\
    inRange (MAX_USERS config) i /\
    (forall x, In x (availableIndexes s') -> i < x) /\
    JSMap.get socketId (users s') =
      Some (mkUserState socketId "Anonymous" true true i) /\
    (forall e, In e (users s') -> fst e <> socketId ->
               u_userIndex (snd e) <> i) /\
    delivered socketId sent =
      [ init i (getAllUsers (Some socketId) s') (getAllProducers s');
        roomStatus config s' ].
Proof.
  intros Hreach.
  destruct (reachable_slots config s Hreach) as [(Hs & Hr & Hnd & Hu) _].
  unfold onConnection. destruct (isRoomFull config s); [discriminate|].
  unfold getNextUserIndex.
  destruct (acquire (availableIndexes s)) as [[i|] rest] eqn:E;
    [|discriminate].
  apply acquire_some in E. intros [= <- <-]. simpl.
  exists i. rewrite E in *. split; [reflexivity|].
  split; [now inversion Hr|]. split; [|split; [|split]].
  - apply Sorted_StronglySorted in Hs;
      [|intros p q r; apply Z.lt_trans].
    inversion Hs as [|? ? _ Hall]; subst.
    now apply Forall_forall.
  - apply JSMapFacts.get_set_same.
  - intros e He Hkey Hidx.
    apply JSMapFacts.in_set in He as [->|He]; [now apply Hkey|].
    rewrite Forall_forall in Hu.
    assert (In (u_userIndex (snd e)) (userIndexes s)) as Hi
      by (unfold userIndexes;
          now apply in_map with (f := fun e => u_userIndex (snd e))).
    apply (Hu _ Hi). rewrite Hidx. now left.
  - unfold delivered. simpl. rewrite String.eqb_refl. simpl.
    reflexivity.
Qed.

(** *** X3 *)

(** X3.  Admission followed by the disconnection of the same socket
    restores the room state: if the socket was no user and owned no
    producer and no transport in a reachable state, and the connection is
    admitted, then after its [disconnect] the state is the one before the
    connection (the index taken is the head of the free list again). *)
Theorem admission_then_disconnect_restores_the_state (socketId : string)
    (s : RoomState) :
  reachable config s ->
  JSMap.get socketId (users s) = None ->
  (forall e, In e (producers s) -> ownsProducer socketId e = false) ->
  (forall e, In e (transports s) -> ownsTransport socketId e = false) ->
  snd (onConnection config socketId s) = true ->
  fst (onDisconnect config socketId
         (fst (fst (onConnection config socketId s)))) = s.
Proof.
  intros Hreach Hget Hp Ht.
  destruct (reachable_slots config s Hreach) as [(Hs & Hr & _) _].
  unfold onConnection. destruct (isRoomFull config s); [discriminate|].
  unfold getNextUserIndex.
  destruct (acquire (availableIndexes s)) as [[i|] rest] eqn:E;
    [|discriminate].
  apply acquire_some in E. intros _. simpl.
  rewrite cleanupUser_loops.
  assert (userRemoved config socketId
            (with_users
               (JSMap.set socketId
                  (mkUserState socketId "Anonymous" true true i) (users s))
               (with_availableIndexes rest s)) = s) as ->.
  { unfold userRemoved. simpl. rewrite JSMapFacts.get_set_same.
    unfold releaseUserIndex, with_users, with_availableIndexes. simpl.
    rewrite (delete_set_absent _ _ _ Hget).
    rewrite E in Hs, Hr.
    inversion Hr as [|? ? [H0 H1] _]; subst.
    apply Z.geb_le in H0. apply Z.ltb_lt in H1. rewrite H0, H1. simpl.
    rewrite JSArrayFacts.sort_push_least.
    - rewrite <- E. apply RoomState_eta.
    - apply JSArrayFacts.sorted_lt_le. now inversion Hs.
    - intros y Hy. apply JSArrayFacts.sorted_lt_le in Hs.
      apply (JSArrayFacts.sorted_head_least i rest Hs). now right. }
  rewrite (closeProducers_nothing config _ _ _ Hp).
  now apply closeTransports_nothing.
Qed.

(** *** What the two removal loops leave *)

Lemma closeProducers_screenProducers (socketId : string)
    (l : JSMap.t ProducerData) (s : RoomState) :
  screenProducers (closeProducers config socketId l s) =
  filter (fun e => negb (keyIn (map fst (filter (ownsScreen socketId) l)) e))
    (screenProducers s).
Proof.
  unfold closeProducers, JSMap.forEach. revert s.
  induction l as [|[k pd] l IH]; intros s; simpl.
  - symmetry. now apply filter_all.
  - rewrite IH. unfold ownsScreen at 2. simpl.
    destruct (strict_eq (p_socketId pd) socketId); [|reflexivity].
    destruct (String.eqb (p_source pd) "screen"); simpl; [|reflexivity].
    rewrite delete_as_filter, filter_filter.
    apply filter_ext. intros e. apply keyIn_cons.
Qed.

(** In a map that holds each key once, filtering by the keys of the
    entries that satisfy a test is filtering by the test. *)
Lemma filter_by_keys {V : Type} (own : string * V -> bool)
    (m : JSMap.t V) :
  JSMap.wf m ->
  filter (fun e => negb (keyIn (map fst (filter own m)) e)) m =
  filter (fun e => negb (own e)) m.
Proof.
  intros Hwf. apply filter_ext_in. intros e He. f_equal.
  destruct (own e) eqn:Hown.
  - now apply keyIn_owned.
  - destruct (keyIn (map fst (filter own m)) e) eqn:Hk; [|reflexivity].
    unfold keyIn in Hk. apply existsb_exists in Hk as [k [Hk Heq]].
    apply String.eqb_eq in Heq. apply in_map_iff in Hk as [e' [Hk' He']].
    apply filter_In in He' as [He' Hown'].
    assert (e = e') as -> by (apply (wf_entry_unique m); congruence).
    congruence.
Qed.

Lemma removeUserScreenShares_steps (socketId : string) (s : RoomState) :
  removeUserScreenShares config socketId s =
  fold_left (screenShareStep config socketId) (producers s) ([], s).
Proof. reflexivity. Qed.

Lemma screenShareStep_fold (socketId : string)
    (l : JSMap.t ProducerData) (removed : list string) (s : RoomState) :
  let r := fold_left (screenShareStep config socketId) l (removed, s) in
  fst r = (removed ++ map fst (filter (ownsScreen socketId) l))%list /\
  producers (snd r) =
    filter
      (fun e => negb (keyIn (map fst (filter (ownsScreen socketId) l)) e))
      (producers s) /\
  screenProducers (snd r) =
    filter
      (fun e => negb (keyIn (map fst (filter (ownsScreen socketId) l)) e))
      (screenProducers s) /\
  users (snd r) = users s /\
  availableIndexes (snd r) = availableIndexes s /\
  transports (snd r) = transports s.
Proof.
  revert removed s. induction l as [|[k pd] l IH]; intros removed s.
  - simpl. rewrite app_nil_r.
    repeat split; symmetry; now apply filter_all.
  - cbn [fold_left filter].
    assert (screenShareStep config socketId (removed, s) (k, pd) =
            if ownsScreen socketId (k, pd)
            then ((removed ++ [k])%list,
                  with_screenProducers
                    (JSMap.delete k (screenProducers
                          (with_producers
                             (JSMap.delete k
                                (producers
                                   (releasePresentationIndex config
                                      (p_presentationIndex pd) s)))
                             (releasePresentationIndex config
                                (p_presentationIndex pd) s))))
                    (with_producers
                       (JSMap.delete k
                          (producers
                             (releasePresentationIndex config
                                (p_presentationIndex pd) s)))
                       (releasePresentationIndex config
                          (p_presentationIndex pd) s)))
            else (removed, s)) as -> by reflexivity.
    destruct (ownsScreen socketId (k, pd)).
    + match goal with |- context [fold_left _ l (?r0, ?s0)] =>
        destruct (IH r0 s0) as (I1 & I2 & I3 & I4 & I5 & I6) end.
      cbv zeta. rewrite I1, I2, I3, I4, I5, I6. cbn [map fst].
      rewrite <- app_assoc.
      split; [reflexivity|]. split; [|split; [|now repeat split]].
      * cbn [producers with_screenProducers with_producers].
        rewrite delete_as_filter, filter_filter.
        apply filter_ext; intros e; apply keyIn_cons.
      * cbn [screenProducers with_screenProducers with_producers
               releasePresentationIndex
               with_availablePresentationIndexes].
        rewrite delete_as_filter, filter_filter.
        apply filter_ext; intros e; apply keyIn_cons.
    + apply IH.
Qed.

Lemma release_keeps (bound : Z) (index : option Z) (x : Z) (pool : list Z) :
  In x pool -> In x (release bound index pool).
Proof.
  intros H. unfold release. destruct index as [i|]; [|exact H].
  destruct ((i >=? 0) && (i <? bound)); [|exact H].
  apply JSArrayFacts.sort_asc_in. unfold JSArray.push.
  apply in_or_app. now left.
Qed.

Lemma release_adds (bound i : Z) (pool : list Z) :
  inRange bound i -> In i (release bound (Some i) pool).
Proof.
  intros [H0 H1]. unfold release.
  apply Z.geb_le in H0. apply Z.ltb_lt in H1. rewrite H0, H1. simpl.
  apply JSArrayFacts.sort_asc_in. unfold JSArray.push.
  apply in_or_app. right. now left.
Qed.

Lemma screenShareStep_frees (socketId : string)
    (l : JSMap.t ProducerData) (removed : list string) (s : RoomState)
    (x : Z) :
  In x (availablePresentationIndexes s) \/
  (exists e, In e l /\ ownsScreen socketId e = true /\
             p_presentationIndex (snd e) = Some x /\
             inRange (MAX_SCREEN_SHARES config) x) ->
  In x
    (availablePresentationIndexes
       (snd (fold_left (screenShareStep config socketId) l (removed, s)))).
Proof.
  revert removed s. induction l as [|[k pd] l IH]; intros removed s H.
  - simpl. destruct H as [H|[e [[] _]]]. exact H.
  - cbn [fold_left]. unfold screenShareStep at 2. cbn [fst snd].
    destruct (strict_eq (p_socketId pd) socketId
              && String.eqb (p_source pd) "screen") eqn:Eown.
    + apply IH. destruct H as [H|[e [[<-|He] (Hown & Hidx & Hr)]]].
      * left. simpl. now apply release_keeps.
      * left. simpl in *. rewrite Hidx. now apply release_adds.
      * right. now exists e.
    + apply IH. destruct H as [H|[e [[<-|He] (Hown & Hidx & Hr)]]].
      * now left.
      * unfold ownsScreen in Hown. simpl in Hown. congruence.
      * right. now exists e.
Qed.

(** *** X4 *)

(** X4.  In a reachable state, [stop-screen-share] removes from the
    directory exactly the screen shares registered under the socket (its
    cameras and the producers of others stay, in their order), sends one
    [presentation-ended] to all for each of them, in the order of the
    directory, followed by one [room-status], leaves users, user indexes
    and transports alone, and frees the presentation index of each one
    removed.  A second [stop-screen-share] right after changes nothing
    and sends only [room-status]. *)
Theorem stop_screen_share_removes_the_socket_s_shares (socketId : string)
    (s : RoomState) :
  reachable config s ->
  let s' := fst (onStopScreenShare config socketId s) in
  producers s' =
    filter (fun e => negb (ownsScreen socketId e)) (producers s) /\
  snd (onStopScreenShare config socketId s) =
    (map (fun e => emit to_all (presentation_ended (fst e) (Some socketId)))
       (filter (ownsScreen socketId) (producers s))
     ++ [emit to_all (roomStatus config s')])%list /\
  users s' = users s /\
  availableIndexes s' = availableIndexes s /\
  transports s' = transports s /\
  (forall e i,
     In e (producers s) -> ownsScreen socketId e = true ->
     p_presentationIndex (snd e) = Some i ->
     inRange (MAX_SCREEN_SHARES config) i ->
     In i (availablePresentationIndexes s')) /\
  onStopScreenShare config socketId s' =
    (s', [emit to_all (roomStatus config s')]).
Proof.
  intros Hreach. destruct (reachable_MapsWf s Hreach) as (_ & _ & Hwf & _).
  unfold onStopScreenShare. rewrite removeUserScreenShares_steps.
  pose proof (screenShareStep_fold socketId (producers s) [] s) as Hfold.
  pose proof (screenShareStep_frees socketId (producers s) [] s) as Hfree.
  destruct (fold_left (screenShareStep config socketId) (producers s)
              ([], s)) as [removed s1] eqn:E.
  cbv zeta in Hfold. simpl in Hfold, Hfree.
  destruct Hfold as (F1 & F2 & F3 & F4 & F5 & F6).
  rewrite (filter_by_keys (ownsScreen socketId) (producers s) Hwf) in F2.
  simpl. split; [exact F2|]. split; [|split; [|split; [|split; [|split]]]];
    try assumption.
  - subst removed. now rewrite map_map.
  - intros e i He Hown Hidx Hr. apply Hfree. right. now exists e.
  - rewrite removeUserScreenShares_steps.
    assert (fold_left (screenShareStep config socketId) (producers s1)
              ([], s1) = ([], s1)) as ->; [|reflexivity].
    apply fold_left_fixed. intros [r x] e He.
    unfold screenShareStep.
    rewrite F2 in He. apply filter_In in He as [_ He].
    unfold ownsScreen in He. apply negb_true_iff in He. now rewrite He.
Qed.

(** *** X5 *)

(** X5.  In a reachable state, the [disconnect] of a socket removes its
    user entry, every producer and every transport registered under it,
    and nothing else: the other users, producers and transports stay as
    they are, in their order. *)
Theorem disconnect_removes_exactly_the_socket_s_entries
    (socketId : string) (s : RoomState) :
  reachable config s ->
  let s' := fst (onDisconnect config socketId s) in
  JSMap.get socketId (users s') = None /\
  (forall k, k <> socketId ->
             JSMap.get k (users s') = JSMap.get k (users s)) /\
  producers s' =
    filter (fun e => negb (ownsProducer socketId e)) (producers s) /\
  transports s' =
    filter (fun e => negb (ownsTransport socketId e)) (transports s) /\
  screenProducers s' =
    filter
      (fun e =>
         negb (keyIn (map fst (filter (ownsScreen socketId) (producers s)))
                 e))
      (screenProducers s).
Proof.
  intros Hreach.
  destruct (reachable_MapsWf s Hreach) as (_ & Hwt & Hwp & _).
  simpl. split; [|split; [|split; [|split]]].
  - rewrite cleanupUser_users. apply JSMapFacts.get_delete_same.
  - intros k Hk. rewrite cleanupUser_users. now apply get_delete_other.
  - rewrite cleanupUser_producers. now apply filter_by_keys.
  - rewrite cleanupUser_transports. now apply filter_by_keys.
  - rewrite cleanupUser_loops.
    match goal with |- screenProducers (closeTransports ?a ?b ?c) = _ =>
      destruct (closeTransports_frame a b c) as (_ & _ & _ & -> & _) end.
    rewrite closeProducers_screenProducers.
    now destruct (userRemoved_fields config socketId s)
      as (_ & _ & _ & _ & -> & _).
Qed.

(** *** X6 *)

Lemma keys_set_present {V : Type} (k : string) (v u : V) (m : JSMap.t V) :
  JSMap.get k m = Some u -> JSMap.keys (JSMap.set k v m) = JSMap.keys m.
Proof.
  intros H. rewrite keys_set. unfold JSMap.has. now rewrite H.
Qed.

(** X6.  [set-name] from a socket that is no user changes nothing and
    sends nothing.  From a user, it changes the name in that user's entry
    and nothing else: the entry keeps its index and its place, the other
    entries and the rest of the room state are as before; the others are
    sent [user-updated] with the new name and the user's index, then
    [room-status], and the sender is sent [room-status] only. *)
Theorem set_name_changes_one_name (socketId name : string)
    (s : RoomState) :
  (JSMap.get socketId (users s) = None ->
   onSetName config socketId name s = (s, [])) /\
  (forall u, JSMap.get socketId (users s) = Some u ->
     let s' := fst (onSetName config socketId name s) in
     let sent := snd (onSetName config socketId name s) in
     JSMap.get socketId (users s') =
       Some (mkUserState (u_id u) name (u_videoEnabled u)
               (u_audioEnabled u) (u_userIndex u)) /\
     (forall k, k <> socketId ->
                JSMap.get k (users s') = JSMap.get k (users s)) /\
     JSMap.keys (users s') = JSMap.keys (users s) /\
     userIndexes s' = userIndexes s /\
     with_users (users s) s' = s /\
     delivered socketId sent = [roomStatus config s'] /\
     (forall who, who <> socketId ->
        delivered who sent =
        [ user_updated
            (mkUserInfo socketId name (u_userIndex u) (u_videoEnabled u)
               (u_audioEnabled u));
          roomStatus config s' ])).
Proof.
  unfold onSetName, getUserBySocketId. split.
  - now intros ->.
  - intros u Hget. rewrite Hget. simpl.
    split; [apply JSMapFacts.get_set_same|].
    split; [intros k Hk; now apply JSMapFacts.get_set_other|].
    split; [now apply (keys_set_present _ _ u)|].
    split; [now apply (JSMapFacts.map_set_same u_userIndex _ _ u)|].
    split; [unfold with_users; simpl; apply RoomState_eta|].
    unfold delivered. simpl. rewrite String.eqb_refl. simpl.
    split; [reflexivity|].
    intros who Hwho. apply String.eqb_neq in Hwho. now rewrite Hwho.
Qed.

(** *** X7 *)

(** X7.  [toggle-video] and [toggle-audio] from a socket that is no user
    change nothing and send nothing.  From a user, each sets its flag in
    that user's entry and leaves the other flag, the name and the index;
    the other entries and the rest of the state are as before, the others
    are sent the toggle and the sender is sent nothing. *)
Theorem toggles_change_one_flag (socketId : string) (enabled : bool)
    (s : RoomState) :
  (JSMap.get socketId (users s) = None ->
   onToggleVideo socketId enabled s = (s, []) /\
   onToggleAudio socketId enabled s = (s, [])) /\
  (forall u, JSMap.get socketId (users s) = Some u ->
     let v := onToggleVideo socketId enabled s in
     let a := onToggleAudio socketId enabled s in
     JSMap.get socketId (users (fst v)) =
       Some (mkUserState (u_id u) (u_name u) enabled (u_audioEnabled u)
               (u_userIndex u)) /\
     JSMap.get socketId (users (fst a)) =
       Some (mkUserState (u_id u) (u_name u) (u_videoEnabled u) enabled
               (u_userIndex u)) /\
     (forall k, k <> socketId ->
        JSMap.get k (users (fst v)) = JSMap.get k (users s) /\
        JSMap.get k (users (fst a)) = JSMap.get k (users s)) /\
     with_users (users s) (fst v) = s /\
     with_users (users s) (fst a) = s /\
     delivered socketId (snd v) = [] /\
     delivered socketId (snd a) = [] /\
     (forall who, who <> socketId ->
        delivered who (snd v) = [user_video_toggled socketId enabled] /\
        delivered who (snd a) = [user_audio_toggled socketId enabled])).
Proof.
  unfold onToggleVideo, onToggleAudio, getUserBySocketId. split.
  - intros ->. now split.
  - intros u Hget. rewrite Hget. simpl.
    split; [apply JSMapFacts.get_set_same|].
    split; [apply JSMapFacts.get_set_same|].
    split; [intros k Hk; split; now apply JSMapFacts.get_set_other|].
    split; [unfold with_users; simpl; apply RoomState_eta|]. split; [unfold with_users; simpl; apply RoomState_eta|].
    unfold delivered. simpl. rewrite String.eqb_refl. simpl.
    split; [reflexivity|]. split; [reflexivity|].
    intros who Hwho. apply String.eqb_neq in Hwho. now rewrite Hwho.
Qed.

(** *** X8 *)

(** X8.  [POST /create-transport] with a socket id answers "Room is
    full" exactly when the direction is [send], the socket is no user and
    the room is full; otherwise the request goes on to the engine, so a
    user of the room and a receive transport are never refused for
    capacity.  Without a socket id the answer is 400 whatever the
    rest. *)
Theorem create_transport_refuses_only_new_senders
    (req : TransportRequest) (s : RoomState) :
  (truthy (ct_socketId req) = false ->
   createTransport_before config req s =
     Some (json_error 400 "Socket ID is required")) /\
  (forall socketId,
     ct_socketId req = Some socketId -> socketId <> EmptyString ->
     (createTransport_before config req s = Some (RoomFull config) <->
        ct_direction req = Some "send" /\
        getUserBySocketId socketId s = None /\
        isRoomFull config s = true) /\
     (createTransport_before config req s = None <->
        ~ (ct_direction req = Some "send" /\
           getUserBySocketId socketId s = None /\
           isRoomFull config s = true))).
Proof.
  unfold createTransport_before. split.
  - destruct (ct_socketId req) as [sid|]; simpl; [|reflexivity].
    intros H. apply negb_false_iff in H. now rewrite H.
  - intros sid -> Hne. apply String.eqb_neq in Hne. rewrite Hne.
    assert (strict_eq (ct_direction req) "send" = true <->
            ct_direction req = Some "send") as Hdir.
    { unfold strict_eq. destruct (ct_direction req) as [d|];
        [|split; discriminate].
      rewrite String.eqb_eq. split; congruence. }
    destruct (strict_eq (ct_direction req) "send") eqn:Ed;
      destruct (getUserBySocketId sid s) as [u|] eqn:Eu;
      destruct (isRoomFull config s) eqn:Ef; simpl;
      split; split; try discriminate; try reflexivity;
      try (intros (H1 & H2 & H3); try discriminate;
           apply Hdir in H1; discriminate);
      try (intros H; exfalso; apply H; repeat split;
           try reflexivity; now apply Hdir);
      try (intros _; repeat split; now apply Hdir);
      try (intros _ (H1 & H2 & H3); try discriminate;
           apply Hdir in H1; discriminate).
Qed.

(** *** X9 *)


(** *** X10 *)

(** X10.  Whenever [POST /produce] does not answer with a producer id,
    it has changed nothing and sent nothing, and the answer is one of
    "Transport not found", the refusal for capacity, or 500 with the
    message of the engine's rejection. *)
Theorem failed_produce_changes_nothing (answer : Awaited string)
    (req : ProduceRequest) (s s' : RoomState) (r : Response)
    (sent : list Effect) :
  produce config answer req s = (s', r, sent) ->
  (forall id, r <> json_id id) ->
  s' = s /\ sent = [] /\
  (r = NotFound \/ r = PresentationFull config \/
   exists message, answer = rejected message /\ r = json_error 500 message).
Proof.
  unfold produce.
  destruct (produce_before config req s) as [r0|] eqn:Eb.
  { intros [= <- <- <-] _. split; [reflexivity|]. split; [reflexivity|].
    unfold produce_before in Eb.
    destruct (JSMap.get (pr_transportId req) (transports s));
      [|left; congruence].
    match type of Eb with (if ?c then _ else _) = _ => destruct c end;
      [right; left; congruence|discriminate]. }
  unfold produce_after. destruct answer as [pid|msg].
  - destruct (is_screen (pr_source req)).
    + unfold getNextPresentationIndex.
      destruct (acquire (availablePresentationIndexes s))
        as [[i|] rest] eqn:E.
      * intros [= <- <- <-] H. now destruct (H pid).
      * apply acquire_none_same in E. subst rest.
        intros [= <- <- <-] _. split; [|split; [reflexivity|]].
        -- unfold with_availablePresentationIndexes.
           apply RoomState_eta.
        -- right. now left.
    + intros [= <- <- <-] H. now destruct (H pid).
  - intros [= <- <- <-] _. split; [reflexivity|]. split; [reflexivity|].
    right. right. now exists msg.
Qed.

(** *** X11 *)

(** X11.  When [POST /produce] answers with a producer id in a reachable
    state, the engine had made that producer on a known transport, and
    the directory holds it under its id with the socket id, the kind and
    the source of the request; users, user indexes, transports and the
    other producers are as before.  A screen share takes the head of the
    free presentation indexes, which no free index is smaller than, is
    recorded with it and is counted among the screen shares, and the
    count was below the limit; any other producer is recorded without an
    index (its source defaults to [camera]) and leaves the pool and the
    screen shares alone. *)
Theorem successful_produce_registers_the_producer
    (answer : Awaited string) (req : ProduceRequest) (s s' : RoomState)
    (id : string) (sent : list Effect) :
  reachable config s ->
  produce config answer req s = (s', json_id id, sent) ->
  answer = resolved id /\
  JSMap.has (pr_transportId req) (transports s) = true /\
  users s' = users s /\
  availableIndexes s' = availableIndexes s /\
  transports s' = transports s /\
  (forall k, k <> id ->
             JSMap.get k (producers s') = JSMap.get k (producers s)) /\
  (pr_source req = Some "screen" ->
     exists i,
       availablePresentationIndexes s =
         i :: availablePresentationIndexes s' /\
       (forall x, In x (availablePresentationIndexes s') -> i <= x) /\
       JSMap.get id (producers s') =
         Some (mkProducerData (pr_socketId req) (pr_kind req) "screen"
                 (Some i)) /\
       JSMap.get id (screenProducers s') = Some id /\
       getScreenShareCount s < MAX_SCREEN_SHARES config) /\
  (pr_source req <> Some "screen" ->
     JSMap.get id (producers s') =
       Some (mkProducerData (pr_socketId req) (pr_kind req)
               (js_or (pr_source req) "camera") None) /\
     availablePresentationIndexes s' = availablePresentationIndexes s /\
     screenProducers s' = screenProducers s).
Proof.
  intros Hreach.
  destruct (reachable_slots config s Hreach) as [_ (Hsorted & _)].
  unfold produce, produce_before.
  assert (is_screen (pr_source req) = true <->
          pr_source req = Some "screen") as Hscreen.
  { unfold is_screen, strict_eq. destruct (pr_source req) as [src|];
      [|split; discriminate].
    rewrite String.eqb_eq. split; congruence. }
  destruct (JSMap.get (pr_transportId req) (transports s)) as [td|] eqn:Et;
    [|discriminate].
  assert (JSMap.has (pr_transportId req) (transports s) = true) as Hhas
    by (unfold JSMap.has; now rewrite Et).
  destruct (is_screen (pr_source req)) eqn:Es; simpl.
  - destruct (getScreenShareCount s >=? MAX_SCREEN_SHARES config) eqn:Ec;
      [discriminate|].
    unfold produce_after. destruct answer as [pid|msg]; [|discriminate].
    rewrite Es. unfold getNextPresentationIndex.
    destruct (acquire (availablePresentationIndexes s))
      as [[i|] rest] eqn:E; [|discriminate].
    apply acquire_some in E. intros [= <- <- <-]. simpl.
    repeat (split; [reflexivity || exact Hhas|]).
    split; [intros k Hk; now apply JSMapFacts.get_set_other|].
    split.
    + intros Hsrc. exists i. rewrite E in Hsorted.
      split; [exact E|]. split.
      * intros x Hx. apply (JSArrayFacts.sorted_head_least i rest Hsorted).
        now right.
      * rewrite Hsrc. simpl.
        split; [apply JSMapFacts.get_set_same|].
        split; [apply JSMapFacts.get_set_same|].
        unfold getScreenShareCount in *.
        rewrite Z.geb_leb in Ec. apply Z.leb_gt in Ec. exact Ec.
    + intros Hsrc. exfalso. now apply Hsrc, Hscreen.
  - unfold produce_after. destruct answer as [pid|msg]; [|discriminate].
    rewrite Es. intros [= <- <- <-]. simpl.
    repeat (split; [reflexivity || exact Hhas|]).
    split; [intros k Hk; now apply JSMapFacts.get_set_other|].
    split.
    + intros Hsrc. apply Hscreen in Hsrc. congruence.
    + intros _. split; [apply JSMapFacts.get_set_same|]. now split.
Qed.

(** *** Every index is free or held, when ids are fresh *)

Lemma freshReachable_reachable (s : RoomState) :
  freshReachable config s -> reachable config s.
Proof. induction 1; now constructor. Qed.

(** Deleting the key of an entry of a map that holds each key once
    removes that entry and no other. *)
Lemma delete_permutation {V A : Type} (g : string * V -> A) (k : string)
    (v : V) (m : JSMap.t V) :
  JSMap.wf m -> JSMap.get k m = Some v ->
  Permutation (map g m) (g (k, v) :: map g (JSMap.delete k m)).
Proof.
  unfold JSMap.wf, JSMap.keys, JSMap.delete.
  induction m as [|[k' v'] m IH]; simpl; intros Hwf Hget; [discriminate|].
  inversion Hwf as [|? ? Hk Hwf']; subst.
  destruct (String.eqb k k') eqn:E; simpl.
  - apply String.eqb_eq in E. subst k'. injection Hget as ->.
    constructor.
    assert (filter (fun e : string * V => negb (String.eqb k (fst e))) m = m)
      as ->; [|reflexivity].
    apply filter_all. intros e He. apply negb_true_iff, String.eqb_neq.
    intros ->. apply Hk. now apply in_map.
  - rewrite (IH Hwf' Hget). apply perm_swap.
Qed.

Lemma release_permutation (bound i : Z) (pool : list Z) :
  inRange bound i -> Permutation (release bound (Some i) pool) (pool ++ [i]).
Proof.
  intros H. rewrite (release_reinserts bound i pool H).
  apply Permutation_cons_append.
Qed.

Lemma UsersPartition_ext (s s' : RoomState) :
  users s' = users s -> availableIndexes s' = availableIndexes s ->
  UsersPartition config s -> UsersPartition config s'.
Proof.
  unfold UsersPartition, userIndexes. intros -> ->. exact (fun H => H).
Qed.

Lemma UsersPartition_range (s : RoomState) (i : Z) :
  UsersPartition config s -> In i (userIndexes s) ->
  inRange (MAX_USERS config) i.
Proof.
  intros H Hi. apply JSArrayFacts.from_length_range.
  apply (Permutation_in _ H). apply in_or_app. now right.
Qed.

Lemma UsersPartition_handle (i : Input) (s : RoomState) :
  JSMap.wf (users s) -> freshInput i s ->
  UsersPartition config s ->
  UsersPartition config (fst (handle config i s)).
Proof.
  intros Hwf Hfresh H.
  destruct i as [sid|sid name|sid b|sid b|sid|sid|a req|a req]; simpl.
  - simpl in Hfresh. unfold onConnection.
    destruct (isRoomFull config s); [exact H|].
    unfold getNextUserIndex.
    destruct (acquire (availableIndexes s)) as [[i|] rest] eqn:E; simpl.
    + apply acquire_some in E. unfold UsersPartition, userIndexes in *.
      simpl. rewrite (JSMapFacts.set_absent _ _ _ Hfresh), map_app. simpl.
      rewrite E in H. rewrite <- H.
      rewrite app_assoc. rewrite <- Permutation_cons_append.
      reflexivity.
    + apply acquire_none_same in E. subst rest.
      now apply (UsersPartition_ext s).
  - unfold onSetName, getUserBySocketId.
    destruct (JSMap.get sid (users s)) as [u|] eqn:E; simpl; [|exact H].
    unfold UsersPartition, userIndexes in *. simpl.
    now rewrite (JSMapFacts.map_set_same u_userIndex _ _ u).
  - unfold onToggleVideo, getUserBySocketId.
    destruct (JSMap.get sid (users s)) as [u|] eqn:E; simpl; [|exact H].
    unfold UsersPartition, userIndexes in *. simpl.
    now rewrite (JSMapFacts.map_set_same u_userIndex _ _ u).
  - unfold onToggleAudio, getUserBySocketId.
    destruct (JSMap.get sid (users s)) as [u|] eqn:E; simpl; [|exact H].
    unfold UsersPartition, userIndexes in *. simpl.
    now rewrite (JSMapFacts.map_set_same u_userIndex _ _ u).
  - unfold onStopScreenShare. rewrite removeUserScreenShares_steps.
    pose proof (screenShareStep_fold sid (producers s) [] s) as Hfold.
    destruct (fold_left (screenShareStep config sid) (producers s) ([], s))
      as [removed s1].
    cbv zeta in Hfold. simpl in *.
    destruct Hfold as (_ & _ & _ & F4 & F5 & _).
    now apply (UsersPartition_ext s).
  - unfold UsersPartition, userIndexes.
    rewrite cleanupUser_users, cleanupUser_availableIndexes.
    destruct (JSMap.get sid (users s)) as [u|] eqn:E.
    + assert (In (u_userIndex u) (userIndexes s)) as Hin.
      { unfold userIndexes. apply JSMapFacts.get_in in E.
        now apply in_map with (f := fun e => u_userIndex (snd e))
                              (x := (sid, u)). }
      rewrite (release_permutation _ _ _
                 (UsersPartition_range s _ H Hin)).
      rewrite <- app_assoc. simpl.
      rewrite <- (delete_permutation
                    (fun e => u_userIndex (snd e)) sid u (users s) Hwf E).
      exact H.
    + now rewrite (JSMapFacts.delete_absent _ _ E).
  - destruct a as [tid|msg]; simpl; exact H.
  - unfold produce_after. destruct a as [pid|msg]; [|exact H].
    destruct (is_screen (pr_source req)); [|exact H].
    unfold getNextPresentationIndex.
    destruct (acquire (availablePresentationIndexes s)) as [[i|] rest];
      exact H.
Qed.

Lemma freshReachable_UsersPartition (s : RoomState) :
  freshReachable config s -> UsersPartition config s.
Proof.
  induction 1 as [|i s Hreach IH Hfresh].
  - unfold UsersPartition, userIndexes. simpl. now rewrite app_nil_r.
  - apply UsersPartition_handle; [|exact Hfresh|exact IH].
    apply (reachable_MapsWf s). now apply freshReachable_reachable.
Qed.

(** *** The presentation indexes, when ids are fresh *)

Lemma release_released (bound : Z) (index : option Z) (pool : list Z) :
  Permutation (release bound index pool) (pool ++ released bound index).
Proof.
  unfold release, released. destruct index as [i|];
    [|now rewrite app_nil_r].
  destruct ((i >=? 0) && (i <? bound)); [|now rewrite app_nil_r].
  apply JSArrayFacts.sort_asc_perm.
Qed.

Lemma closeProducers_pool (socketId : string) (l : JSMap.t ProducerData)
    (s : RoomState) :
  Permutation
    (availablePresentationIndexes (closeProducers config socketId l s))
    (availablePresentationIndexes s
     ++ releasedBy (MAX_SCREEN_SHARES config) (ownsScreen socketId) l).
Proof.
  unfold closeProducers, JSMap.forEach. revert s.
  induction l as [|[k pd] l IH]; intros s; simpl.
  - now rewrite app_nil_r.
  - rewrite IH. unfold ownsScreen at 2. simpl.
    destruct (strict_eq (p_socketId pd) socketId); simpl; [|reflexivity].
    destruct (String.eqb (p_source pd) "screen"); simpl; [|reflexivity].
    rewrite release_released. now rewrite app_assoc.
Qed.

Lemma releasedBy_cons (bound : Z) (own : string * ProducerData -> bool)
    (e : string * ProducerData) (l : JSMap.t ProducerData) :
  releasedBy bound own (e :: l) =
  ((if own e then released bound (p_presentationIndex (snd e)) else [])
   ++ releasedBy bound own l)%list.
Proof. reflexivity. Qed.

Lemma screenShareStep_pool (socketId : string) (l : JSMap.t ProducerData)
    (removed : list string) (s : RoomState) :
  Permutation
    (availablePresentationIndexes
       (snd (fold_left (screenShareStep config socketId) l (removed, s))))
    (availablePresentationIndexes s
     ++ releasedBy (MAX_SCREEN_SHARES config) (ownsScreen socketId) l).
Proof.
  revert removed s. induction l as [|[k pd] l IH]; intros removed s.
  - simpl. now rewrite app_nil_r.
  - cbn [fold_left]. rewrite releasedBy_cons.
    assert (availablePresentationIndexes
              (snd (screenShareStep config socketId (removed, s) (k, pd))) =
            if ownsScreen socketId (k, pd)
            then release (MAX_SCREEN_SHARES config) (p_presentationIndex pd)
                   (availablePresentationIndexes s)
            else availablePresentationIndexes s) as Hstep.
    { unfold screenShareStep, ownsScreen. cbn [fst snd].
      now destruct (strict_eq (p_socketId pd) socketId
                    && String.eqb (p_source pd) "screen"). }
    destruct (screenShareStep config socketId (removed, s) (k, pd))
      as [removed1 s1].
    rewrite IH. cbn [snd] in Hstep. rewrite Hstep. cbn [snd].
    destruct (ownsScreen socketId (k, pd)).
    + rewrite release_released. now rewrite app_assoc.
    + reflexivity.
Qed.

Lemma filter_partition {A : Type} (q : A -> bool) (l : list A) :
  Permutation l (filter q l ++ filter (fun x => negb (q x)) l).
Proof.
  induction l as [|x l IH]; simpl; [reflexivity|].
  destruct (q x); simpl.
  - now constructor.
  - now apply Permutation_cons_app.
Qed.

Lemma filter_comm {A : Type} (f g : A -> bool) (l : list A) :
  filter f (filter g l) = filter g (filter f l).
Proof.
  rewrite !filter_filter. apply filter_ext. intros x. apply andb_comm.
Qed.

Lemma keys_filter_keyIn {V : Type} (ks : list string) (m : JSMap.t V) :
  JSMap.keys (filter (fun e => negb (keyIn ks e)) m) =
  filter (fun k => negb (existsb (String.eqb k) ks)) (JSMap.keys m).
Proof.
  unfold JSMap.keys, keyIn.
  induction m as [|[k v] m IH]; simpl; [reflexivity|].
  destruct (existsb (String.eqb k) ks); simpl; now rewrite IH.
Qed.

Lemma map_fst_filter_keyIn {V : Type} (ks : list string) (l : JSMap.t V) :
  filter (fun k => negb (existsb (String.eqb k) ks)) (map fst l) =
  map fst (filter (fun e => negb (keyIn ks e)) l).
Proof. symmetry. apply (keys_filter_keyIn ks l). Qed.

(** Under the partition, the indexes that the removal of screen shares
    gives back are those recorded with them. *)
Lemma releasedBy_held (own : string * ProducerData -> bool)
    (s : RoomState) :
  ScreensPartition config s ->
  (forall e, own e = true -> isScreenEntry e = true) ->
  map Some (releasedBy (MAX_SCREEN_SHARES config) own (producers s)) =
  map (fun e => p_presentationIndex (snd e)) (filter own (producers s)).
Proof.
  intros [HP _] Hown.
  assert (forall e, In e (producers s) -> isScreenEntry e = true ->
            exists i, p_presentationIndex (snd e) = Some i /\
                      inRange (MAX_SCREEN_SHARES config) i) as Hidx.
  { intros e He Hs.
    assert (In (p_presentationIndex (snd e)) (heldPresentationIndexes s))
      as Hin.
    { unfold heldPresentationIndexes.
      apply in_map with (f := fun e => p_presentationIndex (snd e)).
      apply filter_In. now split. }
    assert (In (p_presentationIndex (snd e))
              (map Some (JSArray.from_length (MAX_SCREEN_SHARES config))))
      as Hin'
      by (apply (Permutation_in _ HP); apply in_or_app; now right).
    apply in_map_iff in Hin' as [i [Hi Hr]].
    exists i. split; [now symmetry|].
    now apply JSArrayFacts.from_length_range. }
  revert Hidx. generalize (producers s) as l.
  induction l as [|e l IH]; intros Hidx; simpl; [reflexivity|].
  destruct (own e) eqn:E; simpl.
  - destruct (Hidx e (or_introl eq_refl) (Hown e E)) as [i [Hi [H0 H1]]].
    rewrite Hi. unfold released.
    apply Z.geb_le in H0. apply Z.ltb_lt in H1. rewrite H0, H1. simpl.
    f_equal. apply IH. intros e' He'. apply Hidx. now right.
  - apply IH. intros e' He'. apply Hidx. now right.
Qed.

(** The removal of the screen shares that satisfy [own], with the
    release of their indexes, keeps the partition of the indexes. *)
Lemma partition_after_removal (own : string * ProducerData -> bool)
    (s : RoomState) (pool' : list Z) :
  ScreensPartition config s ->
  (forall e, own e = true -> isScreenEntry e = true) ->
  Permutation pool'
    (availablePresentationIndexes s
     ++ releasedBy (MAX_SCREEN_SHARES config) own (producers s)) ->
  Permutation
    (map Some pool'
     ++ map (fun e => p_presentationIndex (snd e))
          (filter (fun e => negb (own e))
             (filter isScreenEntry (producers s))))
    (map Some (JSArray.from_length (MAX_SCREEN_SHARES config))).
Proof.
  intros Hpart Hown Hpool. pose proof Hpart as [HP _].
  rewrite <- HP. rewrite Hpool, map_app, <- app_assoc.
  apply Permutation_app_head.
  rewrite (releasedBy_held own s Hpart Hown).
  unfold heldPresentationIndexes. symmetry.
  etransitivity;
    [apply Permutation_map;
     apply (filter_partition own (filter isScreenEntry (producers s)))|].
  rewrite map_app. apply Permutation_app_tail.
  assert (filter own (filter isScreenEntry (producers s)) =
          filter own (producers s)) as ->; [|reflexivity].
  rewrite filter_filter. apply filter_ext. intros e.
  destruct (own e) eqn:E; [|apply andb_false_r].
  now rewrite (Hown e E).
Qed.

Lemma ScreensPartition_ext (s s' : RoomState) :
  producers s' = producers s -> screenProducers s' = screenProducers s ->
  availablePresentationIndexes s' = availablePresentationIndexes s ->
  ScreensPartition config s -> ScreensPartition config s'.
Proof.
  unfold ScreensPartition, heldPresentationIndexes.
  intros -> -> ->. exact (fun H => H).
Qed.

Lemma ownsScreen_isScreenEntry (socketId : string)
    (e : string * ProducerData) :
  ownsScreen socketId e = true -> isScreenEntry e = true.
Proof. unfold ownsScreen. intros H. now apply andb_prop in H. Qed.

Lemma keyIn_of_screen_entry (socketId : string) (s : RoomState)
    (e : string * ProducerData) :
  JSMap.wf (producers s) -> In e (producers s) ->
  keyIn (map fst (filter (ownsScreen socketId) (producers s))) e =
  ownsScreen socketId e.
Proof.
  intros Hwf He. destruct (ownsScreen socketId e) eqn:Hown.
  - now apply keyIn_owned.
  - destruct (keyIn _ e) eqn:Hk; [|reflexivity].
    unfold keyIn in Hk. apply existsb_exists in Hk as [k [Hk Heq]].
    apply String.eqb_eq in Heq. apply in_map_iff in Hk as [e' [Hk' He']].
    apply filter_In in He' as [He' Hown'].
    assert (e = e') as -> by (apply (wf_entry_unique (producers s));
                              congruence).
    congruence.
Qed.

Lemma ScreensPartition_removal (socketId : string) (s s' : RoomState) :
  JSMap.wf (producers s) ->
  ScreensPartition config s ->
  filter isScreenEntry (producers s') =
    filter (fun e => negb (ownsScreen socketId e))
      (filter isScreenEntry (producers s)) ->
  screenProducers s' =
    filter
      (fun e =>
         negb (keyIn (map fst (filter (ownsScreen socketId) (producers s)))
                 e))
      (screenProducers s) ->
  Permutation (availablePresentationIndexes s')
    (availablePresentationIndexes s
     ++ releasedBy (MAX_SCREEN_SHARES config) (ownsScreen socketId)
          (producers s)) ->
  ScreensPartition config s'.
Proof.
  intros Hwf Hpart Hprod Hsp Hpool. split.
  - unfold heldPresentationIndexes. rewrite Hprod.
    apply partition_after_removal; try assumption.
    apply ownsScreen_isScreenEntry.
  - rewrite Hsp, Hprod, keys_filter_keyIn.
    destruct Hpart as [_ ->]. rewrite map_fst_filter_keyIn. f_equal.
    apply filter_ext_in. intros e He. apply filter_In in He as [He _].
    f_equal. now apply keyIn_of_screen_entry.
Qed.

Lemma js_or_not_screen (source : option string) :
  is_screen source = false ->
  String.eqb (js_or source "camera") "screen" = false.
Proof.
  unfold is_screen, strict_eq, js_or, truthy.
  destruct source as [src|]; [|reflexivity].
  destruct (String.eqb src EmptyString); simpl; [reflexivity|].
  exact (fun H => H).
Qed.

Lemma js_or_screen (source : option string) :
  is_screen source = true -> js_or source "camera" = "screen".
Proof.
  unfold is_screen, strict_eq. destruct source as [src|]; [|discriminate].
  intros H. apply String.eqb_eq in H. now subst.
Qed.

Lemma ScreensPartition_handle (i : Input) (s : RoomState) :
  JSMap.wf (producers s) -> freshInput i s ->
  ScreensPartition config s ->
  ScreensPartition config (fst (handle config i s)).
Proof.
  intros Hwf Hfresh H.
  destruct i as [sid|sid name|sid b|sid b|sid|sid|a req|a req]; simpl.
  - unfold onConnection. destruct (isRoomFull config s); [exact H|].
    unfold getNextUserIndex.
    destruct (acquire (availableIndexes s)) as [[i|] rest]; exact H.
  - unfold onSetName, getUserBySocketId.
    destruct (JSMap.get sid (users s)); exact H.
  - unfold onToggleVideo, getUserBySocketId.
    destruct (JSMap.get sid (users s)); exact H.
  - unfold onToggleAudio, getUserBySocketId.
    destruct (JSMap.get sid (users s)); exact H.
  - unfold onStopScreenShare. rewrite removeUserScreenShares_steps.
    pose proof (screenShareStep_fold sid (producers s) [] s) as Hfold.
    pose proof (screenShareStep_pool sid (producers s) [] s) as Hpool.
    destruct (fold_left (screenShareStep config sid) (producers s) ([], s))
      as [removed s1].
    cbv zeta in Hfold. simpl in *.
    destruct Hfold as (_ & F2 & F3 & _).
    apply (ScreensPartition_removal sid s); try assumption.
    rewrite F2, (filter_by_keys (ownsScreen sid) (producers s) Hwf).
    apply filter_comm.
  - apply (ScreensPartition_removal sid s); try assumption.
    + rewrite cleanupUser_producers,
        (filter_by_keys (ownsProducer sid) (producers s) Hwf).
      rewrite filter_comm. apply filter_ext_in. intros e He.
      apply filter_In in He as [_ He]. unfold ownsScreen, ownsProducer.
      unfold isScreenEntry in He. now rewrite He, andb_true_r.
    + rewrite cleanupUser_loops.
      match goal with |- screenProducers (closeTransports ?a ?b ?c) = _ =>
        destruct (closeTransports_frame a b c) as (_ & _ & _ & -> & _) end.
      rewrite closeProducers_screenProducers.
      now destruct (userRemoved_fields config sid s)
        as (_ & _ & _ & _ & -> & _).
    + rewrite cleanupUser_loops.
      match goal with
      | |- Permutation
             (availablePresentationIndexes (closeTransports ?a ?b ?c)) _ =>
          destruct (closeTransports_frame a b c)
            as (_ & _ & _ & _ & _ & _ & ->) end.
      rewrite closeProducers_pool.
      now destruct (userRemoved_fields config sid s)
        as (_ & _ & _ & _ & _ & ->).
  - destruct a as [tid|msg]; exact H.
  - unfold produce_after. destruct a as [pid|msg]; [|exact H].
    simpl in Hfresh. destruct H as [HP HK].
    destruct (is_screen (pr_source req)) eqn:Es.
    + unfold getNextPresentationIndex.
      destruct (acquire (availablePresentationIndexes s))
        as [[i|] rest] eqn:E; simpl.
      * apply acquire_some in E.
        assert (JSMap.get pid (screenProducers s) = None) as Hsp.
        { destruct (JSMap.get pid (screenProducers s)) eqn:G;
            [|reflexivity].
          assert (In pid (JSMap.keys (screenProducers s))) as Hin
            by (apply has_in_keys; unfold JSMap.has; now rewrite G).
          rewrite HK in Hin. apply in_map_iff in Hin as [e [<- He]].
          apply filter_In in He as [He _].
          assert (JSMap.has (fst e) (producers s) = true) as Hhas
            by (apply has_in_keys; now apply in_map).
          unfold JSMap.has in Hhas. now rewrite Hfresh in Hhas. }
        split; unfold heldPresentationIndexes; simpl.
        -- rewrite (JSMapFacts.set_absent _ _ _ Hfresh), filter_app.
           unfold isScreenEntry at 2. simpl.
           rewrite (js_or_screen _ Es). simpl. rewrite map_app. simpl.
           rewrite <- HP, E. unfold heldPresentationIndexes. simpl.
           rewrite app_assoc. rewrite <- Permutation_cons_append.
           reflexivity.
        -- rewrite (JSMapFacts.set_absent _ _ _ Hfresh),
             (JSMapFacts.set_absent _ _ _ Hsp), filter_app.
           unfold isScreenEntry at 2. simpl.
           rewrite (js_or_screen _ Es). simpl.
           unfold JSMap.keys in *. rewrite !map_app, HK. reflexivity.
      * apply acquire_none_same in E. subst rest.
        apply (ScreensPartition_ext s); try reflexivity. now split.
    + simpl. split; unfold heldPresentationIndexes; simpl;
        rewrite (JSMapFacts.set_absent _ _ _ Hfresh), filter_app;
        unfold isScreenEntry at 2; simpl;
        rewrite (js_or_not_screen _ Es); simpl; rewrite app_nil_r;
        assumption.
Qed.

Lemma freshReachable_ScreensPartition (s : RoomState) :
  freshReachable config s -> ScreensPartition config s.
Proof.
  induction 1 as [|i s Hreach IH Hfresh].
  - split; unfold heldPresentationIndexes; simpl;
      [now rewrite app_nil_r|reflexivity].
  - apply ScreensPartition_handle; [|exact Hfresh|exact IH].
    apply (reachable_MapsWf s). now apply freshReachable_reachable.
Qed.

(** *** X12 *)

(** X12.  When every connection comes with a socket id that no user of
    the room has, every index of [0 .. MAX_USERS) is either free or held
    by exactly one user, and none is both: the number of users plus the
    number of free indexes is [MAX_USERS] (0 for a bound that is not
    positive), so the two tests of the connection handler agree: the room
    is full exactly when no index is free. *)
Theorem every_user_index_is_free_or_held (s : RoomState) :
  freshReachable config s ->
  Permutation (availableIndexes s ++ userIndexes s)
    (JSArray.from_length (MAX_USERS config)) /\
  JSMap.size (users s) + Z.of_nat (List.length (availableIndexes s)) =
    Z.max 0 (MAX_USERS config) /\
  (isRoomFull config s = true <-> availableIndexes s = []).
Proof.
  intros Hreach.
  pose proof (freshReachable_UsersPartition s Hreach) as H.
  split; [exact H|].
  assert (JSMap.size (users s) + Z.of_nat (List.length (availableIndexes s))
          = Z.max 0 (MAX_USERS config)) as Hsum.
  { apply Permutation_length in H. rewrite length_app in H.
    unfold userIndexes in H. rewrite length_map in H.
    rewrite <- length_from_length. unfold JSMap.size. lia. }
  split; [exact Hsum|].
  unfold isRoomFull. rewrite Z.geb_le.
  unfold JSMap.size in *. split.
  - intros Hfull. destruct (availableIndexes s); [reflexivity|].
    simpl in Hsum. lia.
  - intros Hempty. rewrite Hempty in Hsum. simpl in Hsum.
    unfold MAX_USERS in *. lia.
Qed.

(** *** X13 *)

(** X13.  When the engine gives every producer an id that no producer of
    the directory has, every index of [0 .. MAX_SCREEN_SHARES) is either
    free or recorded with exactly one screen share of the directory, and
    [screenProducers] holds exactly the screen shares: the number of
    screen shares plus the number of free indexes is
    [MAX_SCREEN_SHARES] (0 for a bound that is not positive), so the
    number of screen shares never exceeds the limit and the two tests of
    [POST /produce] agree: the count has reached the limit exactly when
    no index is free. *)
Theorem every_presentation_index_is_free_or_held (s : RoomState) :
  freshReachable config s ->
  Permutation
    (map Some (availablePresentationIndexes s)
     ++ heldPresentationIndexes s)
    (map Some (JSArray.from_length (MAX_SCREEN_SHARES config))) /\
  JSMap.keys (screenProducers s) =
    map fst (filter isScreenEntry (producers s)) /\
  getScreenShareCount s
  + Z.of_nat (List.length (availablePresentationIndexes s)) =
    Z.max 0 (MAX_SCREEN_SHARES config) /\
  getScreenShareCount s <= Z.max 0 (MAX_SCREEN_SHARES config) /\
  (MAX_SCREEN_SHARES config <= getScreenShareCount s <->
   availablePresentationIndexes s = []).
Proof.
  intros Hreach.
  destruct (freshReachable_ScreensPartition s Hreach) as [HP HK].
  split; [exact HP|]. split; [exact HK|].
  assert (getScreenShareCount s
          + Z.of_nat (List.length (availablePresentationIndexes s))
          = Z.max 0 (MAX_SCREEN_SHARES config)) as Hsum.
  { apply Permutation_length in HP.
    rewrite length_app, !length_map in HP.
    unfold heldPresentationIndexes in HP. rewrite length_map in HP.
    apply (f_equal (@List.length string)) in HK.
    unfold JSMap.keys in HK. rewrite !length_map in HK.
    rewrite <- length_from_length.
    unfold getScreenShareCount, JSMap.size. lia. }
  split; [exact Hsum|]. split; [lia|].
  unfold getScreenShareCount, JSMap.size in *. split.
  - intros Hfull. destruct (availablePresentationIndexes s);
      [reflexivity|]. simpl in Hsum. lia.
  - intros Hempty. rewrite Hempty in Hsum. simpl in Hsum. lia.
Qed.

End WithConfig.

End ServerMore.

(** ** Instances on the server *)

Module ServerMoreScenarios.

Import Server ServerSpec ServerFacts ServerMore.

Lemma run_freshReachable (inputs : list Input) (s : RoomState) :
  freshReachable defaults s ->
  (forall k i, nth_error inputs k = Some i ->
               freshInput i (run (firstn k inputs) s)) ->
  freshReachable defaults (run inputs s).
Proof.
  revert s. induction inputs as [|i inputs IH]; intros s H Hfresh; simpl;
    [exact H|].
  apply IH.
  - constructor; [exact H|]. exact (Hfresh O i eq_refl).
  - intros k j Hk. exact (Hfresh (S k) j Hk).
Qed.

Lemma sharing_freshReachable : freshReachable defaults sharing.
Proof.
  apply run_freshReachable; [constructor|].
  intros [|[|[|[|[|k]]]]] i; simpl; intros [= <-]; simpl; reflexivity.
Qed.

Lemma users_never_exceed_the_limit_witness :
  reachable defaults fullRoom /\
  JSMap.size (users fullRoom)
  + Z.of_nat (List.length (availableIndexes fullRoom)) <= 3.
Proof.
  assert (reachable defaults fullRoom) as H
    by (apply ServerScenarios.run_reachable; constructor).
  split; [exact H|].
  apply (users_never_exceed_the_limit defaults fullRoom H).
Defined.

Lemma admission_takes_the_least_free_index_witness :
  reachable defaults oneUser /\
  onConnection defaults "b" oneUser =
    (fst (fst (onConnection defaults "b" oneUser)),
     snd (fst (onConnection defaults "b" oneUser)), true) /\
  exists i : Z,
    availableIndexes oneUser =
      i :: availableIndexes (fst (fst (onConnection defaults "b" oneUser)))
    /\ JSMap.get "b"
         (users (fst (fst (onConnection defaults "b" oneUser)))) =
       Some (mkUserState "b" "Anonymous" true true i).
Proof.
  assert (reachable defaults oneUser) as H
    by (apply ServerScenarios.run_reachable; constructor).
  split; [exact H|]. split; [reflexivity|].
  destruct (admission_takes_the_least_free_index defaults "b" oneUser _ _
              H eq_refl) as (i & H1 & _ & _ & H4 & _).
  exists i. now split.
Defined.

Lemma admission_then_disconnect_restores_the_state_witness :
  reachable defaults sharing /\
  JSMap.get "c" (users sharing) = None /\
  snd (onConnection defaults "c" sharing) = true /\
  fst (onDisconnect defaults "c"
         (fst (fst (onConnection defaults "c" sharing)))) = sharing.
Proof.
  assert (reachable defaults sharing) as H
    by (apply ServerScenarios.run_reachable; constructor).
  split; [exact H|]. split; [reflexivity|]. split; [reflexivity|].
  apply (admission_then_disconnect_restores_the_state defaults "c" sharing
           H eq_refl).
  - intros e [<-|[]]. reflexivity.
  - intros e [<-|[]]. reflexivity.
  - reflexivity.
Defined.

Lemma stop_screen_share_removes_the_socket_s_shares_witness :
  reachable defaults twoShares /\
  snd (onStopScreenShare defaults "a" twoShares) =
    [ emit to_all (presentation_ended "p1" (Some "a"));
      emit to_all (room_status 2 3 1) ] /\
  JSMap.keys (producers (fst (onStopScreenShare defaults "a" twoShares))) =
    ["p2"].
Proof.
  assert (reachable defaults twoShares) as H
    by (do 2 apply ServerScenarios.run_reachable; constructor).
  split; [exact H|].
  destruct (stop_screen_share_removes_the_socket_s_shares defaults "a"
              twoShares H) as (H1 & H2 & _).
  split; [rewrite H2|rewrite H1]; reflexivity.
Defined.

Lemma disconnect_removes_exactly_the_socket_s_entries_witness :
  reachable defaults twoShares /\
  JSMap.keys (producers (fst (onDisconnect defaults "a" twoShares))) =
    ["p2"] /\
  JSMap.keys (transports (fst (onDisconnect defaults "a" twoShares))) = [] /\
  JSMap.keys (screenProducers (fst (onDisconnect defaults "a" twoShares))) =
    ["p2"].
Proof.
  assert (reachable defaults twoShares) as H
    by (do 2 apply ServerScenarios.run_reachable; constructor).
  split; [exact H|].
  destruct (disconnect_removes_exactly_the_socket_s_entries defaults "a"
              twoShares H) as (_ & _ & H3 & H4 & H5).
  split; [rewrite H3|split; [rewrite H4|rewrite H5]]; reflexivity.
Defined.

Lemma set_name_changes_one_name_witness :
  JSMap.get "a" (users sharing) =
    Some (mkUserState "a" "Anonymous" true true 0) /\
  JSMap.get "a" (users (fst (onSetName defaults "a" "Ann" sharing))) =
    Some (mkUserState "a" "Ann" true true 0) /\
  delivered "a" (snd (onSetName defaults "a" "Ann" sharing)) =
    [room_status 2 3 1].
Proof.
  split; [reflexivity|].
  destruct (proj2 (set_name_changes_one_name defaults "a" "Ann" sharing)
              _ eq_refl) as (H1 & _ & _ & _ & _ & H6 & _).
  split; [exact H1|exact H6].
Defined.

Lemma toggles_change_one_flag_witness :
  JSMap.get "b" (users sharing) =
    Some (mkUserState "b" "Anonymous" true true 1) /\
  JSMap.get "b" (users (fst (onToggleVideo "b" false sharing))) =
    Some (mkUserState "b" "Anonymous" false true 1) /\
  delivered "a" (snd (onToggleAudio "b" false sharing)) =
    [user_audio_toggled "b" false].
Proof.
  split; [reflexivity|].
  destruct (proj2 (toggles_change_one_flag "b" false sharing) _ eq_refl)
    as (H1 & _ & _ & _ & _ & _ & _ & H8).
  split; [exact H1|]. apply (H8 "a"). discriminate.
Defined.

Lemma create_transport_refuses_only_new_senders_witness :
  createTransport_before defaults
    (mkTransportRequest (Some "d") (Some "send")) fullRoom =
    Some (RoomFull defaults) /\
  createTransport_before defaults
    (mkTransportRequest (Some "d") (Some "recv")) fullRoom = None /\
  createTransport_before defaults
    (mkTransportRequest (Some "a") (Some "send")) fullRoom = None.
Proof.
  split; [|split].
  - apply (proj2 (create_transport_refuses_only_new_senders defaults
                    (mkTransportRequest (Some "d") (Some "send")) fullRoom)
             "d" eq_refl ltac:(discriminate)).
    now repeat split.
  - apply (proj2 (create_transport_refuses_only_new_senders defaults
                    (mkTransportRequest (Some "d") (Some "recv")) fullRoom)
             "d" eq_refl ltac:(discriminate)).
    intros (H & _). discriminate H.
  - apply (proj2 (create_transport_refuses_only_new_senders defaults
                    (mkTransportRequest (Some "a") (Some "send")) fullRoom)
             "a" eq_refl ltac:(discriminate)).
    intros (_ & H & _). discriminate H.
Defined.


Lemma failed_produce_changes_nothing_witness :
  produce defaults (rejected "boom")
    (mkProduceRequest "t1" "video" (Some "a") (Some "camera")) sharing =
    (sharing, json_error 500 "boom", []) /\
  (forall id, json_error 500 "boom" <> json_id id).
Proof.
  assert (forall id, json_error 500 "boom" <> json_id id) as Hne
    by discriminate.
  destruct (failed_produce_changes_nothing defaults (rejected "boom")
              (mkProduceRequest "t1" "video" (Some "a") (Some "camera"))
              sharing _ _ _ eq_refl Hne) as (H1 & H2 & _).
  split; [reflexivity|exact Hne].
Defined.

Lemma successful_produce_registers_the_producer_witness :
  reachable defaults sharing /\
  produce defaults (resolved "p2")
    (mkProduceRequest "t1" "video" (Some "b") (Some "screen")) sharing =
    (twoShares, json_id "p2",
     snd (produce defaults (resolved "p2")
            (mkProduceRequest "t1" "video" (Some "b") (Some "screen"))
            sharing)) /\
  exists i,
    availablePresentationIndexes sharing =
      i :: availablePresentationIndexes twoShares /\
    JSMap.get "p2" (producers twoShares) =
      Some (mkProducerData (Some "b") "video" "screen" (Some i)).
Proof.
  assert (reachable defaults sharing) as H
    by (apply ServerScenarios.run_reachable; constructor).
  split; [exact H|]. split; [reflexivity|].
  destruct (successful_produce_registers_the_producer defaults
              (resolved "p2")
              (mkProduceRequest "t1" "video" (Some "b") (Some "screen"))
              sharing twoShares "p2" _ H eq_refl)
    as (_ & _ & _ & _ & _ & _ & Hscreen & _).
  destruct (Hscreen eq_refl) as (i & H1 & _ & H3 & _).
  exists i. now split.
Defined.

Lemma every_user_index_is_free_or_held_witness :
  freshReachable defaults sharing /\
  JSMap.size (users sharing)
  + Z.of_nat (List.length (availableIndexes sharing)) = 3.
Proof.
  split; [exact sharing_freshReachable|].
  apply (every_user_index_is_free_or_held defaults sharing
           sharing_freshReachable).
Defined.

Lemma every_presentation_index_is_free_or_held_witness :
  freshReachable defaults sharing /\
  getScreenShareCount sharing
  + Z.of_nat (List.length (availablePresentationIndexes sharing)) = 2.
Proof.
  split; [exact sharing_freshReachable|].
  apply (every_presentation_index_is_free_or_held defaults sharing
           sharing_freshReachable).
Defined.

End ServerMoreScenarios.

(** ** More on the client: the gesture, the pipeline and what leaves *)

Module ClientMore.

Import Client ClientRemoval ClientSpec ClientFacts.

(** *** Children that move under one parent *)

Lemma removeChild_app (k : nat) (l1 l2 : list Child) :
  removeChild k (l1 ++ l2)%list = (removeChild k l1 ++ removeChild k l2)%list.
Proof. apply filter_app. Qed.

Lemma removeChild_hit (k : nat) (v : option Wrapper) (l : list Child) :
  removeChild k ((k, v) :: l) = removeChild k l.
Proof. unfold removeChild. cbn [filter fst]. now rewrite Nat.eqb_refl. Qed.

Lemma removeChild_miss (k k' : nat) (v : option Wrapper) (l : list Child) :
  k' <> k -> removeChild k ((k', v) :: l) = (k', v) :: removeChild k l.
Proof.
  intros H. unfold removeChild. cbn [filter fst].
  now rewrite (proj2 (Nat.eqb_neq k' k) H).
Qed.

Lemma removeChild_absent (k : nat) (l : list Child) :
  ~ In k (map fst l) -> removeChild k l = l.
Proof.
  induction l as [|[k' v] l IH]; intros H; [reflexivity|].
  cbn [map fst In] in H. rewrite removeChild_miss by tauto.
  now rewrite IH by tauto.
Qed.

Lemma insert_before_hit (node : Child) (ref : nat) (v : option Wrapper)
    (l : list Child) :
  insert_before node ref ((ref, v) :: l) = node :: (ref, v) :: l.
Proof. cbn [insert_before fst]. now rewrite Nat.eqb_refl. Qed.

Lemma insert_before_miss (node : Child) (ref k : nat) (v : option Wrapper)
    (l : list Child) :
  k <> ref ->
  insert_before node ref ((k, v) :: l) = (k, v) :: insert_before node ref l.
Proof.
  intros H. cbn [insert_before fst].
  now rewrite (proj2 (Nat.eqb_neq k ref) H).
Qed.

Lemma insert_before_app (node : Child) (ref : nat) (l1 l2 : list Child) :
  ~ In ref (map fst l1) ->
  insert_before node ref (l1 ++ l2)%list =
  (l1 ++ insert_before node ref l2)%list.
Proof.
  induction l1 as [|[k v] l1 IH]; intros H; [reflexivity|].
  cbn [map fst In] in H. cbn [app].
  rewrite insert_before_miss by tauto. now rewrite IH by tauto.
Qed.

Lemma insertBefore_other (k ref : nat) (v : option Wrapper)
    (l : list Child) :
  k <> ref ->
  insertBefore (k, v) ref l = insert_before (k, v) ref (removeChild k l).
Proof.
  intros H. unfold insertBefore. cbn [fst].
  now rewrite (proj2 (Nat.eqb_neq k ref) H).
Qed.

Lemma insertBefore_itself (k : nat) (v : option Wrapper) (l : list Child) :
  insertBefore (k, v) k l = l.
Proof. unfold insertBefore. cbn [fst]. now rewrite Nat.eqb_refl. Qed.

Ltac move_children :=
  repeat first
    [ rewrite removeChild_app
    | rewrite removeChild_hit
    | rewrite removeChild_miss by congruence
    | match goal with
      | H : ~ In ?k (map fst ?l) |- context [removeChild ?k ?l] =>
          rewrite (removeChild_absent k l H)
      end
    | match goal with
      | H : ~ In ?r (map fst ?l)
        |- context [insert_before ?n ?r (?l ++ ?l2)%list] =>
          rewrite (insert_before_app n r l l2 H)
      end
    | rewrite insert_before_hit
    | rewrite insert_before_miss by congruence ].

(** The four moves of [swapVideoContainers] on children with distinct
    keys, for the two orders in which the pair can be given. *)
Lemma moves_exchange (KA KB KC : list Child) (i j t : nat)
    (x y : option Wrapper) :
  NoDup (map fst (KA ++ (i, x) :: KB ++ (j, y) :: KC)%list) ->
  ~ In t (map fst (KA ++ (i, x) :: KB ++ (j, y) :: KC)%list) ->
  let l0 := (KA ++ (i, x) :: KB ++ (j, y) :: KC)%list in
  removeChild t
    (insertBefore (i, x) t
       (insertBefore (j, y) i (insertBefore (t, None) j l0))) =
    (KA ++ (j, y) :: KB ++ (i, x) :: KC)%list /\
  removeChild t
    (insertBefore (j, y) t
       (insertBefore (i, x) j (insertBefore (t, None) i l0))) =
    (KA ++ (j, y) :: KB ++ (i, x) :: KC)%list.
Proof.
  intros Hnd Ht l0. subst l0.
  repeat (rewrite ?map_app in Hnd, Ht; cbn [map fst] in Hnd, Ht).
  pose proof (NoDup_remove_2 _ _ _ Hnd) as Hi.
  assert (Hnd' : NoDup ((map fst KA ++ i :: map fst KB)
                        ++ j :: map fst KC)%list)
    by (rewrite <- app_assoc; exact Hnd).
  pose proof (NoDup_remove_2 _ _ _ Hnd') as Hj.
  rewrite !in_app_iff in Hi, Hj, Ht. cbn [In] in Hi, Hj, Ht.
  rewrite !in_app_iff in Ht. cbn [In] in Ht.
  rewrite !in_app_iff in Hi. cbn [In] in Hi.
  rewrite !in_app_iff in Hj. cbn [In] in Hj.
  assert (HiA : ~ In i (map fst KA)) by tauto.
  assert (HiB : ~ In i (map fst KB)) by tauto.
  assert (HiC : ~ In i (map fst KC)) by tauto.
  assert (HjA : ~ In j (map fst KA)) by tauto.
  assert (HjB : ~ In j (map fst KB)) by tauto.
  assert (HjC : ~ In j (map fst KC)) by tauto.
  assert (HtA : ~ In t (map fst KA)) by tauto.
  assert (HtB : ~ In t (map fst KB)) by tauto.
  assert (HtC : ~ In t (map fst KC)) by tauto.
  assert (Hij : i <> j) by (intros E; apply Hi; right; right; now left).
  assert (Hit : i <> t) by tauto.
  assert (Hjt : j <> t) by tauto.
  assert (Hji : j <> i) by congruence.
  assert (Hti : t <> i) by congruence.
  assert (Htj : t <> j) by congruence.
  split.
  - rewrite (insertBefore_other t j) by assumption.
    move_children.
    rewrite (insertBefore_other j i) by assumption.
    move_children.
    rewrite (insertBefore_other i t) by assumption.
    move_children.
    reflexivity.
  - rewrite (insertBefore_other t i) by assumption.
    move_children.
    rewrite (insertBefore_other i j) by assumption.
    move_children.
    rewrite (insertBefore_other j t) by assumption.
    move_children.
    reflexivity.
Qed.

(** The same moves when both containers are one child. *)
Lemma moves_same (KA KC : list Child) (i t : nat) (x : option Wrapper) :
  ~ In i (map fst KA) -> ~ In i (map fst KC) ->
  ~ In t (map fst (KA ++ (i, x) :: KC)%list) ->
  removeChild t
    (insertBefore (i, x) t
       (insertBefore (i, x) i
          (insertBefore (t, None) i (KA ++ (i, x) :: KC)%list))) =
  (KA ++ (i, x) :: KC)%list.
Proof.
  intros HiA HiC Ht.
  rewrite map_app in Ht. cbn [map fst] in Ht.
  rewrite in_app_iff in Ht. cbn [In] in Ht.
  assert (HtA : ~ In t (map fst KA)) by tauto.
  assert (HtC : ~ In t (map fst KC)) by tauto.
  assert (Hit : i <> t) by tauto.
  assert (Hti : t <> i) by congruence.
  rewrite (insertBefore_other t i) by assumption.
  move_children.
  rewrite insertBefore_itself.
  rewrite (insertBefore_other i t) by assumption.
  move_children.
  reflexivity.
Qed.

Lemma keyed_cons (a : nat) (x : Wrapper) (l : list Wrapper) :
  keyed a (x :: l) = (a, Some x) :: keyed (S a) l.
Proof. reflexivity. Qed.

Lemma keyed_app (a : nat) (l1 l2 : list Wrapper) :
  keyed a (l1 ++ l2)%list =
  (keyed a l1 ++ keyed (a + List.length l1)%nat l2)%list.
Proof.
  revert a. induction l1 as [|x l1 IH]; intros a.
  - cbn [app List.length]. now rewrite Nat.add_0_r.
  - cbn [app]. rewrite !keyed_cons, IH. cbn [app List.length].
    now rewrite Nat.add_succ_r.
Qed.

Lemma keys_keyed (a : nat) (l : list Wrapper) :
  map fst (keyed a l) = seq a (List.length l).
Proof.
  revert a. induction l as [|x l IH]; intros a; [reflexivity|].
  rewrite keyed_cons. cbn [map fst List.length seq]. now rewrite IH.
Qed.

Lemma wrappersOf_app (l1 l2 : list Child) :
  wrappersOf (l1 ++ l2)%list = (wrappersOf l1 ++ wrappersOf l2)%list.
Proof. apply flat_map_app. Qed.

Lemma wrappersOf_some (k : nat) (w : Wrapper) (l : list Child) :
  wrappersOf ((k, Some w) :: l) = w :: wrappersOf l.
Proof. reflexivity. Qed.

Lemma wrappersOf_keyed (a : nat) (l : list Wrapper) :
  wrappersOf (keyed a l) = l.
Proof.
  revert a. induction l as [|x l IH]; intros a; [reflexivity|].
  now rewrite keyed_cons, wrappersOf_some, IH.
Qed.

Lemma keyed_two (A B C : list Wrapper) (x y : Wrapper) :
  keyed 0 (A ++ x :: B ++ y :: C)%list =
  (keyed 0 A
   ++ (List.length A, Some x)
      :: keyed (S (List.length A)) B
      ++ (S (List.length A + List.length B), Some y)
         :: keyed (S (S (List.length A + List.length B))) C)%list.
Proof.
  rewrite keyed_app, keyed_cons, keyed_app, keyed_cons.
  cbn [Nat.add]. reflexivity.
Qed.

Lemma nth_error_middle {A : Type} (l1 l2 : list A) (x : A) :
  nth_error (l1 ++ x :: l2)%list (List.length l1) = Some x.
Proof.
  rewrite nth_error_app2 by apply Nat.le_refl.
  now rewrite Nat.sub_diag.
Qed.

Lemma children_with_children_same (p : Parent) (l : list Wrapper)
    (doc : Document) :
  children p doc <> [] -> children p (with_children p l doc) = l.
Proof.
  intros H. rewrite children_with_children.
  destruct p; cbn [Parent_eqb]; [reflexivity|].
  cbn [children] in H. unfold presentationsContainer in H.
  now destruct (presentationsSection doc).
Qed.

Lemma children_with_children_other (p q : Parent) (l : list Wrapper)
    (doc : Document) :
  q <> p -> children q (with_children p l doc) = children q doc.
Proof.
  intros H. rewrite children_with_children.
  destruct q, p; cbn [Parent_eqb]; congruence.
Qed.

Lemma swapVideoContainers_other (p q : Parent) (i j : nat)
    (doc : Document) :
  q <> p ->
  children q (swapVideoContainers (p, i) (p, j) doc) = children q doc.
Proof.
  intros H. unfold swapVideoContainers. cbn [fst snd].
  destruct (nth_error (children p doc) i); [|reflexivity].
  destruct (nth_error (children p doc) j); [|reflexivity].
  now apply children_with_children_other.
Qed.

Lemma swapVideoContainers_exchange (p : Parent) (doc : Document)
    (A B C : list Wrapper) (x y : Wrapper) :
  children p doc = (A ++ x :: B ++ y :: C)%list ->
  children p
    (swapVideoContainers (p, List.length A)
       (p, S (List.length A + List.length B)) doc) =
    (A ++ y :: B ++ x :: C)%list /\
  children p
    (swapVideoContainers (p, S (List.length A + List.length B))
       (p, List.length A) doc) =
    (A ++ y :: B ++ x :: C)%list.
Proof.
  intros Hl.
  assert (Hne : children p doc <> [])
    by (rewrite Hl; apply not_eq_sym, app_cons_not_nil).
  assert (Hx : nth_error (children p doc) (List.length A) = Some x)
    by (rewrite Hl; apply nth_error_middle).
  assert (Hy : nth_error (children p doc)
                 (S (List.length A + List.length B)) = Some y).
  { rewrite Hl.
    replace (S (List.length A + List.length B))
      with (List.length (A ++ x :: B)%list)
      by (rewrite length_app; cbn [List.length]; lia).
    replace (A ++ x :: B ++ y :: C)%list
      with ((A ++ x :: B) ++ y :: C)%list
      by (now rewrite <- app_assoc).
    apply nth_error_middle. }
  pose proof (moves_exchange (keyed 0 A) (keyed (S (List.length A)) B)
                (keyed (S (S (List.length A + List.length B))) C)
                (List.length A) (S (List.length A + List.length B))
                (List.length (children p doc)) (Some x) (Some y)) as Hm.
  cbv zeta in Hm. rewrite <- keyed_two, <- Hl in Hm.
  assert (Hnd : NoDup (map fst (keyed 0 (children p doc))))
    by (rewrite keys_keyed; apply seq_NoDup).
  assert (Ht : ~ In (List.length (children p doc))
                 (map fst (keyed 0 (children p doc))))
    by (rewrite keys_keyed, in_seq; lia).
  destruct (Hm Hnd Ht) as [H1 H2].
  unfold swapVideoContainers. cbn [fst snd]. rewrite Hx, Hy.
  fold (keyed 0 (children p doc)).
  rewrite H1, H2, !children_with_children_same by exact Hne.
  rewrite !wrappersOf_app, !wrappersOf_some, !wrappersOf_app,
    !wrappersOf_some, !wrappersOf_keyed.
  now split.
Qed.

Lemma swapVideoContainers_same (p : Parent) (i : nat) (doc : Document) :
  children p (swapVideoContainers (p, i) (p, i) doc) = children p doc.
Proof.
  unfold swapVideoContainers. cbn [fst snd].
  destruct (nth_error (children p doc) i) as [x|] eqn:Hx; [|reflexivity].
  destruct (nth_error_split _ _ Hx) as (A & C & Hl & Hi).
  assert (Hne : children p doc <> [])
    by (rewrite Hl; apply not_eq_sym, app_cons_not_nil).
  fold (keyed 0 (children p doc)).
  assert (Hk : keyed 0 (children p doc) =
               (keyed 0 A ++ (i, Some x) :: keyed (S i) C)%list)
    by (rewrite Hl, keyed_app, keyed_cons; cbn [Nat.add]; now rewrite Hi).
  rewrite Hk, moves_same.
  - rewrite children_with_children_same by exact Hne.
    rewrite wrappersOf_app, wrappersOf_some, !wrappersOf_keyed.
    now symmetry.
  - rewrite keys_keyed, in_seq. lia.
  - rewrite keys_keyed, in_seq. lia.
  - rewrite <- Hk, keys_keyed, in_seq. lia.
Qed.

Lemma split_two {A : Type} (l : list A) (i j : nat) (x y : A) :
  (i < j)%nat -> nth_error l i = Some x -> nth_error l j = Some y ->
  exists l1 l2 l3,
    l = (l1 ++ x :: l2 ++ y :: l3)%list /\
    List.length l1 = i /\ S (List.length l1 + List.length l2) = j.
Proof.
  intros Hij Hx Hy.
  destruct (nth_error_split _ _ Hx) as (l1 & r & Hl & Hi).
  subst l. rewrite nth_error_app2 in Hy by lia.
  rewrite Hi in Hy.
  destruct (j - i)%nat as [|k] eqn:Hk; [lia|].
  cbn [nth_error] in Hy.
  destruct (nth_error_split _ _ Hy) as (l2 & l3 & Hr & Hk2).
  exists l1, l2, l3. subst r. split; [reflexivity|]. split; lia.
Qed.

Lemma swapVideoContainers_perm (p : Parent) (i j : nat) (doc : Document) :
  Permutation (children p (swapVideoContainers (p, i) (p, j) doc))
    (children p doc).
Proof.
  destruct (nth_error (children p doc) i) as [x|] eqn:Hx;
    [|unfold swapVideoContainers; cbn [fst snd]; now rewrite Hx].
  destruct (nth_error (children p doc) j) as [y|] eqn:Hy;
    [|unfold swapVideoContainers; cbn [fst snd]; now rewrite Hx, Hy].
  destruct (lt_eq_lt_dec i j) as [[Hlt|Heq]|Hgt].
  - destruct (split_two _ _ _ _ _ Hlt Hx Hy) as (A & B & C & Hl & Hi & Hj).
    destruct (swapVideoContainers_exchange p doc A B C x y Hl) as [H _].
    rewrite Hj, Hi in H. rewrite H, Hl.
    apply Permutation_app_head.
    change (Permutation ([y] ++ B ++ [x] ++ C)%list
              ([x] ++ B ++ [y] ++ C)%list).
    rewrite !app_assoc. apply Permutation_app_tail.
    rewrite (Permutation_app_comm ([y] ++ B)%list [x]).
    rewrite (Permutation_app_comm ([x] ++ B)%list [y]).
    cbn [app]. apply perm_swap.
  - subst j. now rewrite swapVideoContainers_same.
  - destruct (split_two _ _ _ _ _ Hgt Hy Hx) as (A & B & C & Hl & Hj & Hi).
    destruct (swapVideoContainers_exchange p doc A B C y x Hl) as [_ H].
    rewrite Hi, Hj in H. rewrite H, Hl.
    apply Permutation_app_head.
    change (Permutation ([x] ++ B ++ [y] ++ C)%list
              ([y] ++ B ++ [x] ++ C)%list).
    rewrite !app_assoc. apply Permutation_app_tail.
    rewrite (Permutation_app_comm ([y] ++ B)%list [x]).
    rewrite (Permutation_app_comm ([x] ++ B)%list [y]).
    cbn [app]. apply perm_swap.
Qed.

(** *** Children that move between the two parents *)

Lemma remove_nth_perm {A : Type} (l : list A) (i : nat) (w : A) :
  nth_error l i = Some w -> Permutation (w :: remove_nth i l) l.
Proof.
  revert i. induction l as [|x l IH]; intros [|i] H; try discriminate.
  - injection H as ->. reflexivity.
  - cbn [remove_nth]. cbn [nth_error] in H.
    rewrite perm_swap. now rewrite (IH _ H).
Qed.

Lemma swapCrossContainers_children (p1 p2 : Parent) (i j : nat)
    (w1 w2 : Wrapper) (doc : Document) :
  p1 <> p2 ->
  nodeAt (p1, i) doc = Some w1 -> nodeAt (p2, j) doc = Some w2 ->
  children p1 (swapCrossContainers (p1, i) (p2, j) doc) =
    (remove_nth i (children p1 doc) ++ [w2])%list /\
  children p2 (swapCrossContainers (p1, i) (p2, j) doc) =
    (remove_nth j (children p2 doc) ++ [w1])%list.
Proof.
  intros Hp H1 H2. unfold swapCrossContainers. rewrite H1, H2.
  cbn [fst snd]. unfold nodeAt in H1, H2. cbn [fst snd] in H1, H2.
  destruct doc as [peers [sec|] vs si b];
    destruct p1, p2; try congruence;
    cbn [children presentationsContainer presentationsSection
         peersContainer] in H1, H2;
    try (destruct i; discriminate); try (destruct j; discriminate);
    now split.
Qed.

Lemma cross_perm {A : Type} (r1 r2 : list A) (w1 w2 : A) :
  Permutation ((r1 ++ [w2]) ++ r2 ++ [w1])%list
    ((w1 :: r1) ++ w2 :: r2)%list.
Proof.
  symmetry. rewrite app_assoc. cbn [app].
  apply Permutation_cons_app. rewrite app_nil_r, <- app_assoc.
  reflexivity.
Qed.

Lemma length_remove_nth {A : Type} (l : list A) (i : nat) (w v : A) :
  nth_error l i = Some w ->
  List.length (remove_nth i l ++ [v])%list = List.length l.
Proof.
  intros H. rewrite <- (Permutation_length (remove_nth_perm l i w H)).
  rewrite length_app. cbn [List.length]. lia.
Qed.

Lemma Parent_eqb_eq (a b : Parent) : Parent_eqb a b = true <-> a = b.
Proof. destruct a, b; cbn; split; congruence. Qed.

(** The two ways of moving keep the wrappers of the page and the number
    of children of each container. *)
Lemma swapVideoContainers_slots (n1 n2 : Node) (doc : Document) :
  fst n1 = fst n2 ->
  Permutation (videoWrappers (swapVideoContainers n1 n2 doc))
    (videoWrappers doc) /\
  forall p,
    List.length (children p (swapVideoContainers n1 n2 doc)) =
    List.length (children p doc).
Proof.
  destruct n1 as [p i], n2 as [q j]. cbn [fst]. intros ->.
  pose proof (swapVideoContainers_perm q i j doc) as Hp.
  split.
  - rewrite !videoWrappers_children.
    destruct q.
    + rewrite (swapVideoContainers_other in_peers in_presentations)
        by discriminate.
      now apply Permutation_app_tail.
    + rewrite (swapVideoContainers_other in_presentations in_peers)
        by discriminate.
      now apply Permutation_app_head.
  - intros p. destruct p, q;
      try apply (Permutation_length Hp);
      now rewrite swapVideoContainers_other by discriminate.
Qed.

Lemma swapCrossContainers_slots (n1 n2 : Node) (doc : Document) :
  fst n1 <> fst n2 ->
  Permutation (videoWrappers (swapCrossContainers n1 n2 doc))
    (videoWrappers doc) /\
  forall p,
    List.length (children p (swapCrossContainers n1 n2 doc)) =
    List.length (children p doc).
Proof.
  destruct n1 as [p1 i], n2 as [p2 j]. cbn [fst]. intros Hp.
  destruct (nodeAt (p1, i) doc) as [w1|] eqn:H1;
    [|unfold swapCrossContainers; rewrite H1; now split].
  destruct (nodeAt (p2, j) doc) as [w2|] eqn:H2;
    [|unfold swapCrossContainers; rewrite H1, H2; now split].
  destruct (swapCrossContainers_children p1 p2 i j w1 w2 doc Hp H1 H2)
    as [E1 E2].
  unfold nodeAt in H1, H2. cbn [fst snd] in H1, H2.
  split.
  - rewrite !videoWrappers_children.
    destruct p1, p2; try congruence; rewrite E1, E2.
    + rewrite cross_perm.
      apply Permutation_app; now apply remove_nth_perm.
    + rewrite cross_perm.
      apply Permutation_app; now apply remove_nth_perm.
  - intros p.
    destruct p, p1, p2; try congruence; rewrite ?E1, ?E2;
      eapply length_remove_nth; eassumption.
Qed.

(** *** What the gesture leaves *)

Lemma cancelSwap_wrappers (c : VideoConference) :
  videoWrappers (document (cancelSwap c)) =
  map plain (videoWrappers (document c)).
Proof.
  now rewrite !videoWrappers_children, !cancelSwap_children, map_app.
Qed.

Lemma cancelSwap_idle (c : VideoConference) : idle (cancelSwap c).
Proof.
  unfold idle.
  split; [reflexivity|]. split; [reflexivity|]. split; [reflexivity|].
  split.
  - rewrite cancelSwap_wrappers. apply Forall_map, Forall_forall.
    now intros w _.
  - destruct c as [sid cs ct us ps mi pp pq dr sm ss st
                   [peers [sec|] vs si b]];
      now split.
Qed.

Lemma performSwap_idle (c : VideoConference) : idle (performSwap c).
Proof.
  unfold performSwap.
  change completeSwap with cancelSwap.
  repeat match goal with
         | |- idle (cancelSwap _) => apply cancelSwap_idle
         | |- idle (match ?x with _ => _ end) => destruct x
         | |- idle (if ?x then _ else _) => destruct x
         end.
Qed.

Lemma performSwap_slots (c : VideoConference) :
  Permutation (videoWrappers (document (performSwap c)))
    (map plain (videoWrappers (document c))) /\
  forall p,
    List.length (children p (document (performSwap c))) =
    List.length (children p (document c)).
Proof.
  assert (Hcancel : forall x,
             Permutation (videoWrappers (document (cancelSwap x)))
               (map plain (videoWrappers (document x))) /\
             forall p,
               List.length (children p (document (cancelSwap x))) =
               List.length (children p (document x))).
  { intros x. split.
    - now rewrite cancelSwap_wrappers.
    - intros p. now rewrite cancelSwap_children, length_map. }
  unfold performSwap. change completeSwap with cancelSwap.
  destruct (swapSource c) as [source|]; [|apply Hcancel].
  destruct (swapTarget c) as [target|]; [|apply Hcancel].
  destruct (String.eqb (sel_id source) (sel_id target)); [apply Hcancel|].
  destruct (findVideoContainerByScreen (sel_screen source) (document c))
    as [n1|]; [|apply Hcancel].
  destruct (findVideoContainerByScreen (sel_screen target) (document c))
    as [n2|]; [|apply Hcancel].
  match goal with
  | |- context [with_document ?d c] =>
      assert (Hd : Permutation (videoWrappers d) (videoWrappers (document c))
                   /\ forall p,
                        List.length (children p d) =
                        List.length (children p (document c)))
  end.
  { destruct (Parent_eqb (fst n1) (fst n2)) eqn:Hp.
    - apply swapVideoContainers_slots. now apply Parent_eqb_eq.
    - apply swapCrossContainers_slots. intros E.
      apply Parent_eqb_eq in E. congruence. }
  destruct Hd as [Hperm Hlen].
  match goal with
  | |- context [cancelSwap ?x] => destruct (Hcancel x) as [H1 H2]
  end.
  split.
  - rewrite H1. apply Permutation_map. exact Hperm.
  - intros p. rewrite H2. apply Hlen.
Qed.

Lemma find_index_map {A : Type} (f : A -> bool) (l : list A) :
  find_index f l = find_index (fun b : bool => b) (map f l).
Proof.
  induction l as [|x l IH]; [reflexivity|].
  cbn [find_index map]. now rewrite IH.
Qed.

Lemma firstWrapper_ext (f : Wrapper -> bool) (doc doc' : Document) :
  (forall p, map f (children p doc') = map f (children p doc)) ->
  firstWrapper f doc' = firstWrapper f doc.
Proof.
  intros H. unfold firstWrapper.
  rewrite (find_index_map f (peersContainer doc')),
    (find_index_map f (presentationsContainer doc')),
    (find_index_map f (peersContainer doc)),
    (find_index_map f (presentationsContainer doc)).
  pose proof (H in_peers) as Hpeers.
  pose proof (H in_presentations) as Hpres.
  cbn [children] in Hpeers, Hpres. now rewrite Hpeers, Hpres.
Qed.

Lemma find_after_highlightSwapTarget (s screenId : string)
    (doc : Document) :
  findVideoContainerByScreen s (highlightSwapTarget screenId doc) =
  findVideoContainerByScreen s doc.
Proof.
  apply firstWrapper_ext.
  intros p. unfold highlightSwapTarget.
  destruct (findVideoContainerByScreen screenId doc); [|reflexivity].
  now apply children_updateNode.
Qed.

(** *** X14 *)

(** X14.  [swapVideoContainers] on two children of one container, with
    any children before, between and after them, puts each of the two
    in the place of the other and leaves the rest where it is, in
    whichever order the two are given; the other container keeps its
    children. *)
Theorem swap_in_one_container_exchanges_the_two_slots (p : Parent)
    (doc : Document) (A B C : list Wrapper) (x y : Wrapper) :
  children p doc = (A ++ x :: B ++ y :: C)%list ->
  let first := (p, List.length A) in
  let second := (p, S (List.length A + List.length B)) in
  children p (swapVideoContainers first second doc) =
    (A ++ y :: B ++ x :: C)%list /\
  children p (swapVideoContainers second first doc) =
    (A ++ y :: B ++ x :: C)%list /\
  forall q, q <> p ->
    children q (swapVideoContainers first second doc) = children q doc /\
    children q (swapVideoContainers second first doc) = children q doc.
Proof.
  intros Hl first second.
  destruct (swapVideoContainers_exchange p doc A B C x y Hl) as [H1 H2].
  split; [exact H1|]. split; [exact H2|].
  intros q Hq. split; now apply swapVideoContainers_other.
Qed.

(** *** X15 *)

(** X15.  [swapCrossContainers] on a child of one container and a child
    of the other takes each out of its place and appends it as the last
    child of the other's container: the two do not take each other's
    position. *)
Theorem swap_across_containers_appends (p1 p2 : Parent) (i j : nat)
    (w1 w2 : Wrapper) (doc : Document) :
  p1 <> p2 ->
  nodeAt (p1, i) doc = Some w1 -> nodeAt (p2, j) doc = Some w2 ->
  children p1 (swapCrossContainers (p1, i) (p2, j) doc) =
    (remove_nth i (children p1 doc) ++ [w2])%list /\
  children p2 (swapCrossContainers (p1, i) (p2, j) doc) =
    (remove_nth j (children p2 doc) ++ [w1])%list.
Proof. apply swapCrossContainers_children. Qed.

(** *** X16 *)

(** X16.  Once a source is selected, any further selection ends the
    gesture: the engine is idle and the page carries no mark of it,
    whatever was selected and whether or not a swap took place; the page
    then holds the wrappers it held, without the marks, in some order,
    and each container as many as before. *)
Theorem a_second_selection_ends_the_gesture_and_keeps_every_slot
    (c : VideoConference) (source : Selection)
    (sourceId screenId : string) :
  swapSource c = Some source ->
  let c' := selectForSwap sourceId screenId c in
  idle c' /\
  Permutation (videoWrappers (document c'))
    (map plain (videoWrappers (document c))) /\
  forall p,
    List.length (children p (document c')) =
    List.length (children p (document c)).
Proof.
  intros Hs c'. subst c'. unfold selectForSwap. rewrite Hs.
  split; [apply performSwap_idle|].
  match goal with
  | |- context [performSwap ?x] => destruct (performSwap_slots x) as [H1 H2]
  end.
  cbn [document with_document with_swap] in H1, H2.
  split.
  - rewrite H1.
    rewrite !videoWrappers_children, !map_app,
      !plain_highlightSwapTarget.
    reflexivity.
  - intros p. rewrite H2.
    rewrite <- (length_map plain), plain_highlightSwapTarget.
    apply length_map.
Qed.

(** *** X17 *)

(** X17.  When the wrapper of the source or of the target is not in the
    page, the second selection is cancelled: no wrapper moves, each only
    loses the marks of the gesture, and the engine is idle. *)
Theorem swap_with_a_missing_wrapper_moves_nothing (c : VideoConference)
    (source : Selection) (sourceId screenId : string) :
  swapSource c = Some source ->
  findVideoContainerByScreen (sel_screen source) (document c) = None \/
  findVideoContainerByScreen screenId (document c) = None ->
  let c' := selectForSwap sourceId screenId c in
  (forall p,
     children p (document c') = map plain (children p (document c))) /\
  idle c'.
Proof.
  intros Hs Hmiss c'. subst c'. unfold selectForSwap. rewrite Hs.
  split; [|apply performSwap_idle].
  intros p. unfold performSwap.
  cbn [swapSource swapTarget with_document with_swap document sel_id
       sel_screen].
  rewrite !find_after_highlightSwapTarget.
  assert (Hc : forall x,
             document x = highlightSwapTarget screenId (document c) ->
             children p (document (cancelSwap x)) =
             map plain (children p (document c))).
  { intros x Hx.
    now rewrite cancelSwap_children, Hx, plain_highlightSwapTarget. }
  destruct (String.eqb (sel_id source) sourceId); [now apply Hc|].
  destruct Hmiss as [H|H]; rewrite H.
  - now apply Hc.
  - destruct (findVideoContainerByScreen (sel_screen source) (document c));
      now apply Hc.
Qed.

(** *** The replicator once the device is ready *)

(** *** X18 *)


(** *** One slot for the camera and the microphone of a user *)

Lemma find_index_nth {A : Type} (f : A -> bool) (l : list A) (i : nat) :
  find_index f l = Some i ->
  exists x, nth_error l i = Some x /\ f x = true.
Proof.
  revert i. induction l as [|x l IH]; intros i H; [discriminate|].
  cbn [find_index] in H. destruct (f x) eqn:Hf.
  - injection H as <-. now exists x.
  - destruct (find_index f l) as [k|]; [|discriminate].
    injection H as <-. destruct (IH k eq_refl) as (y & Hy & Hfy).
    now exists y.
Qed.

Lemma find_index_append {A : Type} (f : A -> bool) (l : list A) (x : A) :
  find_index f l = None -> f x = true ->
  find_index f (l ++ [x])%list = Some (List.length l).
Proof.
  intros Hn Hx. induction l as [|y l IH].
  - cbn. now rewrite Hx.
  - cbn [find_index app List.length] in Hn |- *.
    destruct (f y); [discriminate|].
    destruct (find_index f l); [discriminate|].
    now rewrite IH.
Qed.

Lemma firstWrapper_nodeAt (f : Wrapper -> bool) (doc : Document)
    (n : Node) :
  firstWrapper f doc = Some n ->
  exists w, nodeAt n doc = Some w /\ f w = true.
Proof.
  unfold firstWrapper, nodeAt.
  destruct (find_index f (peersContainer doc)) as [i|] eqn:Hi.
  - intros [= <-]. now apply find_index_nth.
  - destruct (find_index f (presentationsContainer doc)) as [i|] eqn:Hj;
      [|discriminate].
    intros [= <-]. now apply find_index_nth.
Qed.


Lemma nth_error_update_nth {A : Type} (f : A -> A) (l : list A) (i : nat)
    (x : A) :
  nth_error l i = Some x -> nth_error (update_nth i f l) i = Some (f x).
Proof.
  revert i. induction l as [|y l IH]; intros [|i] H; try discriminate.
  - now injection H as ->.
  - cbn [update_nth nth_error] in H |- *. now apply IH.
Qed.

Lemma nodeAt_updateNode (n : Node) (f : Wrapper -> Wrapper)
    (doc : Document) (w : Wrapper) :
  nodeAt n doc = Some w -> nodeAt n (updateNode n f doc) = Some (f w).
Proof.
  unfold nodeAt, updateNode. intros H.
  rewrite children_with_children_same.
  - now apply nth_error_update_nth.
  - intros E. rewrite E in H. now destruct (snd n).
Qed.





(** *** X19 *)


(** *** Wrappers that leave the page *)

Lemma perm_filter_length {A : Type} (f : A -> bool) (l l' : list A) :
  Permutation l l' -> List.length (filter f l) = List.length (filter f l').
Proof.
  induction 1 as [|x l l' _ IH|x y l|l l' l'' _ IH1 _ IH2].
  - reflexivity.
  - cbn [filter]. destruct (f x); cbn [List.length]; congruence.
  - cbn [filter]. destruct (f x), (f y); reflexivity.
  - congruence.
Qed.

Lemma countId_perm (id : string) (doc doc' : Document) :
  Permutation (videoWrappers doc) (videoWrappers doc') ->
  countId id doc = countId id doc'.
Proof.
  intros H. unfold countId, wrapperIds.
  now apply perm_filter_length, Permutation_map.
Qed.

Lemma removeNode_children (n : Node) (doc : Document) (w : Wrapper) :
  nodeAt n doc = Some w ->
  children (fst n) (removeNode n doc) =
    remove_nth (snd n) (children (fst n) doc) /\
  forall q, q <> fst n -> children q (removeNode n doc) = children q doc.
Proof.
  unfold nodeAt, removeNode. intros H. split.
  - apply children_with_children_same. intros E. rewrite E in H.
    now destruct (snd n).
  - intros q Hq. now apply children_with_children_other.
Qed.

Lemma removeNode_wrappers (n : Node) (doc : Document) (w : Wrapper) :
  nodeAt n doc = Some w ->
  Permutation (w :: videoWrappers (removeNode n doc)) (videoWrappers doc).
Proof.
  intros H. destruct (removeNode_children n doc w H) as [H1 H2].
  unfold nodeAt in H. rewrite !videoWrappers_children.
  destruct n as [[|] i]; cbn [fst snd] in H, H1, H2.
  - rewrite H1, (H2 in_presentations) by discriminate.
    apply (Permutation_app_tail _ (remove_nth_perm _ _ _ H)).
  - rewrite H1, (H2 in_peers) by discriminate.
    rewrite Permutation_middle.
    apply Permutation_app_head, (remove_nth_perm _ _ _ H).
Qed.

Lemma countId_removeNode (id : string) (n : Node) (doc : Document) :
  getElementById id doc = Some n ->
  countId id (removeNode n doc) = pred (countId id doc) /\
  forall id', id' <> id ->
    countId id' (removeNode n doc) = countId id' doc.
Proof.
  intros Hn. destruct (firstWrapper_nodeAt _ _ _ Hn) as (w & Hw & Hid).
  apply String.eqb_eq in Hid.
  pose proof (removeNode_wrappers n doc w Hw) as Hp.
  assert (Hc : forall k,
             List.length
               (filter (String.eqb k)
                  (map w_id (w :: videoWrappers (removeNode n doc)))) =
             countId k doc)
    by (intros k; unfold countId, wrapperIds;
        now apply perm_filter_length, Permutation_map).
  split.
  - rewrite <- (Hc id). cbn [map filter]. rewrite Hid, String.eqb_refl.
    reflexivity.
  - intros id' Hne. rewrite <- (Hc id'). cbn [map filter]. rewrite Hid.
    now rewrite (proj2 (String.eqb_neq id' id) Hne).
Qed.

Lemma countId_cancelSwap (id : string) (c : VideoConference) :
  countId id (document (cancelSwap c)) = countId id (document c).
Proof.
  unfold countId, wrapperIds. rewrite cancelSwap_wrappers, map_map.
  reflexivity.
Qed.

Lemma videoWrappers_hideEmptyPresentationsSection (doc : Document) :
  videoWrappers (hideEmptyPresentationsSection doc) = videoWrappers doc.
Proof.
  unfold hideEmptyPresentationsSection, videoWrappers,
    presentationsContainer.
  destruct (presentationsSection doc) as [sec|] eqn:E; [|now rewrite E].
  destruct (ps_children sec) eqn:Ec; [|now rewrite E, Ec].
  reflexivity.
Qed.

(** The document after the statements of [removePresentation] and
    [removeUser] that remove the wrapper with the id [id]. *)
Lemma countId_removed (id : string) (c : VideoConference) :
  let c' :=
    match getElementById id (document c) with
    | Some element => with_document (removeNode element (document c)) c
    | None => c
    end in
  forall k,
    countId k (document c') =
    if String.eqb k id then pred (countId k (document c))
    else countId k (document c).
Proof.
  intros c' k. subst c'.
  destruct (getElementById id (document c)) as [n|] eqn:Hn.
  - destruct (countId_removeNode id n (document c) Hn) as [H1 H2].
    cbn [document with_document].
    destruct (String.eqb k id) eqn:E.
    + apply String.eqb_eq in E. now subst k.
    + apply H2. now apply String.eqb_neq.
  - destruct (String.eqb k id) eqn:E; [|reflexivity].
    apply String.eqb_eq in E. subst k.
    now rewrite (getElementById_none id (document c) Hn).
Qed.

Lemma removePresentation_counts (producerId : string)
    (c : VideoConference) (k : string) :
  countId k (document (removePresentation producerId c)) =
  if String.eqb k ("presentation-" ++ producerId)
  then pred (countId k (document c))
  else countId k (document c).
Proof.
  unfold removePresentation. cbv zeta.
  generalize ("presentation-" ++ producerId) as id. intros id.
  set (c1 := if selected (swapSource c) id then cancelSwap c else c).
  set (c2 := if selected (swapTarget c1) id then cancelSwap c1 else c1).
  assert (H2 : forall x, countId x (document c2) = countId x (document c)).
  { intros x. subst c2 c1.
    destruct (selected (swapSource c) id);
      match goal with
      | |- context [if ?b then _ else _] => destruct b
      end;
      now rewrite ?countId_cancelSwap. }
  pose proof (countId_removed id c2 k) as H3. cbv zeta in H3.
  set (c3 := match getElementById id (document c2) with
             | Some presentationElement =>
                 with_document
                   (removeNode presentationElement (document c2)) c2
             | None => c2
             end) in *.
  rewrite !H2 in H3. rewrite <- H3.
  destruct (JSMap.get producerId (consumers c3));
    cbn [document with_document with_presentations with_consumers];
    unfold countId, wrapperIds;
    now rewrite videoWrappers_hideEmptyPresentationsSection.
Qed.

Lemma removePresentation_fields (producerId : string)
    (c : VideoConference) :
  let c' := removePresentation producerId c in
  consumers c' = JSMap.delete producerId (consumers c) /\
  presentations c' = JSMap.delete producerId (presentations c) /\
  consumerTransports c' = consumerTransports c /\
  userStates c' = userStates c /\
  pendingProducers c' = pendingProducers c /\
  pendingPresentations c' = pendingPresentations c /\
  deviceReady c' = deviceReady c /\
  socket_id c' = socket_id c.
Proof.
  unfold removePresentation. cbv zeta.
  generalize ("presentation-" ++ producerId) as id. intros id.
  set (c1 := if selected (swapSource c) id then cancelSwap c else c).
  set (c2 := if selected (swapTarget c1) id then cancelSwap c1 else c1).
  assert (H2 : consumers c2 = consumers c /\
               presentations c2 = presentations c /\
               consumerTransports c2 = consumerTransports c /\
               userStates c2 = userStates c /\
               pendingProducers c2 = pendingProducers c /\
               pendingPresentations c2 = pendingPresentations c /\
               deviceReady c2 = deviceReady c /\
               socket_id c2 = socket_id c).
  { subst c2 c1.
    destruct (selected (swapSource c) id);
      match goal with
      | |- context [if ?b then _ else _] => destruct b
      end;
      now split. }
  destruct H2 as (E1 & E2 & E3 & E4 & E5 & E6 & E7 & E8).
  rewrite <- E1, <- E2, <- E3, <- E4, <- E5, <- E6, <- E7, <- E8.
  destruct (getElementById id (document c2));
    cbn [consumers presentations consumerTransports userStates
         pendingProducers pendingPresentations deviceReady socket_id
         with_document];
    (destruct (JSMap.get producerId (consumers c2)) eqn:Hg;
     [|rewrite (JSMapFacts.delete_absent _ _ Hg)]; now split).
Qed.

Lemma removePresentation_cancelled (producerId : string)
    (c : VideoConference) :
  selected (swapSource c) ("presentation-" ++ producerId) = true \/
  selected (swapTarget c) ("presentation-" ++ producerId) = true ->
  removePresentation producerId c =
  removePresentation producerId (cancelSwap c).
Proof.
  unfold removePresentation. cbv zeta.
  generalize ("presentation-" ++ producerId) as id. intros id H.
  assert (Hs : swapSource (cancelSwap c) = None) by reflexivity.
  assert (Ht : swapTarget (cancelSwap c) = None) by reflexivity.
  rewrite Hs. cbn [selected]. rewrite Ht. cbn [selected].
  destruct (selected (swapSource c) id).
  - rewrite Ht. reflexivity.
  - destruct H as [H|H]; [discriminate|]. now rewrite H.
Qed.

Lemma with_children_displays (p : Parent) (l : list Wrapper)
    (doc : Document) :
  videoSwitcher_display (with_children p l doc) = videoSwitcher_display doc
  /\ swapInstructions_display (with_children p l doc) =
     swapInstructions_display doc /\
  body_swap_mode (with_children p l doc) = body_swap_mode doc.
Proof.
  destruct p; cbn [with_children]; [now split|].
  now destruct (presentationsSection doc).
Qed.

Lemma hideEmptyPresentationsSection_displays (doc : Document) :
  videoSwitcher_display (hideEmptyPresentationsSection doc) =
    videoSwitcher_display doc /\
  swapInstructions_display (hideEmptyPresentationsSection doc) =
    swapInstructions_display doc /\
  body_swap_mode (hideEmptyPresentationsSection doc) = body_swap_mode doc.
Proof.
  unfold hideEmptyPresentationsSection.
  destruct (presentationsSection doc) as [sec|]; [|now split].
  now destruct (ps_children sec).
Qed.

Lemma hideEmptyPresentationsSection_hidden (doc : Document)
    (sec : PresentationsSection) :
  presentationsSection (hideEmptyPresentationsSection doc) = Some sec ->
  ps_children sec = [] -> ps_display sec = "none".
Proof.
  unfold hideEmptyPresentationsSection.
  destruct (presentationsSection doc) as [sec0|] eqn:E;
    [|rewrite E; discriminate].
  destruct (ps_children sec0) eqn:Ec.
  - cbn [presentationsSection]. now intros [= <-].
  - rewrite E. intros [= <-] H. congruence.
Qed.

(** The steps of [removePresentation] and [removeUser] after the checks
    of the selection keep an idle engine idle. *)
Lemma removed_idle (id : string) (c : VideoConference) :
  idle c ->
  idle match getElementById id (document c) with
       | Some element => with_document (removeNode element (document c)) c
       | None => c
       end.
Proof.
  intros H. destruct (getElementById id (document c)) as [n|] eqn:Hn;
    [|exact H].
  destruct H as (H1 & H2 & H3 & H4 & H5 & H6).
  destruct (firstWrapper_nodeAt _ _ _ Hn) as (w & Hw & _).
  destruct (with_children_displays (fst n)
              (remove_nth (snd n) (children (fst n) (document c)))
              (document c)) as (_ & D2 & D3).
  unfold idle. cbn [swapSource swapTarget isSwapMode document with_document].
  split; [exact H1|]. split; [exact H2|]. split; [exact H3|].
  split; [|split].
  - apply (Permutation_Forall (Permutation_sym
             (removeNode_wrappers n (document c) w Hw))) in H4.
    now inversion H4.
  - unfold removeNode. now rewrite D2.
  - unfold removeNode. now rewrite D3.
Qed.

Lemma removePresentation_keeps_idle (producerId : string)
    (c : VideoConference) :
  idle c -> idle (removePresentation producerId c).
Proof.
  intros H. pose proof H as (H1 & H2 & _).
  unfold removePresentation. cbv zeta.
  generalize ("presentation-" ++ producerId) as id. intros id.
  rewrite H1. cbn [selected]. rewrite H2. cbn [selected].
  pose proof (removed_idle id c H) as H3.
  set (c3 := match getElementById id (document c) with
             | Some presentationElement =>
                 with_document (removeNode presentationElement (document c))
                   c
             | None => c
             end) in *.
  destruct H3 as (I1 & I2 & I3 & I4 & I5 & I6).
  destruct (hideEmptyPresentationsSection_displays (document c3))
    as (_ & D2 & D3).
  unfold idle.
  destruct (JSMap.get producerId (consumers c3));
    cbn [swapSource swapTarget isSwapMode document with_document
         with_presentations with_consumers];
    rewrite videoWrappers_hideEmptyPresentationsSection, D2, D3;
    now split.
Qed.

(** *** X21 *)

(** X21.  [presentation-ended] for a producer id removes the entries of
    the id from [consumers] and [presentations] and one wrapper with the
    presentation's semantic id from the page, and nothing else: the other
    entries, the other wrappers, the user mirror and [consumerTransports]
    (which keeps the entry of the closed transport) are as before.  If
    the presentation was the source or the target of a gesture, the
    gesture is cancelled; a presentations section left without a child
    is hidden. *)
Theorem presentation_ended_removes_the_presentation (producerId : string)
    (c : VideoConference) :
  let c' := removePresentation producerId c in
  let slot := "presentation-" ++ producerId in
  JSMap.get producerId (consumers c') = None /\
  JSMap.get producerId (presentations c') = None /\
  (forall k, k <> producerId ->
     JSMap.get k (consumers c') = JSMap.get k (consumers c) /\
     JSMap.get k (presentations c') = JSMap.get k (presentations c)) /\
  consumerTransports c' = consumerTransports c /\
  userStates c' = userStates c /\
  countId slot (document c') = pred (countId slot (document c)) /\
  (forall id, id <> slot ->
     countId id (document c') = countId id (document c)) /\
  (selected (swapSource c) slot = true \/
   selected (swapTarget c) slot = true -> idle c') /\
  (forall sec,
     presentationsSection (document c') = Some sec ->
     ps_children sec = [] -> ps_display sec = "none").
Proof.
  intros c' slot. subst c' slot.
  destruct (removePresentation_fields producerId c)
    as (F1 & F2 & F3 & F4 & _).
  cbv zeta in F1, F2, F3, F4. rewrite F1, F2, F3, F4.
  split; [apply JSMapFacts.get_delete_same|].
  split; [apply JSMapFacts.get_delete_same|].
  split.
  { intros k Hk. split; now apply ServerMore.get_delete_other. }
  split; [reflexivity|]. split; [reflexivity|].
  split.
  { rewrite removePresentation_counts. now rewrite String.eqb_refl. }
  split.
  { intros id Hid. rewrite removePresentation_counts.
    now rewrite (proj2 (String.eqb_neq _ _) Hid). }
  split.
  { intros H. rewrite (removePresentation_cancelled producerId c H).
    apply removePresentation_keeps_idle, cancelSwap_idle. }
  intros sec. unfold removePresentation. cbv zeta.
  cbn [document with_document].
  apply hideEmptyPresentationsSection_hidden.
Qed.

(** *** A presentation that comes and goes *)

Lemma consumed_presentation_fields (transportId consumer : string)
    (attached : bool) (data : Descriptor) (c : VideoConference) :
  passes data true c = true ->
  let c' := consumePresentation
              (consumer_created transportId consumer attached) data c in
  presentations c' =
    JSMap.set (d_id data)
      (mkPresentationRecord (d_socketId data) (d_peerName data)
         (d_presentationIndex data))
      (presentations c) /\
  userStates c' = userStates c /\
  swapSource c' = swapSource c /\ swapTarget c' = swapTarget c.
Proof.
  unfold passes, consumePresentation, consumeProducer. intros H.
  apply andb_prop in H as [H1 H2].
  apply negb_true_iff in H1, H2. rewrite H1, H2.
  now split.
Qed.

Lemma update_nth_last {A : Type} (f : A -> A) (l : list A) (x : A) :
  update_nth (List.length l) f (l ++ [x])%list = (l ++ [f x])%list.
Proof.
  induction l as [|y l IH]; [reflexivity|].
  cbn [List.length app update_nth]. now rewrite IH.
Qed.

Lemma remove_nth_last {A : Type} (l : list A) (x : A) :
  remove_nth (List.length l) (l ++ [x])%list = l.
Proof.
  induction l as [|y l IH]; [reflexivity|].
  cbn [List.length app remove_nth]. now rewrite IH.
Qed.

Lemma children_showPresentationsSection (p : Parent) (doc : Document) :
  children p (showPresentationsSection doc) = children p doc.
Proof.
  unfold showPresentationsSection.
  destruct (presentationsSection doc) as [sec|] eqn:E; [|reflexivity].
  destruct p; cbn [children peersContainer]; [reflexivity|].
  unfold presentationsContainer. cbn [presentationsSection ps_children].
  now rewrite E.
Qed.

(** The wrapper that [createPresentationElement] makes for a
    presentation that has none is the last child of
    [#presentationsContainer]. *)
Lemma createPresentationElement_new (producerId consumer kind : string)
    (peerName : string) (presentationIndex : option Z) (attached : bool)
    (doc : Document) :
  getElementById ("presentation-" ++ producerId) doc = None ->
  let doc' :=
    createPresentationElement producerId consumer kind peerName
      presentationIndex attached doc in
  exists w,
    w_id w = "presentation-" ++ producerId /\
    children in_presentations doc' =
      (presentationsContainer doc ++ [w])%list /\
    children in_peers doc' = peersContainer doc.
Proof.
  unfold createPresentationElement. cbv zeta.
  generalize ("presentation-" ++ producerId) as id. intros id Hn.
  rewrite Hn.
  set (doc1 := match presentationsSection doc with
               | Some _ => doc
               | None => createPresentationsContainer doc
               end).
  assert (H1 : presentationsSection doc1 <> None /\
               presentationsContainer doc1 = presentationsContainer doc /\
               peersContainer doc1 = peersContainer doc).
  { subst doc1. unfold presentationsContainer.
    destruct (presentationsSection doc) eqn:E.
    - rewrite E. now split.
    - cbn. now split. }
  destruct H1 as (Hsec & Hpres & Hpeers).
  set (w0 := newWrapper id (peerName ++ "'s Screen")
               ("pr" ++ show_index presentationIndex)).
  set (doc2 := with_children in_presentations
                 (presentationsContainer doc1 ++ [w0])%list doc1).
  assert (H2 : children in_presentations (showPresentationsSection doc2) =
               (presentationsContainer doc ++ [w0])%list /\
               children in_peers (showPresentationsSection doc2) =
               peersContainer doc).
  { rewrite !children_showPresentationsSection. subst doc2.
    rewrite !children_with_children. cbn [Parent_eqb].
    destruct (presentationsSection doc1); [|congruence].
    rewrite Hpres. now split. }
  destruct H2 as (C1 & C2).
  assert (Hupd : forall f,
             (forall w, w_id (f w) = w_id w) ->
             exists w,
               w_id w = id /\
               children in_presentations
                 (updateNode
                    (in_presentations,
                     List.length (presentationsContainer doc1)) f
                    (showPresentationsSection doc2)) =
               (presentationsContainer doc ++ [w])%list /\
               children in_peers
                 (updateNode
                    (in_presentations,
                     List.length (presentationsContainer doc1)) f
                    (showPresentationsSection doc2)) =
               peersContainer doc).
  { intros f Hf. exists (f w0). split; [now rewrite Hf|].
    unfold updateNode. cbn [fst snd]. split.
    - rewrite children_with_children_same
        by (rewrite C1; apply not_eq_sym, app_cons_not_nil).
      rewrite C1, Hpres. apply update_nth_last.
    - rewrite children_with_children_other by discriminate. exact C2. }
  unfold setupMediaElement.
  destruct attached; [|now exists w0].
  destruct (String.eqb kind "video"); [now apply Hupd|].
  destruct (String.eqb kind "audio"); [now apply Hupd|].
  now exists w0.
Qed.

Lemma getElementById_last (id : string) (doc doc' : Document)
    (w : Wrapper) :
  getElementById id doc = None ->
  w_id w = id ->
  children in_presentations doc' =
    (presentationsContainer doc ++ [w])%list ->
  children in_peers doc' = peersContainer doc ->
  getElementById id doc' =
  Some (in_presentations, List.length (presentationsContainer doc)).
Proof.
  unfold getElementById, firstWrapper. cbn [children].
  intros Hn Hw Hpres Hpeers. rewrite Hpeers, Hpres.
  destruct (find_index (fun w0 => String.eqb (w_id w0) id)
              (peersContainer doc)); [discriminate|].
  destruct (find_index (fun w0 => String.eqb (w_id w0) id)
              (presentationsContainer doc)) eqn:E; [discriminate|].
  rewrite (find_index_append _ _ w E); [reflexivity|].
  rewrite Hw. apply String.eqb_refl.
Qed.

Lemma countId_zero (id : string) (doc : Document) :
  countId id doc = O -> getElementById id doc = None.
Proof.
  intros H. destruct (getElementById id doc) as [n|] eqn:E; [|reflexivity].
  apply getElementById_some in E. lia.
Qed.

(** *** X22 *)

(** X22.  A presentation that is consumed and then ended leaves the
    client as it was before it came: [consumers], [presentations], the
    user mirror and the wrappers of the page are those of before, in the
    same order.  Only [consumerTransports] differs: it keeps the entry of
    the receive transport made for the presentation. *)
Theorem a_presentation_that_came_and_went_leaves_its_transport
    (transportId consumer : string) (attached : bool) (data : Descriptor)
    (c : VideoConference) :
  passes data true c = true ->
  countId (slotId data true) (document c) = O ->
  JSMap.get (d_id data) (presentations c) = None ->
  selected (swapSource c) (slotId data true) = false ->
  selected (swapTarget c) (slotId data true) = false ->
  let c' :=
    removePresentation (d_id data)
      (consumePresentation (consumer_created transportId consumer attached)
         data c) in
  consumers c' = consumers c /\
  presentations c' = presentations c /\
  userStates c' = userStates c /\
  videoWrappers (document c') = videoWrappers (document c) /\
  consumerTransports c' =
    JSMap.set transportId transportId (consumerTransports c).
Proof.
  intros Hpass Hcount Hpres Hs Ht c'. subst c'.
  set (c1 := consumePresentation
               (consumer_created transportId consumer attached) data c).
  destruct (removePresentation_fields (d_id data) c1)
    as (F1 & F2 & F3 & F4 & _).
  cbv zeta in F1, F2, F3, F4.
  destruct (consumed_fields transportId consumer attached data true c Hpass)
    as (G1 & G2 & G3).
  destruct (consumed_presentation_fields transportId consumer attached data
              c Hpass) as (G4 & G5 & G6 & G7).
  cbv zeta in G1, G2, G3, G4, G5, G6, G7.
  fold (consumePresentation
          (consumer_created transportId consumer attached) data c)
    in G1, G2, G3.
  fold c1 in G1, G2, G3, G4, G5, G6, G7.
  assert (Hget : JSMap.get (d_id data) (consumers c) = None).
  { unfold passes in Hpass. apply andb_prop in Hpass as [_ H].
    apply negb_true_iff in H. unfold JSMap.has in H.
    now destruct (JSMap.get (d_id data) (consumers c)). }
  split; [now rewrite F1, G1, ServerMore.delete_set_absent|].
  split; [now rewrite F2, G4, ServerMore.delete_set_absent|].
  split; [now rewrite F4, G5|].
  split; [|now rewrite F3, G2].
  unfold slotId in Hcount, Hs, Ht.
  pose proof (countId_zero _ _ Hcount) as Hnone.
  destruct (createPresentationElement_new (d_id data) consumer (d_kind data)
              (d_peerName data) (d_presentationIndex data) attached
              (document c) Hnone) as (w & Hw & C1 & C2).
  rewrite <- G3 in C1, C2.
  pose proof (getElementById_last _ (document c) (document c1) w Hnone Hw
                C1 C2) as Hfound.
  unfold removePresentation. cbv zeta.
  rewrite G6, Hs. rewrite G7, Ht. rewrite Hfound.
  assert (Hw1 : nodeAt (in_presentations,
                        List.length (presentationsContainer (document c)))
                  (document c1) = Some w)
    by (unfold nodeAt; cbn [fst snd]; rewrite C1; apply nth_error_middle).
  destruct (removeNode_children _ _ _ Hw1) as [R1 R2].
  cbn [fst snd] in R1, R2. rewrite C1, remove_nth_last in R1.
  specialize (R2 in_peers ltac:(discriminate)). rewrite C2 in R2.
  match goal with
  | |- context [JSMap.get ?k ?m] => destruct (JSMap.get k m)
  end;
    cbn [document with_document with_presentations with_consumers];
    rewrite videoWrappers_hideEmptyPresentationsSection,
      videoWrappers_children, R1, R2;
    reflexivity.
Qed.

(** *** A user that leaves *)

Lemma filter_delete_keyIn {V : Type} (k : string) (ks : list string)
    (m : JSMap.t V) :
  filter (fun e => negb (ServerSpec.keyIn ks e)) (JSMap.delete k m) =
  filter (fun e => negb (ServerSpec.keyIn (k :: ks) e)) m.
Proof.
  unfold JSMap.delete. rewrite ServerFacts.filter_filter.
  apply filter_ext. intros e. unfold ServerSpec.keyIn. cbn [existsb].
  rewrite negb_orb. now rewrite (String.eqb_sym k (fst e)).
Qed.

Lemma removePresentation_fold
    (test : string * PresentationRecord -> bool)
    (l : JSMap.t PresentationRecord) (c : VideoConference) :
  let c' :=
    fold_left
      (fun acc e => if test e then removePresentation (fst e) acc else acc)
      l c in
  let ks := map fst (filter test l) in
  presentations c' =
    filter (fun e => negb (ServerSpec.keyIn ks e)) (presentations c) /\
  consumers c' =
    filter (fun e => negb (ServerSpec.keyIn ks e)) (consumers c) /\
  consumerTransports c' = consumerTransports c /\
  userStates c' = userStates c /\
  (forall id, (countId id (document c') <= countId id (document c))%nat) /\
  (forall k, In k ks ->
     (countId ("presentation-" ++ k) (document c')
      <= pred (countId ("presentation-" ++ k) (document c)))%nat) /\
  (forall id, (forall k, In k ks -> id <> "presentation-" ++ k) ->
     countId id (document c') = countId id (document c)).
Proof.
  revert c. induction l as [|e l IH]; intros c.
  - cbn [fold_left filter map].
    rewrite !ServerFacts.filter_all by reflexivity.
    split; [reflexivity|]. split; [reflexivity|]. split; [reflexivity|].
    split; [reflexivity|]. split; [intros; lia|].
    split; [intros k []|reflexivity].
  - cbn [fold_left filter]. destruct (test e) eqn:Ht.
    + specialize (IH (removePresentation (fst e) c)).
      cbv zeta in IH. destruct IH as (I1 & I2 & I3 & I4 & I5 & I6 & I7).
      destruct (removePresentation_fields (fst e) c)
        as (F1 & F2 & F3 & F4 & _).
      cbv zeta in F1, F2, F3, F4.
      pose proof (removePresentation_counts (fst e) c) as Hc.
      assert (Hle : forall id,
                 (countId id (document (removePresentation (fst e) c))
                  <= countId id (document c))%nat).
      { intros id. rewrite Hc.
        destruct (String.eqb id ("presentation-" ++ fst e)); lia. }
      cbv zeta. cbn [map].
      rewrite I1, I2, I3, I4, F1, F2, F3, F4, !filter_delete_keyIn.
      split; [reflexivity|]. split; [reflexivity|]. split; [reflexivity|].
      split; [reflexivity|].
      split; [intros id; specialize (I5 id); specialize (Hle id); lia|].
      split.
      * intros k [<-|Hk].
        -- specialize (I5 ("presentation-" ++ fst e)).
           rewrite Hc, String.eqb_refl in I5. exact I5.
        -- specialize (I6 k Hk).
           specialize (Hle ("presentation-" ++ k)). lia.
      * intros id Hid. rewrite I7.
        -- rewrite Hc.
           rewrite (proj2 (String.eqb_neq id ("presentation-" ++ fst e)));
             [reflexivity|].
           apply Hid. now left.
        -- intros k Hk. apply Hid. now right.
    + apply IH.
Qed.

Lemma delete_fold (test : string * ConsumerData -> bool)
    (l : JSMap.t ConsumerData) (c : VideoConference) :
  fold_left
    (fun acc e =>
       if test e
       then with_consumers (JSMap.delete (fst e) (consumers acc)) acc
       else acc)
    l c =
  with_consumers
    (filter (fun e => negb (ServerSpec.keyIn (map fst (filter test l)) e))
       (consumers c))
    c.
Proof.
  revert c. induction l as [|e l IH]; intros c.
  - cbn [fold_left filter map].
    rewrite ServerFacts.filter_all by reflexivity.
    now destruct c.
  - cbn [fold_left filter]. destruct (test e).
    + rewrite IH. cbn [map consumers with_consumers].
      now rewrite filter_delete_keyIn.
    + apply IH.
Qed.

Lemma not_keyIn_own {V : Type} (own : string * V -> bool)
    (m : JSMap.t V) (e : string * V) :
  In e m ->
  ServerSpec.keyIn (map fst (filter own m)) e = false -> own e = false.
Proof.
  intros He Hk. destruct (own e) eqn:Ho; [|reflexivity].
  unfold ServerSpec.keyIn in Hk.
  assert (existsb (String.eqb (fst e)) (map fst (filter own m)) = true)
    as Hx; [|congruence].
  apply existsb_exists. exists (fst e). split; [|apply String.eqb_refl].
  apply in_map, filter_In. now split.
Qed.

Lemma removeUser_cancelled (socketId : string) (c : VideoConference) :
  selected (swapSource c) ("user-" ++ socketId) = true \/
  selected (swapTarget c) ("user-" ++ socketId) = true ->
  removeUser socketId c = removeUser socketId (cancelSwap c).
Proof.
  unfold removeUser. cbv zeta.
  generalize ("user-" ++ socketId) as id. intros id H.
  assert (Hs : swapSource (cancelSwap c) = None) by reflexivity.
  assert (Ht : swapTarget (cancelSwap c) = None) by reflexivity.
  rewrite Hs. cbn [selected]. rewrite Ht. cbn [selected].
  destruct (selected (swapSource c) id).
  - rewrite Ht. reflexivity.
  - destruct H as [H|H]; [discriminate|]. now rewrite H.
Qed.

(** What [removeUser] leaves, field by field; [c3] is the state after
    the wrapper of the user left the page. *)
Lemma removeUser_fields (socketId : string) (c : VideoConference) :
  let c' := removeUser socketId c in
  let ownP := fun e : string * PresentationRecord =>
                strict_eq (pres_socketId (snd e)) socketId in
  let ownC := fun e : string * ConsumerData =>
                strict_eq (c_socketId (snd e)) socketId in
  let ks := map fst (filter ownP (presentations c)) in
  let rest := filter (fun e => negb (ServerSpec.keyIn ks e)) (consumers c) in
  userStates c' = JSMap.delete socketId (userStates c) /\
  presentations c' =
    filter (fun e => negb (ServerSpec.keyIn ks e)) (presentations c) /\
  consumers c' =
    filter
      (fun e => negb (ServerSpec.keyIn (map fst (filter ownC rest)) e))
      rest /\
  consumerTransports c' = consumerTransports c /\
  (forall id, (countId id (document c') <= countId id (document c))%nat) /\
  (countId ("user-" ++ socketId) (document c')
   <= pred (countId ("user-" ++ socketId) (document c)))%nat /\
  (forall k, In k ks ->
     (countId ("presentation-" ++ k) (document c')
      <= pred (countId ("presentation-" ++ k) (document c)))%nat) /\
  (forall id, id <> "user-" ++ socketId ->
     (forall k, In k ks -> id <> "presentation-" ++ k) ->
     countId id (document c') = countId id (document c)).
Proof.
  unfold removeUser. cbv zeta.
  generalize ("user-" ++ socketId) as id. intros id.
  set (c1 := if selected (swapSource c) id then cancelSwap c else c).
  set (c2 := if selected (swapTarget c1) id then cancelSwap c1 else c1).
  assert (H2 : consumers c2 = consumers c /\
               presentations c2 = presentations c /\
               consumerTransports c2 = consumerTransports c /\
               userStates c2 = userStates c /\
               forall x, countId x (document c2) = countId x (document c)).
  { subst c2 c1.
    destruct (selected (swapSource c) id);
      match goal with
      | |- context [if ?b then _ else _] => destruct b
      end;
      (split; [reflexivity|]; split; [reflexivity|]; split; [reflexivity|];
       split; [reflexivity|]; intros x; now rewrite ?countId_cancelSwap). }
  destruct H2 as (E1 & E2 & E3 & E4 & E5).
  pose proof (countId_removed id c2) as H3. cbv zeta in H3.
  set (c3 := match getElementById id (document c2) with
             | Some userVideo =>
                 with_document (removeNode userVideo (document c2)) c2
             | None => c2
             end) in *.
  assert (G : consumers c3 = consumers c /\
              presentations c3 = presentations c /\
              consumerTransports c3 = consumerTransports c /\
              userStates c3 = userStates c).
  { subst c3. destruct (getElementById id (document c2)); now split. }
  destruct G as (G1 & G2 & G3 & G4).
  unfold removeUserPresentations, JSMap.forEach.
  pose proof (removePresentation_fold
                (fun e => strict_eq (pres_socketId (snd e)) socketId)
                (presentations c3) c3) as H4.
  cbv zeta in H4.
  set (c4 := fold_left _ (presentations c3) c3) in *.
  destruct H4 as (P1 & P2 & P3 & P4 & P5 & P6 & P7).
  rewrite (delete_fold
             (fun e => strict_eq (c_socketId (snd e)) socketId)
             (consumers c4) c4).
  cbn [userStates presentations consumers consumerTransports document
       with_userStates with_consumers].
  rewrite P1, P2, P3, P4, G1, G2, G3, G4.
  split; [reflexivity|]. split; [reflexivity|]. split; [reflexivity|].
  split; [reflexivity|].
  rewrite G2 in P6, P7.
  split; [|split; [|split]].
  - intros x. specialize (P5 x). specialize (H3 x). rewrite E5 in H3.
    destruct (String.eqb x id); lia.
  - specialize (P5 id). specialize (H3 id).
    rewrite E5, String.eqb_refl in H3. lia.
  - intros k Hk. specialize (P6 k Hk).
    specialize (H3 ("presentation-" ++ k)). rewrite E5 in H3.
    destruct (String.eqb ("presentation-" ++ k) id); lia.
  - intros x Hx Hks. rewrite (P7 x Hks), H3, E5.
    now rewrite (proj2 (String.eqb_neq x id) Hx).
Qed.

Lemma removeUser_keeps_idle (socketId : string) (c : VideoConference) :
  idle c -> idle (removeUser socketId c).
Proof.
  intros H. pose proof H as (H1 & H2 & _).
  unfold removeUser. cbv zeta.
  generalize ("user-" ++ socketId) as id. intros id.
  rewrite H1. cbn [selected]. rewrite H2. cbn [selected].
  pose proof (removed_idle id c H) as H3.
  set (c3 := match getElementById id (document c) with
             | Some userVideo =>
                 with_document (removeNode userVideo (document c)) c
             | None => c
             end) in *.
  assert (H4 : idle (removeUserPresentations socketId c3)).
  { unfold removeUserPresentations, JSMap.forEach.
    apply ServerFacts.fold_left_preserves; [|exact H3].
    intros x e _ Hx.
    destruct (strict_eq (pres_socketId (snd e)) socketId); [|exact Hx].
    now apply removePresentation_keeps_idle. }
  unfold JSMap.forEach.
  rewrite (delete_fold (fun e => strict_eq (c_socketId (snd e)) socketId)).
  exact H4.
Qed.

(** *** X23 *)

(** X23.  [user-left] for a socket removes everything the client holds of
    that user: its entry of the user mirror, every consumer and every
    presentation recorded under the socket, the wrapper of the user and
    the wrappers of those presentations.  Nothing is added, the entries
    of the mirror under other sockets and the wrappers with other ids
    stay, and [consumerTransports] is left as it is.  A gesture that had
    the user's wrapper as its source or target is cancelled. *)
Theorem user_left_removes_everything_of_the_user (socketId : string)
    (c : VideoConference) :
  let c' := removeUser socketId c in
  let ownP := fun e : string * PresentationRecord =>
                strict_eq (pres_socketId (snd e)) socketId in
  JSMap.get socketId (userStates c') = None /\
  (forall k, k <> socketId ->
     JSMap.get k (userStates c') = JSMap.get k (userStates c)) /\
  (forall e, In e (consumers c') ->
     In e (consumers c) /\ strict_eq (c_socketId (snd e)) socketId = false)
  /\
  (forall e, In e (presentations c') ->
     In e (presentations c) /\ ownP e = false) /\
  (JSMap.wf (presentations c) ->
   presentations c' = filter (fun e => negb (ownP e)) (presentations c)) /\
  consumerTransports c' = consumerTransports c /\
  (forall id, (countId id (document c') <= countId id (document c))%nat) /\
  ((forall id, (countId id (document c) <= 1)%nat) ->
   countId ("user-" ++ socketId) (document c') = O /\
   forall e, In e (presentations c) -> ownP e = true ->
     countId ("presentation-" ++ fst e) (document c') = O) /\
  (forall id, id <> "user-" ++ socketId ->
     (forall e, In e (presentations c) -> ownP e = true ->
        id <> "presentation-" ++ fst e) ->
     countId id (document c') = countId id (document c)) /\
  (selected (swapSource c) ("user-" ++ socketId) = true \/
   selected (swapTarget c) ("user-" ++ socketId) = true -> idle c').
Proof.
  intros c' ownP.
  destruct (removeUser_fields socketId c)
    as (F1 & F2 & F3 & F4 & F5 & F6 & F7 & F8).
  cbv zeta in F1, F2, F3, F4, F5, F6, F7, F8.
  fold c' in F1, F2, F3, F4, F5, F6, F7, F8.
  fold ownP in F2, F3, F7, F8.
  assert (Hks : forall e, In e (presentations c) -> ownP e = true ->
                  In (fst e) (map fst (filter ownP (presentations c))))
    by (intros e He Ho; apply in_map, filter_In; now split).
  split; [rewrite F1; apply JSMapFacts.get_delete_same|].
  split; [intros k Hk; rewrite F1; now apply ServerMore.get_delete_other|].
  split.
  { intros e He. rewrite F3 in He.
    apply filter_In in He as [He Hk]. apply negb_true_iff in Hk.
    split; [now apply filter_In in He|].
    exact (not_keyIn_own _ _ e He Hk). }
  split.
  { intros e He. rewrite F2 in He.
    apply filter_In in He as [He Hk]. apply negb_true_iff in Hk.
    split; [exact He|]. exact (not_keyIn_own _ _ e He Hk). }
  split; [intros Hwf; rewrite F2; now apply ServerMore.filter_by_keys|].
  split; [exact F4|]. split; [exact F5|].
  split.
  { intros Huniq. split.
    - pose proof (Huniq ("user-" ++ socketId)). lia.
    - intros e He Ho. specialize (F7 _ (Hks e He Ho)).
      pose proof (Huniq ("presentation-" ++ fst e)). lia. }
  split.
  { intros id Hid Hp. apply F8; [exact Hid|].
    intros k Hk. apply in_map_iff in Hk as (e & <- & He).
    apply filter_In in He as [He Ho]. now apply Hp. }
  intros H. subst c'. rewrite (removeUser_cancelled socketId c H).
  apply removeUser_keeps_idle, cancelSwap_idle.
Qed.

(** *** The loss of the connection *)

(** *** X24 *)

(** X24.  [handleDisconnect] resets the client: the four maps and the two
    queues are empty (the receive transports that earlier calls left in
    [consumerTransports] go here), the device is not ready, the engine
    of the gesture is idle, the presentations section is gone and the
    page keeps one wrapper: the first child of [#peersContainer],
    whichever wrapper that is.  A second reset changes nothing, and the
    creation messages that follow are buffered again. *)
Theorem disconnect_resets_the_client (c : VideoConference) :
  let c' := handleDisconnect c in
  handleDisconnect c' = c' /\
  idle c' /\
  videoWrappers (document c') =
    map plain (firstn 1 (peersContainer (document c))) /\
  presentationsSection (document c') = None /\
  videoSwitcher_display (document c') = "none" /\
  consumers c' = [] /\ consumerTransports c' = [] /\
  userStates c' = [] /\ presentations c' = [] /\
  (forall messages answers k,
     snd (receive messages answers k c') = [] /\
     pendingProducers (fst (receive messages answers k c')) =
       producerArrivals messages /\
     pendingPresentations (fst (receive messages answers k c')) =
       presentationArrivals messages).
Proof.
  intros c'. subst c'.
  destruct c as [sid cs ct us ps mi pp pq dr sm ss st
                 [peers sec vs si b]].
  split; [now destruct peers|].
  split.
  { unfold idle.
    split; [reflexivity|]. split; [reflexivity|]. split; [reflexivity|].
    split; [|now split].
    destruct peers as [|w peers]; [constructor|].
    constructor; [reflexivity|constructor]. }
  split; [now destruct peers|].
  split; [reflexivity|]. split; [reflexivity|].
  split; [reflexivity|]. split; [reflexivity|].
  split; [reflexivity|]. split; [reflexivity|].
  intros messages answers k.
  match goal with
  | |- context [receive messages answers k ?x] =>
      destruct (receive_buffers messages answers k x eq_refl)
        as (R1 & R2 & R3 & _)
  end.
  now split.
Qed.

(** *** Ids of wrappers along the handlers *)










(** *** X20 *)


End ClientMore.

(** ** From the server's removals to the clients *)

Module RemovalFacts.

Import Server ServerSpec Client ClientRemoval ClientSpec ClientFacts.

Lemma get_filter_keyIn {V : Type} (ks : list string) (k : string)
    (m : JSMap.t V) :
  JSMap.get k (filter (fun e => negb (keyIn ks e)) m) =
  if existsb (String.eqb k) ks then None else JSMap.get k m.
Proof.
  induction m as [|[k' v] m IH]; [now destruct (existsb _ ks)|].
  cbn [filter]. unfold keyIn at 1. cbn [fst].
  destruct (String.eqb k k') eqn:E.
  - apply String.eqb_eq in E. subst k'.
    destruct (existsb (String.eqb k) ks) eqn:Ek; cbn [negb].
    + exact IH.
    + cbn [JSMap.get]. now rewrite String.eqb_refl.
  - destruct (existsb (String.eqb k') ks); cbn [negb JSMap.get];
      rewrite E; exact IH.
Qed.

(** The client after a sequence of [presentation-ended] messages. *)
Lemma afterRemovals_presentations (ks : list string)
    (c : VideoConference) :
  let c' := afterRemovals (map presentation_gone ks) c in
  presentations c' =
    filter (fun e => negb (keyIn ks e)) (presentations c) /\
  consumers c' = filter (fun e => negb (keyIn ks e)) (consumers c) /\
  consumerTransports c' = consumerTransports c /\
  userStates c' = userStates c /\
  (forall id, (countId id (document c') <= countId id (document c))%nat) /\
  (forall k, In k ks ->
     (countId ("presentation-" ++ k) (document c')
      <= pred (countId ("presentation-" ++ k) (document c)))%nat).
Proof.
  pose proof (ClientMore.removePresentation_fold (fun _ => true)
                (map (fun k => (k, mkPresentationRecord None EmptyString
                                     None)) ks) c) as H.
  cbv zeta in H.
  assert (Hks : map fst
                  (filter (fun _ => true)
                     (map (fun k => (k, mkPresentationRecord None
                                          EmptyString None)) ks)) = ks).
  { rewrite ServerFacts.filter_all by reflexivity.
    rewrite map_map. cbn [fst]. apply map_id. }
  rewrite Hks in H.
  assert (Hfold : fold_left
                    (fun acc (e : string * PresentationRecord) =>
                       if true then removePresentation (fst e) acc else acc)
                    (map (fun k => (k, mkPresentationRecord None
                                         EmptyString None)) ks) c =
                  afterRemovals (map presentation_gone ks) c).
  { unfold afterRemovals. clear. revert c.
    induction ks as [|k ks IH]; intros c; [reflexivity|].
    cbn [map fold_left fst onRemoval]. apply IH. }
  rewrite Hfold in H.
  destruct H as (H1 & H2 & H3 & H4 & H5 & H6 & _).
  cbv zeta. now split.
Qed.

Section WithConfig.

Variable config : Config.

Lemma onStopScreenShare_sent (socketId : string) (s : RoomState) :
  snd (onStopScreenShare config socketId s) =
  (map (fun k => emit to_all (presentation_ended k (Some socketId)))
     (map fst (filter (ownsScreen socketId) (producers s)))
   ++ [emit to_all
         (roomStatus config (fst (onStopScreenShare config socketId s)))])
  %list.
Proof.
  unfold onStopScreenShare.
  rewrite ServerMore.removeUserScreenShares_steps.
  pose proof (ServerMore.screenShareStep_fold config socketId (producers s)
                [] s) as H.
  destruct (fold_left (screenShareStep config socketId) (producers s)
              ([], s)) as [removed s1].
  cbv zeta in H. cbn [fst snd app] in H |- *.
  destruct H as (H & _). now rewrite H.
Qed.

Lemma removals_of_ended (who socketId : string) (ks : list string)
    (rest : Event) :
  removalOf rest = None ->
  removals
    (delivered who
       (map (fun k => emit to_all (presentation_ended k (Some socketId))) ks
        ++ [emit to_all rest])%list) =
  map presentation_gone ks.
Proof.
  intros Hrest. unfold removals, delivered. rewrite !flat_map_app.
  cbn [flat_map receives app]. rewrite Hrest, app_nil_r.
  induction ks as [|k ks IH]; [reflexivity|].
  cbn [map flat_map receives app removalOf]. now rewrite IH.
Qed.

(** *** X25 *)

(** X25.  What [stop-screen-share] sends reaches every connected client
    as one [presentation-ended] per screen share that the server removed,
    and a client that handles them holds none of those presentations
    afterwards: no consumer, no record and, when the wrappers of its page
    had distinct ids, no wrapper.  What the client holds under other
    producer ids, and its user mirror, are untouched. *)
Theorem stopped_screen_shares_leave_every_client (socketId who : string)
    (s : RoomState) (c : VideoConference) :
  let sent := snd (onStopScreenShare config socketId s) in
  let stopped := map fst (filter (ownsScreen socketId) (producers s)) in
  let c' := afterRemovals (removals (delivered who sent)) c in
  removals (delivered who sent) = map presentation_gone stopped /\
  (forall k, In k stopped ->
     JSMap.get k (consumers c') = None /\
     JSMap.get k (presentations c') = None /\
     (uniqueIds (document c) ->
      countId ("presentation-" ++ k) (document c') = O)) /\
  (forall k, ~ In k stopped ->
     JSMap.get k (consumers c') = JSMap.get k (consumers c) /\
     JSMap.get k (presentations c') = JSMap.get k (presentations c)) /\
  userStates c' = userStates c.
Proof.
  intros sent stopped c'. subst sent c'.
  rewrite onStopScreenShare_sent. fold stopped.
  rewrite removals_of_ended by reflexivity.
  destruct (afterRemovals_presentations stopped c)
    as (H1 & H2 & _ & H4 & _ & H6).
  cbv zeta in H1, H2, H4, H6.
  split; [reflexivity|].
  split; [|split; [|exact H4]].
  - intros k Hk.
    assert (Hx : existsb (String.eqb k) stopped = true)
      by (apply existsb_exists; exists k; split;
          [exact Hk|apply String.eqb_refl]).
    rewrite H1, H2, !get_filter_keyIn, Hx.
    split; [reflexivity|]. split; [reflexivity|].
    intros Hu. specialize (H6 k Hk).
    pose proof (Hu ("presentation-" ++ k)). lia.
  - intros k Hk.
    assert (Hx : existsb (String.eqb k) stopped = false).
    { destruct (existsb (String.eqb k) stopped) eqn:E; [|reflexivity].
      apply existsb_exists in E as (x & Hx & E).
      apply String.eqb_eq in E. now subst x. }
    now rewrite H1, H2, !get_filter_keyIn, Hx.
Qed.

(** *** X26 *)

(** X26.  What the [disconnect] of a socket sends reaches every other
    client as one [user-left] and no [presentation-ended]; a client that
    handles it holds nothing of the socket afterwards: no entry of the
    user mirror, no consumer and no presentation recorded under the
    socket, and, when the wrappers of its page had distinct ids, neither
    the wrapper of the user nor the wrapper of any such presentation.
    The presentations of a user who disconnects thus leave the other
    clients with [user-left]. *)
Theorem a_disconnected_user_leaves_every_other_client
    (socketId who : string) (s : RoomState) (c : VideoConference) :
  who <> socketId ->
  let sent := snd (onDisconnect config socketId s) in
  let c' := afterRemovals (removals (delivered who sent)) c in
  let ownP := fun e : string * PresentationRecord =>
                strict_eq (pres_socketId (snd e)) socketId in
  removals (delivered who sent) = [user_gone socketId] /\
  JSMap.get socketId (userStates c') = None /\
  (forall e, In e (consumers c') ->
     strict_eq (c_socketId (snd e)) socketId = false) /\
  (forall e, In e (presentations c') -> ownP e = false) /\
  (uniqueIds (document c) ->
   countId ("user-" ++ socketId) (document c') = O /\
   forall e, In e (presentations c) -> ownP e = true ->
     countId ("presentation-" ++ fst e) (document c') = O).
Proof.
  intros Hwho sent c' ownP. subst sent c'.
  rewrite ServerFacts.onDisconnect_sent.
  assert (Hr : removals
                 (delivered who
                    [emit (to_all_except socketId) (user_left socketId);
                     emit to_all
                       (roomStatus config
                          (cleanupUser config socketId s))]) =
               [user_gone socketId]).
  { unfold removals, delivered.
    cbn [flat_map receives app].
    rewrite (proj2 (String.eqb_neq who socketId) Hwho). reflexivity. }
  rewrite Hr. split; [reflexivity|].
  unfold afterRemovals. cbn [fold_left onRemoval].
  destruct (ClientMore.removeUser_fields socketId c)
    as (F1 & F2 & F3 & _ & _ & F6 & F7 & _).
  cbv zeta in F1, F2, F3, F6, F7.
  split; [rewrite F1; apply JSMapFacts.get_delete_same|].
  split.
  { intros e He. rewrite F3 in He.
    apply filter_In in He as [He Hk]. apply negb_true_iff in Hk.
    exact (ClientMore.not_keyIn_own _ _ e He Hk). }
  split.
  { intros e He. rewrite F2 in He.
    apply filter_In in He as [He Hk]. apply negb_true_iff in Hk.
    exact (ClientMore.not_keyIn_own _ _ e He Hk). }
  intros Hu. split.
  - pose proof (Hu ("user-" ++ socketId)). lia.
  - intros e He Ho.
    assert (Hk : In (fst e)
                   (map fst
                      (filter
                         (fun e0 : string * PresentationRecord =>
                            strict_eq (pres_socketId (snd e0)) socketId)
                         (presentations c))))
      by (apply in_map, filter_In; now split).
    specialize (F7 _ Hk).
    pose proof (Hu ("presentation-" ++ fst e)). lia.
Qed.

End WithConfig.

End RemovalFacts.

(** ** From the admission to the client's first picture of the room *)

Module SnapshotFacts.

Import Server ServerSpec Client ClientSpec ClientFacts.






Section WithConfig.

Variable config : Config.

(** *** X27 *)


End WithConfig.

End SnapshotFacts.

(** ** Scenarios for the gesture, the pipeline and the removals *)

Module ClientMoreScenarios.

Import Server ServerSpec Client ClientRemoval ClientSpec ClientFacts
  ClientMore RemovalFacts.

Lemma constructed_uniqueIds : uniqueIds (document constructed).
Proof.
  intros id. unfold countId. cbn.
  destruct (String.eqb id EmptyString); cbn; lia.
Qed.

Lemma gallery_uniqueIds : uniqueIds (document gallery).
Proof.
  unfold gallery, watching.
  do 3 (intros id; apply consumeProducer_unique; clear id).
  exact constructed_uniqueIds.
Qed.

Lemma swap_in_one_container_exchanges_the_two_slots_witness :
  map w_id (children in_peers (document gallery)) =
    [EmptyString; "user-a"; "user-b"] /\
  map w_id
    (children in_peers
       (swapVideoContainers (in_peers, 1%nat) (in_peers, 2%nat)
          (document gallery))) =
    [EmptyString; "user-b"; "user-a"].
Proof.
  split; [reflexivity|].
  destruct (swap_in_one_container_exchanges_the_two_slots in_peers
              (document gallery)
              [nth 0 (peersContainer (document gallery)) localWrapper] [] []
              (nth 1 (peersContainer (document gallery)) localWrapper)
              (nth 2 (peersContainer (document gallery)) localWrapper)
              eq_refl) as (H & _).
  exact (f_equal (map w_id) H).
Defined.

Lemma swap_across_containers_appends_witness :
  map w_id (videoWrappers (document gallery)) =
    [EmptyString; "user-a"; "user-b"; "presentation-p3"] /\
  map w_id
    (children in_peers
       (swapCrossContainers (in_peers, 1%nat) (in_presentations, 0%nat)
          (document gallery))) =
    [EmptyString; "user-b"; "presentation-p3"] /\
  map w_id
    (children in_presentations
       (swapCrossContainers (in_peers, 1%nat) (in_presentations, 0%nat)
          (document gallery))) =
    ["user-a"].
Proof.
  split; [reflexivity|].
  destruct (swap_across_containers_appends in_peers in_presentations
              1%nat 0%nat
              (nth 1 (peersContainer (document gallery)) localWrapper)
              (nth 0 (presentationsContainer (document gallery))
                 localWrapper)
              (document gallery) ltac:(discriminate) eq_refl eq_refl)
    as (H1 & H2).
  split; [exact (f_equal (map w_id) H1)|exact (f_equal (map w_id) H2)].
Defined.

Lemma a_second_selection_ends_the_gesture_and_keeps_every_slot_witness :
  swapSource (selectForSwap "local" "scr0" gallery) =
    Some (mkSelection "local" "scr0") /\
  idle (selectForSwap "user-b" "scr2"
          (selectForSwap "local" "scr0" gallery)) /\
  List.length
    (children in_peers
       (document
          (selectForSwap "user-b" "scr2"
             (selectForSwap "local" "scr0" gallery)))) = 3%nat.
Proof.
  split; [reflexivity|].
  destruct (a_second_selection_ends_the_gesture_and_keeps_every_slot
              (selectForSwap "local" "scr0" gallery)
              (mkSelection "local" "scr0") "user-b" "scr2" eq_refl)
    as (H1 & _ & H3).
  split; [exact H1|]. rewrite H3. reflexivity.
Defined.

Lemma swap_with_a_missing_wrapper_moves_nothing_witness :
  swapSource sourceSelected = Some (mkSelection "user-a" "scr1") /\
  findVideoContainerByScreen "scr9" (document sourceSelected) = None /\
  map w_id
    (children in_peers
       (document (selectForSwap "user-z" "scr9" sourceSelected))) =
    [EmptyString; "user-a"] /\
  idle (selectForSwap "user-z" "scr9" sourceSelected).
Proof.
  split; [reflexivity|]. split; [reflexivity|].
  destruct (swap_with_a_missing_wrapper_moves_nothing sourceSelected
              (mkSelection "user-a" "scr1") "user-z" "scr9" eq_refl
              (or_intror eq_refl)) as (H1 & H2).
  split; [rewrite H1; reflexivity|exact H2].
Defined.




Lemma presentation_ended_removes_the_presentation_witness :
  selected (swapSource (selectForSwap "presentation-p3" "pr0" gallery))
    "presentation-p3" = true /\
  idle (removePresentation "p3"
          (selectForSwap "presentation-p3" "pr0" gallery)) /\
  JSMap.get "p3"
    (consumers
       (removePresentation "p3"
          (selectForSwap "presentation-p3" "pr0" gallery))) = None.
Proof.
  split; [reflexivity|].
  destruct (presentation_ended_removes_the_presentation "p3"
              (selectForSwap "presentation-p3" "pr0" gallery))
    as (H1 & _ & _ & _ & _ & _ & _ & H8 & _).
  split; [apply H8; left; reflexivity|exact H1].
Defined.

Lemma a_presentation_that_came_and_went_leaves_its_transport_witness :
  passes screenOfA true watching = true /\
  countId (slotId screenOfA true) (document watching) = O /\
  videoWrappers
    (document
       (removePresentation "p3"
          (consumePresentation (consumer_created "rt3" "c3" true) screenOfA
             watching))) =
    videoWrappers (document watching) /\
  JSMap.keys
    (consumerTransports
       (removePresentation "p3"
          (consumePresentation (consumer_created "rt3" "c3" true) screenOfA
             watching))) =
    ["rt1"; "rt3"].
Proof.
  split; [reflexivity|]. split; [reflexivity|].
  destruct (a_presentation_that_came_and_went_leaves_its_transport
              "rt3" "c3" true screenOfA watching eq_refl eq_refl eq_refl
              eq_refl eq_refl) as (_ & _ & _ & H4 & H5).
  split; [exact H4|exact (f_equal (@JSMap.keys string) H5)].
Defined.

Lemma user_left_removes_everything_of_the_user_witness :
  uniqueIds (document gallery) /\
  JSMap.get "a" (userStates (removeUser "a" gallery)) = None /\
  countId "user-a" (document (removeUser "a" gallery)) = O /\
  JSMap.keys (presentations gallery) = ["p3"] /\
  presentations (removeUser "a" gallery) = [].
Proof.
  split; [exact gallery_uniqueIds|].
  destruct (user_left_removes_everything_of_the_user "a" gallery)
    as (H1 & _ & _ & _ & H5 & _ & _ & H8 & _).
  split; [exact H1|].
  split; [exact (proj1 (H8 gallery_uniqueIds))|].
  split; [reflexivity|].
  rewrite H5; [reflexivity|].
  unfold JSMap.wf. repeat constructor. intros [].
Defined.

Lemma disconnect_resets_the_client_witness :
  handleDisconnect (handleDisconnect gallery) = handleDisconnect gallery /\
  map w_id (videoWrappers (document (handleDisconnect gallery))) =
    [EmptyString].
Proof.
  destruct (disconnect_resets_the_client gallery) as (H1 & _ & H3 & _).
  split; [exact H1|]. rewrite H3. reflexivity.
Defined.

Lemma stopped_screen_shares_leave_every_client_witness :
  map fst (filter (ownsScreen "a") (producers twoShares)) = ["p1"] /\
  JSMap.get "p1"
    (presentations
       (afterRemovals
          (removals
             (delivered "b" (snd (onStopScreenShare defaults "a" twoShares))))
          (consumePresentation (consumer_created "rt9" "c9" true)
             (mkDescriptor "p1" (Some "a") "video" (Some "screen") "Ann"
                true (Some 0) (Some 0))
             constructed))) = None.
Proof.
  split; [reflexivity|].
  destruct (stopped_screen_shares_leave_every_client defaults "a" "b"
              twoShares
              (consumePresentation (consumer_created "rt9" "c9" true)
                 (mkDescriptor "p1" (Some "a") "video" (Some "screen") "Ann"
                    true (Some 0) (Some 0))
                 constructed)) as (_ & H2 & _).
  destruct (H2 "p1" (or_introl eq_refl)) as (_ & H & _).
  exact H.
Defined.

Lemma a_disconnected_user_leaves_every_other_client_witness :
  "b" <> "a" /\
  removals (delivered "b" (snd (onDisconnect defaults "a" sharing))) =
    [user_gone "a"] /\
  JSMap.get "a"
    (userStates
       (afterRemovals
          (removals (delivered "b" (snd (onDisconnect defaults "a" sharing))))
          gallery)) = None.
Proof.
  assert ("b" <> "a") as Hne by discriminate.
  split; [exact Hne|].
  destruct (a_disconnected_user_leaves_every_other_client defaults "a" "b"
              sharing gallery Hne) as (H1 & H2 & _).
  split; [exact H1|exact H2].
Defined.


End ClientMoreScenarios.

(** ** Requests that name what a socket left behind *)

Module ServerRequestFacts.

Import Server ServerRequests ServerSpec.

Lemma get_removed {V : Type} (own : string * V -> bool) (m : JSMap.t V)
    (e : string * V) :
  In e m -> own e = true ->
  JSMap.get (fst e)
    (filter (fun x => negb (keyIn (map fst (filter own m)) x)) m) = None.
Proof.
  intros He Ho. rewrite RemovalFacts.get_filter_keyIn.
  assert (existsb (String.eqb (fst e)) (map fst (filter own m)) = true)
    as ->; [|reflexivity].
  apply existsb_exists. exists (fst e). split; [|apply String.eqb_refl].
  apply in_map, filter_In. now split.
Qed.

Section WithConfig.

Variable config : Config.

(** *** X28 *)

(** X28.  After the [disconnect] of a socket, the endpoints refuse every
    request that names what the socket had registered: on a transport of
    the socket, [POST /connect-transport] and [POST /consume] answer 404
    "Transport not found" and [POST /produce] answers the same and
    changes nothing; [POST /consume] of a producer of the socket answers
    404, whatever the engine would say.  After [stop-screen-share],
    [POST /consume] of a screen share of the socket answers 404 as
    well. *)
Theorem nothing_of_a_departed_socket_can_be_used (socketId : string)
    (s : RoomState) :
  let s' := fst (onDisconnect config socketId s) in
  let s'' := fst (onStopScreenShare config socketId s) in
  (forall e, In e (transports s) -> ownsTransport socketId e = true ->
     (forall answer,
        connectTransport answer (fst e) s' =
        json_failure 404 "Transport not found") /\
     (forall answer req, pr_transportId req = fst e ->
        produce config answer req s' = (s', NotFound, [])) /\
     (forall canConsume answer req, cs_transportId req = fst e ->
        consume canConsume answer req s' =
        json_failure 404 "Transport not found")) /\
  (forall e, In e (producers s) -> ownsProducer socketId e = true ->
     forall canConsume answer req, cs_producerId req = fst e ->
       exists error,
         consume canConsume answer req s' = json_failure 404 error) /\
  (forall e, In e (producers s) -> ownsScreen socketId e = true ->
     forall canConsume answer req, cs_producerId req = fst e ->
       exists error,
         consume canConsume answer req s'' = json_failure 404 error).
Proof.
  intros s' s''. subst s' s''. cbn [onDisconnect fst].
  split; [|split].
  - intros e He Ho.
    assert (Hg : JSMap.get (fst e)
                   (transports (cleanupUser config socketId s)) = None)
      by (rewrite ServerFacts.cleanupUser_transports;
          now apply get_removed).
    split; [|split].
    + intros answer. unfold connectTransport. now rewrite Hg.
    + intros answer req Hreq. unfold produce, produce_before.
      now rewrite Hreq, Hg.
    + intros canConsume answer req Hreq. unfold consume.
      now rewrite Hreq, Hg.
  - intros e He Ho canConsume answer req Hreq.
    assert (Hg : JSMap.get (fst e)
                   (producers (cleanupUser config socketId s)) = None)
      by (rewrite ServerFacts.cleanupUser_producers;
          now apply get_removed).
    unfold consume. rewrite Hreq, Hg.
    destruct (JSMap.get (cs_transportId req)
                (transports (cleanupUser config socketId s)));
      eexists; reflexivity.
  - intros e He Ho canConsume answer req Hreq.
    unfold onStopScreenShare.
    rewrite ServerMore.removeUserScreenShares_steps.
    pose proof (ServerMore.screenShareStep_fold config socketId
                  (producers s) [] s) as H.
    destruct (fold_left (screenShareStep config socketId) (producers s)
                ([], s)) as [removed s1].
    cbv zeta in H. cbn [fst snd] in H |- *.
    destruct H as (_ & H & _).
    assert (Hg : JSMap.get (fst e) (producers s1) = None)
      by (rewrite H; now apply get_removed).
    unfold consume. rewrite Hreq, Hg.
    destruct (JSMap.get (cs_transportId req) (transports s1));
      eexists; reflexivity.
Qed.

End WithConfig.

Lemma nothing_of_a_departed_socket_can_be_used_witness :
  JSMap.keys (transports sharing) = ["t1"] /\
  JSMap.keys (producers sharing) = ["p1"] /\
  connectTransport (resolved tt) "t1"
    (fst (onDisconnect defaults "a" sharing)) =
    json_failure 404 "Transport not found" /\
  exists error,
    consume true (resolved (mkConsumerInfo "c1" "p1" "video"))
      (mkConsumeRequest "t1" "p1")
      (fst (onStopScreenShare defaults "a" sharing)) =
    json_failure 404 error.
Proof.
  split; [reflexivity|]. split; [reflexivity|].
  destruct (nothing_of_a_departed_socket_can_be_used defaults "a" sharing)
    as (H1 & _ & H3).
  split.
  - destruct (H1 (nth 0 (transports sharing)
                    ("t1", mkTransportData "a" None))
                (or_introl eq_refl) eq_refl) as (H & _).
    exact (H (resolved tt)).
  - exact (H3 (nth 0 (producers sharing)
                 ("p1", mkProducerData None "video" "screen" None))
             (or_introl eq_refl) eq_refl true
             (resolved (mkConsumerInfo "c1" "p1" "video"))
             (mkConsumeRequest "t1" "p1") eq_refl).
Defined.

End ServerRequestFacts.

(** ** From a change on the server to the mirrors of the clients *)

Module UserChangeFacts.

Import Server ServerSpec Client ClientUsers ClientSpec ClientFacts.

Section WithConfig.

Variable config : Config.

(** *** X29 *)

(** X29.  A change of name reaches every other client as one
    [user-updated], and a client that knows the user then holds the
    server's entry: the name, the index and the two flags of its mirror
    are those of the server, whatever they were; the wrapper of the
    user, if the page has one, is titled with the new name and labelled
    with the index and keeps its id and its media, and no wrapper comes
    or goes.  A client that does not know the user ignores the
    message. *)
Theorem a_new_name_reaches_every_client_that_knows_the_user
    (socketId name who : string) (s : RoomState) (u : UserState)
    (c : VideoConference) :
  JSMap.get socketId (users s) = Some u -> who <> socketId ->
  let s' := fst (onSetName config socketId name s) in
  let c' :=
    afterChanges
      (changes (delivered who (snd (onSetName config socketId name s))))
      c in
  (JSMap.get socketId (userStates c) = None -> c' = c) /\
  (JSMap.get socketId (userStates c) <> None ->
   (exists u',
      JSMap.get socketId (users s') = Some u' /\
      JSMap.get socketId (userStates c') = Some (mirrorOf u')) /\
   (forall k, k <> socketId ->
      JSMap.get k (userStates c') = JSMap.get k (userStates c)) /\
   wrapperIds (document c') = wrapperIds (document c) /\
   (forall n w,
      getElementById ("user-" ++ socketId) (document c) = Some n ->
      nodeAt n (document c) = Some w ->
      exists w',
        nodeAt n (document c') = Some w' /\
        w_title w' = name /\
        w_label w' = "scr" ++ show_index (Some (u_userIndex u)) /\
        w_id w' = w_id w /\ w_video w' = w_video w /\
        w_audio w' = w_audio w) /\
   (getElementById ("user-" ++ socketId) (document c) = None ->
    document c' = document c)).
Proof.
  intros Hget Hwho s' c'. subst s' c'.
  unfold onSetName, getUserBySocketId. rewrite Hget.
  cbn [fst snd]. unfold delivered, changes, afterChanges, roomStatus.
  cbn [flat_map receives app].
  rewrite (proj2 (String.eqb_neq who socketId) Hwho).
  cbn [negb app flat_map changeOf fold_left onChange ui_socketId ui_name
       ui_userIndex ui_videoEnabled ui_audioEnabled users with_users].
  unfold updateUser. cbv zeta.
  generalize ("user-" ++ socketId) as id. intros id.
  split.
  - intros Hnone. now rewrite Hnone.
  - intros Hsome.
    destruct (JSMap.get socketId (userStates c)) as [m|]; [|congruence].
    cbn [document with_userStates].
    split.
    { eexists. split; [apply JSMapFacts.get_set_same|].
      destruct (getElementById id (document c));
        cbn [userStates with_document with_userStates];
        rewrite JSMapFacts.get_set_same; reflexivity. }
    split.
    { intros k Hk.
      destruct (getElementById id (document c));
        cbn [userStates with_document with_userStates];
        now apply JSMapFacts.get_set_other. }
    split.
    { destruct (getElementById id (document c)) as [n|];
        cbn [document with_document with_userStates]; [|reflexivity].
      now apply wrapperIds_updateNode. }
    split.
    { intros n w Hn Hw. rewrite Hn.
      cbn [document with_document with_userStates].
      eexists. split; [apply ClientMore.nodeAt_updateNode; exact Hw|].
      now split. }
    intros Hn. now rewrite Hn.
Qed.

End WithConfig.

(** *** X30 *)


Lemma a_new_name_reaches_every_client_that_knows_the_user_witness :
  JSMap.get "a" (users sharing) =
    Some (mkUserState "a" "Anonymous" true true 0) /\
  JSMap.get "a"
    (userStates
       (afterChanges
          (changes
             (delivered "b" (snd (onSetName defaults "a" "Ann B." sharing))))
          watching)) =
    Some (mkUserMirror "Ann B." (Some 0) true true) /\
  map w_title
    (peersContainer
       (document
          (afterChanges
             (changes
                (delivered "b"
                   (snd (onSetName defaults "a" "Ann B." sharing))))
             watching))) =
    ["You"; "Ann B."].
Proof.
  split; [reflexivity|].
  destruct (a_new_name_reaches_every_client_that_knows_the_user defaults
              "a" "Ann B." "b" sharing
              (mkUserState "a" "Anonymous" true true 0) watching eq_refl
              ltac:(discriminate)) as (_ & H).
  destruct (H ltac:(discriminate)) as ((u' & H1 & H2) & _).
  split; [|reflexivity].
  rewrite H2. injection H1 as <-. reflexivity.
Defined.


End UserChangeFacts.
